(** * OhioT1DM loader: [src/load_xml_data.py]

    A shallow embedding of [load_ohiot1dm_xml] and of the library calls it
    makes (ElementTree's [find] / [findall] / [get], the builtin [float],
    [pd.DataFrame], [DataFrame.empty] and [pd.to_datetime] with the format
    ["%d-%m-%Y %H:%M:%S"]), followed by the properties of the loader.

    Conventions.
    - A [string] is the sequence of the characters of a text, one [ascii]
      per character, the character with the code point of that number: the
      texts of the model are those of the code points below 256.
    - A Python exception is a value of [exn]; a computation that may raise
      has type [exn + A].  Calls of [pd.to_datetime] are recorded in a log,
      so that "this column was never parsed" is a statement about the run.
    - [pd.to_datetime] reads the clock for the texts ["now"] and ["today"]:
      a run is given the readings that its conversions would take, as a
      function of the call and of the position in the column.
    - A Python [float] is an IEEE binary64 value, written as a
      [SpecFloat.spec_float] in canonical form. *)

From Stdlib Require Import ZArith String Ascii List Lia SpecFloat.
From stdpp Require Import base option list gmap strings.

Local Open Scope string_scope.
Local Open Scope list_scope.
Local Open Scope Z_scope.

(** ** Exceptions and the two monads *)

Inductive exn : Type :=
| ParseError   (* xml.etree.ElementTree.ParseError, OSError: ET.parse failed *)
| TypeError    (* float(None) *)
| ValueError   (* float("abc"), to_datetime on text that does not match; also
                  pandas' OutOfBoundsDatetime, a subclass of ValueError *)
| KeyError.    (* df[col] on a frame without that column *)

#[global] Instance exn_eq_dec : EqDecision exn.
Proof. solve_decision. Defined.

(** Pure code that may raise. *)
Definition result (A : Type) : Type := exn + A.

#[global] Instance result_ret : MRet result := fun A x => inr x.
#[global] Instance result_bind : MBind result := fun A B f m =>
  match m with
  | inl e => inl e
  | inr a => f a
  end.

(** [mapM] with the position of each element: [for i in range(n)], the
    first raise ends the loop. *)
Fixpoint mapMi {A B} (f : nat -> A -> result B) (l : list A) : result (list B) :=
  match l with
  | [] => mret []
  | x :: l' => y ← f 0%nat x; k ← mapMi (fun i => f (S i)) l'; mret (y :: k)
  end.

(** One recorded call [pd.to_datetime(frame[column], format=...)]:
    [frame] is the name of the Python variable holding the frame. *)
Record call : Type := Call { frame : string; column : string }.

#[global] Instance call_eq_dec : EqDecision call.
Proof. solve_decision. Defined.

(** Code that may raise and that calls [pd.to_datetime]: the outcome and the
    calls made, in program order (calls made before a raise are kept). *)
Definition Py (A : Type) : Type := result A * list call.

#[global] Instance Py_ret : MRet Py := fun A x => (inr x, []).
#[global] Instance Py_bind : MBind Py := fun A B f m =>
  match m with
  | (inl e, log) => (inl e, log)
  | (inr a, log) => let '(r, log') := f a in (r, log ++ log')
  end.

Definition lift {A} (r : result A) : Py A := (r, []).
Definition tell (c : call) : Py unit := (inr tt, [c]).

Definition outcome {A} (m : Py A) : result A := fst m.
Definition calls {A} (m : Py A) : list call := snd m.

(** ** xml.etree.ElementTree *)

(** An element: its tag, its attribute dictionary and its children in
    document order. *)
#[local] Unset Elimination Schemes.
Inductive Element : Type :=
  mkElement { tag : string; attrib : gmap string string; children : list Element }.
#[local] Set Elimination Schemes.

(** [Element.find(path)] for a plain tag name: the first child with that
    tag, [None] when there is none. *)
Fixpoint find_first (path : string) (l : list Element) : option Element :=
  match l with
  | [] => None
  | c :: l' => if decide (tag c = path) then Some c else find_first path l'
  end.

Definition find (e : Element) (path : string) : option Element :=
  find_first path (children e).

(** [Element.findall(path)] for a plain tag name: every child with that tag,
    in document order. *)
Definition findall (e : Element) (path : string) : list Element :=
  filter (fun c => tag c = path) (children e).

(** [Element.get(key)]: the attribute text, [None] when the attribute is
    absent. *)
Definition get (e : Element) (key : string) : option string :=
  attrib e !! key.

(** [str.isascii()]: every character is below 128. *)
Definition is_ascii (s : string) : bool :=
  forallb (fun c => (N_of_ascii c <? 128)%N) (list_ascii_of_string s).

(** ** The builtin [float] on attribute text *)

(** A Python float: an IEEE binary64 value.  Finite values are kept in
    canonical form: [S754_finite s m e] stands for [(-1)^s * m * 2^e] with
    either [2^52 <= m < 2^53] and [-1074 <= e <= 971], or [e = -1074] and
    [m < 2^52]. *)
Definition float64 : Type := spec_float.

Module PyFloat.

Definition prec : Z := 53.
Definition emax : Z := 1024.
Definition emin : Z := -1074.

(** [m] and [e] are the canonical mantissa and exponent of a finite
    binary64 value. *)
Definition canonical (m e : Z) : Prop :=
  0 < m < 2 ^ prec /\ emin <= e <= emax - prec /\ (e = emin \/ 2 ^ (prec - 1) <= m).

(** Round-to-nearest, ties-to-even, of the non-negative rational [n / d]
    (with [0 <= n] and [0 < d]); [s] is the sign of the result.  A value
    too large for binary64 becomes an infinity, one too small a zero
    (CPython's [PyOS_string_to_double] is called without an overflow
    exception). *)
Definition round_ratio (s : bool) (n d : Z) : float64 :=
  if n =? 0 then S754_zero s else
  let e0 := Z.max emin (Z.log2 n - Z.log2 d - prec) in
  let q0 := (n * 2 ^ Z.max 0 (- e0)) / (d * 2 ^ Z.max 0 e0) in
  let e := if 2 ^ prec <=? q0 then e0 + 1 else e0 in
  let num := n * 2 ^ Z.max 0 (- e) in
  let den := d * 2 ^ Z.max 0 e in
  let q := num / den in
  let r := num mod den in
  let m := if 2 * r <? den then q
           else if 2 * r =? den then (if Z.even q then q else q + 1)
           else q + 1 in
  let '(m, e) := if m =? 2 ^ prec then (2 ^ (prec - 1), e + 1) else (m, e) in
  if m =? 0 then S754_zero s
  else if emax - prec <? e then S754_infinity s
  else S754_finite s (Z.to_pos m) e.

(** The decimal [(-1)^s * m * 10^e], correctly rounded. *)
Definition of_decimal (s : bool) (m e : Z) : float64 :=
  if 0 <=? e then round_ratio s (m * 10 ^ e) 1 else round_ratio s m (10 ^ (- e)).

Definition code (c : ascii) : Z := Z.of_N (N_of_ascii c).

(** [Py_ISSPACE]: space, \t, \n, \v, \f, \r. *)
Definition is_space (c : ascii) : bool :=
  (code c =? 32) || ((9 <=? code c) && (code c <=? 13)).

Definition is_digit (c : ascii) : bool := (48 <=? code c) && (code c <=? 57).

Definition digit_value (c : ascii) : Z := code c - 48.

Definition lower (c : ascii) : ascii :=
  if (65 <=? code c) && (code c <=? 90) then ascii_of_N (N_of_ascii c + 32) else c.

Fixpoint lowercase (s : string) : string :=
  match s with
  | String c s' => String (lower c) (lowercase s')
  | EmptyString => EmptyString
  end.

Fixpoint lstrip (s : string) : string :=
  match s with
  | String c s' => if is_space c then lstrip s' else s
  | EmptyString => EmptyString
  end.

(** Leading and trailing whitespace is removed. *)
Definition strip (s : string) : string :=
  String.rev (lstrip (String.rev (lstrip s))).

(** [Py_UNICODE_ISSPACE] below 256: the whitespace of ASCII, the separators
    FS, GS, RS and US, NEL and the no-break space. *)
Definition is_unicode_space (c : ascii) : bool :=
  is_space c || ((28 <=? code c) && (code c <=? 31))
  || (code c =? 133) || (code c =? 160).

(** [_PyUnicode_TransformDecimalAndSpaceToASCII] on text that is not ASCII:
    a character below 127 is kept, another whitespace character becomes a
    space, a decimal digit of another script its ASCII digit; at any other
    character the text is cut and ends in a question mark.  No character
    from 127 to 255 is a decimal digit. *)
Fixpoint transform (s : string) : string :=
  match s with
  | EmptyString => EmptyString
  | String c s' =>
      if code c <? 127 then String c (transform s')
      else if is_unicode_space c then String " " (transform s')
      else "?"
  end.

(** ASCII text is passed on as it is. *)
Definition to_ascii (s : string) : string :=
  if is_ascii s then s else transform s.

(** [_Py_string_to_number_with_underscores]: an underscore must stand
    between two digits; [prev] is the character before [s]. *)
Fixpoint underscores_ok (prev : option ascii) (s : string) : bool :=
  match s with
  | EmptyString => negb (bool_decide (prev = Some "_"%char))
  | String c s' =>
      (if bool_decide (c = "_"%char)
       then match prev with Some p => is_digit p | None => false end
       else if bool_decide (prev = Some "_"%char) then is_digit c else true)
      && underscores_ok (Some c) s'
  end.

Fixpoint remove_underscores (s : string) : string :=
  match s with
  | EmptyString => EmptyString
  | String c s' =>
      if bool_decide (c = "_"%char) then remove_underscores s'
      else String c (remove_underscores s')
  end.

(** The longest prefix of decimal digits, read as a number on top of
    [acc], with the count of digits read and the rest of the text. *)
Fixpoint digits (acc : Z) (n : Z) (s : string) : Z * Z * string :=
  match s with
  | String c s' =>
      if is_digit c then digits (10 * acc + digit_value c) (n + 1) s' else (acc, n, s)
  | EmptyString => (acc, n, s)
  end.

(** An optional sign: [true] for a minus. *)
Definition sign (s : string) : bool * string :=
  match s with
  | String "-" s' => (true, s')
  | String "+" s' => (false, s')
  | _ => (false, s)
  end.

(** The exponent part: empty, or [e]/[E], an optional sign and at least
    one digit, up to the end of the text. *)
Definition exponent (s : string) : option Z :=
  match s with
  | EmptyString => Some 0
  | String c s' =>
      if bool_decide (lower c = "e"%char) then
        let '(neg, s1) := sign s' in
        let '(x, n, s2) := digits 0 0 s1 in
        if (0 <? n) && bool_decide (s2 = EmptyString)
        then Some (if neg then - x else x) else None
      else None
  end.

(** [digitpart ["." [digitpart]] | "." digitpart], then the exponent: the
    mantissa and the power of ten of the number denoted. *)
Definition decimal (s : string) : option (Z * Z) :=
  let '(i, ni, s1) := digits 0 0 s in
  let '(m, nf, s2) :=
    match s1 with
    | String "." s' => let '(m, nf, s2) := digits i 0 s' in (m, nf, s2)
    | _ => (i, 0, s1)
    end in
  if 0 <? ni + nf then
    match exponent s2 with
    | Some x => Some (m, x - nf)
    | None => None
    end
  else None.

(** What the text of a float denotes: an infinity, a NaN, or the decimal
    [(-1)^neg * m * 10^e]. *)
Inductive literal : Type :=
| Infinity (neg : bool)
| NaN
| Decimal (neg : bool) (m e : Z).

(** [_Py_parse_inf_or_nan], on the text after the sign. *)
Definition inf_or_nan (neg : bool) (s : string) : option literal :=
  let l := lowercase s in
  if bool_decide (l = "inf") || bool_decide (l = "infinity") then Some (Infinity neg)
  else if bool_decide (l = "nan") then Some NaN
  else None.

(** The grammar of [float(str)]; [None] when the text is no float. *)
Definition parse_literal (text : string) : option literal :=
  let s := strip (to_ascii text) in
  if underscores_ok None s then
    let '(neg, s1) := sign (remove_underscores s) in
    match inf_or_nan neg s1 with
    | Some l => Some l
    | None =>
        match decimal s1 with
        | Some (m, e) => Some (Decimal neg m e)
        | None => None
        end
    end
  else None.

(** The binary64 value nearest to what the text denotes. *)
Definition of_literal (l : literal) : float64 :=
  match l with
  | Infinity neg => S754_infinity neg
  | NaN => S754_nan
  | Decimal neg m e => of_decimal neg m e
  end.

(** [float(str)]: [None] stands for the [ValueError] "could not convert
    string to float". *)
Definition of_string (text : string) : option float64 :=
  of_literal <$> parse_literal text.

(** The finite value [x] is exactly [(-1)^neg * n / d]. *)
Definition exactly (x : float64) (neg : bool) (n d : Z) : Prop :=
  exists m e, x = S754_finite neg (Z.to_pos m) e /\ canonical m e
              /\ n * 2 ^ Z.max 0 (- e) = m * 2 ^ Z.max 0 e * d.

End PyFloat.

(** [float(x)] where [x] is the result of [Element.get]: [float(None)]
    raises [TypeError], text that is not a number raises [ValueError]. *)
Definition float (x : option string) : result float64 :=
  match x with
  | None => inl TypeError
  | Some text =>
      match PyFloat.of_string text with
      | Some v => inr v
      | None => inl ValueError
      end
  end.

(** ** Timestamps and the format ["%d-%m-%Y %H:%M:%S"] *)

(** The chronological value of a parsed timestamp, by its calendar fields
    (what [Timestamp.year], [.month], ... return); the format has no
    fraction of a second. *)
Record Timestamp : Type :=
  mkTimestamp { year : Z; month : Z; day : Z; hour : Z; minute : Z; second : Z }.

#[global] Instance Timestamp_eq_dec : EqDecision Timestamp.
Proof. solve_decision. Defined.

Module strptime.

Import PyFloat.

(** The regular expression of a format is a sequence of directives,
    whitespace runs ([\s+]) and literal characters
    ([_strptime.TimeRE.pattern], which pandas' [TimeRE] inherits). *)
Inductive item : Type :=
| Directive (c : ascii)
| Whitespace
| Literal (c : ascii).

(** [\s] of a [str] pattern: the whitespace of Unicode; [\d]: its decimal
    digits, which below 256 are those of ASCII. *)
Definition is_re_space (c : ascii) : bool := is_unicode_space c.

Definition starts_with_space (s : string) : bool :=
  match s with
  | String c _ => is_re_space c
  | EmptyString => false
  end.

Fixpoint pattern (fmt : string) : list item :=
  match fmt with
  | EmptyString => []
  | String c r =>
      if bool_decide (c = "%"%char) then
        match r with
        | String d r' => Directive d :: pattern r'
        | EmptyString => [Literal c]
        end
      else if is_re_space c then
        (if starts_with_space r then pattern r else Whitespace :: pattern r)
      else Literal c :: pattern r
  end.

Definition between (lo hi : ascii) (c : ascii) : bool :=
  (code lo <=? code c) && (code c <=? code hi).

(** Two characters, one character: the alternatives of a directive. *)
Definition two (p1 p2 : ascii -> bool) (s : string) : option (Z * string) :=
  match s with
  | String a (String b r) =>
      if p1 a && p2 b then Some (10 * digit_value a + digit_value b, r) else None
  | _ => None
  end.

Definition one (p : ascii -> bool) (s : string) : option (Z * string) :=
  match s with
  | String a r => if p a then Some (digit_value a, r) else None
  | EmptyString => None
  end.

(** [a1|a2|...]: the first alternative that matches. *)
Fixpoint alternatives (alts : list (string -> option (Z * string))) (s : string)
  : option (Z * string) :=
  match alts with
  | [] => None
  | a :: alts' =>
      match a s with
      | Some x => Some x
      | None => alternatives alts' s
      end
  end.

Definition after_space (a : string -> option (Z * string)) (s : string)
  : option (Z * string) :=
  match s with
  | String " " r => a r
  | _ => None
  end.

Definition four_digits (s : string) : option (Z * string) :=
  match two is_digit is_digit s with
  | Some (hi, r) =>
      match two is_digit is_digit r with
      | Some (lo, r') => Some (100 * hi + lo, r')
      | None => None
      end
  | None => None
  end.

(** The alternatives of each directive, tried in the order of the regular
    expression.  In this format every directive but the last is followed
    by a character that is no digit, and the whole text must be used up,
    so trying a later alternative after an earlier one has matched cannot
    turn a failure into a match. *)
Definition directive (c : ascii) (s : string) : option (Z * string) :=
  if bool_decide (c = "d"%char) then        (* 3[0-1]|[1-2]\d|0[1-9]|[1-9]| [1-9] *)
    alternatives [ two (between "3" "3") (between "0" "1");
                   two (between "1" "2") is_digit;
                   two (between "0" "0") (between "1" "9");
                   one (between "1" "9");
                   after_space (one (between "1" "9")) ] s
  else if bool_decide (c = "m"%char) then   (* 1[0-2]|0[1-9]|[1-9] *)
    alternatives [ two (between "1" "1") (between "0" "2");
                   two (between "0" "0") (between "1" "9");
                   one (between "1" "9") ] s
  else if bool_decide (c = "Y"%char) then   (* \d\d\d\d *)
    four_digits s
  else if bool_decide (c = "H"%char) then   (* 2[0-3]|[0-1]\d|\d *)
    alternatives [ two (between "2" "2") (between "0" "3");
                   two (between "0" "1") is_digit;
                   one is_digit ] s
  else if bool_decide (c = "M"%char) then   (* [0-5]\d|\d *)
    alternatives [ two (between "0" "5") is_digit; one is_digit ] s
  else if bool_decide (c = "S"%char) then   (* 6[0-1]|[0-5]\d|\d *)
    alternatives [ two (between "6" "6") (between "0" "1");
                   two (between "0" "5") is_digit;
                   one is_digit ] s
  else None.

Definition store (c : ascii) (v : Z) (t : Timestamp) : Timestamp :=
  if bool_decide (c = "d"%char) then
    mkTimestamp (year t) (month t) v (hour t) (minute t) (second t)
  else if bool_decide (c = "m"%char) then
    mkTimestamp (year t) v (day t) (hour t) (minute t) (second t)
  else if bool_decide (c = "Y"%char) then
    mkTimestamp v (month t) (day t) (hour t) (minute t) (second t)
  else if bool_decide (c = "H"%char) then
    mkTimestamp (year t) (month t) (day t) v (minute t) (second t)
  else if bool_decide (c = "M"%char) then
    mkTimestamp (year t) (month t) (day t) (hour t) v (second t)
  else mkTimestamp (year t) (month t) (day t) (hour t) (minute t) v.

Fixpoint lstrip_re (s : string) : string :=
  match s with
  | String c s' => if is_re_space c then lstrip_re s' else s
  | EmptyString => EmptyString
  end.

(** Match the items from the start of [s]; the fields found and the text
    left over. *)
Fixpoint match_items (items : list item) (s : string) (t : Timestamp)
  : option (Timestamp * string) :=
  match items with
  | [] => Some (t, s)
  | Directive c :: items' =>
      match directive c s with
      | Some (v, r) => match_items items' r (store c v t)
      | None => None
      end
  | Whitespace :: items' =>
      if starts_with_space s then match_items items' (lstrip_re s) t else None
  | Literal c :: items' =>
      match s with
      | String a r => if bool_decide (a = c) then match_items items' r t else None
      | EmptyString => None
      end
  end.

Definition is_leap (y : Z) : bool :=
  (y mod 4 =? 0) && (negb (y mod 100 =? 0) || (y mod 400 =? 0)).

Definition days_in_month (y m : Z) : Z :=
  if m =? 2 then (if is_leap y then 29 else 28)
  else if (m =? 4) || (m =? 6) || (m =? 9) || (m =? 11) then 30
  else 31.

(** [datetime.date(year, month, day)] accepts the fields. *)
Definition valid_date (y m d : Z) : bool :=
  (1 <=? y) && (y <=? 9999) && (1 <=? m) && (m <=? 12)
  && (1 <=? d) && (d <=? days_in_month y m).

(** The day after. *)
Definition next_day (t : Timestamp) : Timestamp :=
  if day t <? days_in_month (year t) (month t)
  then mkTimestamp (year t) (month t) (day t + 1) (hour t) (minute t) (second t)
  else if month t <? 12
  then mkTimestamp (year t) (month t + 1) 1 (hour t) (minute t) (second t)
  else mkTimestamp (year t + 1) 1 1 (hour t) (minute t) (second t).

(** The regular expression lets the seconds be 60 or 61; the fields are
    then turned into a point in time by plain arithmetic, which carries
    the extra minute over. *)
Definition normalize (t : Timestamp) : Timestamp :=
  if second t <? 60 then t else
  let t := mkTimestamp (year t) (month t) (day t) (hour t) (minute t + 1) (second t - 60) in
  if minute t <? 60 then t else
  let t := mkTimestamp (year t) (month t) (day t) (hour t + 1) (minute t - 60) (second t) in
  if hour t <? 24 then t else
  next_day (mkTimestamp (year t) (month t) (day t) (hour t - 24) (minute t) (second t)).

(** Fields that the format does not set. *)
Definition defaults : Timestamp := mkTimestamp 1900 1 1 0 0 0.

(** Parse [text] with [fmt], all of [text] being used ([exact=True]);
    [None] stands for the [ValueError]. *)
Definition parse (fmt text : string) : option Timestamp :=
  match match_items (pattern fmt) text defaults with
  | Some (t, EmptyString) =>
      if valid_date (year t) (month t) (day t) then Some (normalize t) else None
  | _ => None
  end.

End strptime.

(** ** pandas *)

(** What a cell of a frame holds in this program. *)
Inductive value : Type :=
| VNone                       (* None *)
| VStr (s : string)           (* str *)
| VFloat (x : float64)        (* float *)
| VTimestamp (t : Timestamp)  (* pandas.Timestamp *)
| VNaT.                       (* pandas.NaT *)

#[global] Instance spec_float_eq_dec : EqDecision spec_float.
Proof. solve_decision. Defined.

#[global] Instance value_eq_dec : EqDecision value.
Proof. solve_decision. Defined.

(** A Python dict literal with string keys, in insertion order. *)
Definition record : Type := list (string * value).

(** [dict[key]] read as an option. *)
Fixpoint lookup_key (key : string) (r : record) : option value :=
  match r with
  | [] => None
  | (k, v) :: r' => if decide (k = key) then Some v else lookup_key key r'
  end.

Module pd.

(** A frame: the column labels and the rows, each row aligned with the
    labels. *)
Record DataFrame : Type := mkDataFrame { columns : list string; data : list (list value) }.

(** The labels of the records in order of first appearance. *)
Fixpoint union_keys (seen : list string) (keys : list string) : list string :=
  match keys with
  | [] => seen
  | k :: keys' =>
      if decide (k ∈ seen) then union_keys seen keys' else union_keys (seen ++ [k]) keys'
  end.

(** [pd.DataFrame(records)] for a list of dicts: one row per record, one
    column per key; a key that a record lacks reads as NaN. *)
Definition DataFrame_ (records : list record) : DataFrame :=
  let cols := union_keys [] (concat (map (map fst) records)) in
  mkDataFrame cols
    (map (fun r => map (fun k => default (VFloat S754_nan) (lookup_key k r)) cols) records).

(** [len(df)] *)
Definition len (df : DataFrame) : nat := length (data df).

(** [df.empty]: some axis has length 0. *)
Definition empty (df : DataFrame) : bool :=
  bool_decide (columns df = []) || bool_decide (data df = []).

Fixpoint index_of (col : string) (cols : list string) : option nat :=
  match cols with
  | [] => None
  | c :: cols' => if decide (c = col) then Some 0%nat else S <$> index_of col cols'
  end.

(** [df[col]]: the column as a series, [KeyError] without such a column. *)
Definition getitem (df : DataFrame) (col : string) : result (list value) :=
  match index_of col (columns df) with
  | Some j => inr (map (fun row => default (VFloat S754_nan) (row !! j)) (data df))
  | None => inl KeyError
  end.

(** [df[col] = series] with a series on the index of [df]: the column is
    replaced, or added as the last one; a series of another length is
    refused. *)
Definition setitem (df : DataFrame) (col : string) (series : list value) : result DataFrame :=
  if decide (length series = length (data df)) then
    match index_of col (columns df) with
    | Some j => inr (mkDataFrame (columns df)
                       (zip_with (fun row v => <[j := v]> row) (data df) series))
    | None => inr (mkDataFrame (columns df ++ [col])
                     (zip_with (fun row v => row ++ [v]) (data df) series))
    end
  else inl ValueError.

(** [nat_strings] of pandas: text read as a missing timestamp. *)
Definition nat_strings : list string := ["NaT"; "nat"; "NAT"; "nan"; "NaN"; "NAN"].

(** [pd.Timestamp.min] is 1677-09-21 00:12:43.145224193 and
    [pd.Timestamp.max] is 2262-04-11 23:47:16.854775807 (a count of
    nanoseconds in 64 bits): of the whole seconds, those from [earliest] to
    [latest] are within. *)
Definition earliest : Timestamp := mkTimestamp 1677 9 21 0 12 44.
Definition latest : Timestamp := mkTimestamp 2262 4 11 23 47 16.

Definition fields (t : Timestamp) : list Z :=
  [year t; month t; day t; hour t; minute t; second t].

Fixpoint lexicographic_le (a b : list Z) : bool :=
  match a, b with
  | x :: a', y :: b' => (x <? y) || ((x =? y) && lexicographic_le a' b')
  | _, _ => true
  end.

Definition in_bounds (t : Timestamp) : bool :=
  lexicographic_le (fields earliest) (fields t)
  && lexicographic_le (fields t) (fields latest).

(** One element of [pd.to_datetime(series, format=fmt)] (pandas 2,
    [array_strptime], [errors="raise"]), in the order of the source: a
    missing value, the empty text and the texts of [nat_strings] give [NaT]
    without being matched against the format; the texts ["now"] and
    ["today"] give the time that the clock shows ([parse_today_now]: [now]
    is that reading, [Timestamp.now()] or [Timestamp.today()]); other text
    is parsed with the format or raises [ValueError]; a parsed time outside
    the range of a timestamp raises [OutOfBoundsDatetime], a [ValueError].
    The loader passes columns of [None] and text only; a timestamp is kept,
    a NaN is missing, and the text of any other float does not match a
    format that starts with a day. *)
Definition to_datetime_value (now : Timestamp) (fmt : string) (v : value) : result value :=
  match v with
  | VNone | VNaT | VFloat S754_nan => inr VNaT
  | VStr text =>
      if bool_decide (text = "") || bool_decide (text ∈ nat_strings) then inr VNaT
      else if bool_decide (text = "now") || bool_decide (text = "today")
      then inr (VTimestamp now)
      else match strptime.parse fmt text with
           | Some t => if in_bounds t then inr (VTimestamp t) else inl ValueError
           | None => inl ValueError
           end
  | VTimestamp t => inr (VTimestamp t)
  | VFloat _ => inl ValueError
  end.

(** [pd.to_datetime(series, format=fmt)]: element by element, the first
    text that does not convert raises.  [now i] is what the clock shows
    when element [i] is converted. *)
Definition to_datetime (now : nat -> Timestamp) (series : list value) (fmt : string)
  : result (list value) :=
  mapMi (fun i => to_datetime_value (now i) fmt) series.

End pd.

(** ** The loader *)

Import pd.

(** The format of every [pd.to_datetime] call of the loader. *)
Definition FORMAT : string := "%d-%m-%Y %H:%M:%S".

(** The Python object that [event.get(key)] evaluates to. *)
Definition text (x : option string) : value :=
  match x with
  | Some s => VStr s
  | None => VNone
  end.

(** The dict literals of the six loops (lines 41-44, 50-53, 59-63, 69-75,
    81-85, 91-94).  [event.get] does not raise; the calls of [float], which
    may, are made in the order written. *)
Definition glucose_record (event : Element) : result record :=
  value ← float (get event "value");
  mret [("timestamp", text (get event "ts")); ("value", VFloat value)].

Definition basal_record (event : Element) : result record :=
  value ← float (get event "value");
  mret [("timestamp", text (get event "ts")); ("value", VFloat value)].

Definition tempbasal_record (event : Element) : result record :=
  value ← float (get event "value");
  mret [("ts_begin", text (get event "ts_begin"));
        ("ts_end", text (get event "ts_end"));
        ("value", VFloat value)].

Definition bolus_record (event : Element) : result record :=
  dose ← float (get event "dose");
  bwz_carb_input ← float (get event "bwz_carb_input");
  mret [("ts_begin", text (get event "ts_begin"));
        ("ts_end", text (get event "ts_end"));
        ("type", text (get event "type"));
        ("dose", VFloat dose);
        ("bwz_carb_input", VFloat bwz_carb_input)].

Definition meal_record (event : Element) : result record :=
  carbs ← float (get event "carbs");
  mret [("timestamp", text (get event "ts"));
        ("type", text (get event "type"));
        ("carbs", VFloat carbs)].

Definition step_record (event : Element) : result record :=
  value ← float (get event "value");
  mret [("timestamp", text (get event "ts")); ("value", VFloat value)].

(** [if section is not None: for event in section.findall('event'):
    data.append({...})], starting from an empty list. *)
Definition collect (section : option Element) (record_of : Element -> result record)
  : result (list record) :=
  match section with
  | Some s => mapM record_of (findall s "event")
  | None => mret []
  end.

(** The readings of the clock during a run: [clock cl i] is what the clock
    shows when the call [cl] of [pd.to_datetime] converts the element at
    position [i] of its column. *)
Definition Clock : Type := call -> nat -> Timestamp.

Section Loader.

Variable clock : Clock.

(** [df[col] = pd.to_datetime(df[col], format='%d-%m-%Y %H:%M:%S')] on the
    frame held by the variable [name]. *)
Definition convert (name : string) (df : DataFrame) (col : string) : Py DataFrame :=
  series ← lift (getitem df col);
  _ ← tell (Call name col);
  parsed ← lift (to_datetime (clock (Call name col)) series FORMAT);
  lift (setitem df col parsed).

(** [load_ohiot1dm_xml(xml_file_path)].  The argument is what
    [ET.parse(xml_file_path).getroot()] gives for the path: the root of the
    document, or the exception of a file that cannot be read or parsed. *)
Definition load_ohiot1dm_xml (xml_file : result Element) : Py (gmap string DataFrame) :=
  root ← lift xml_file;
  glucose_data ← lift (collect (find root "glucose_level") glucose_record);
  basal_data ← lift (collect (find root "basal") basal_record);
  tempbasal_data ← lift (collect (find root "temp_basal") tempbasal_record);
  bolus_data ← lift (collect (find root "bolus") bolus_record);
  meal_data ← lift (collect (find root "meal") meal_record);
  step_data ← lift (collect (find root "basis_steps") step_record);
  let df_glucose := DataFrame_ glucose_data in
  let df_basal := DataFrame_ basal_data in
  let df_tempbasal := DataFrame_ tempbasal_data in
  let df_bolus := DataFrame_ bolus_data in
  let df_meal := DataFrame_ meal_data in
  let df_step := DataFrame_ step_data in
  df_glucose ←
    (if empty df_glucose then mret df_glucose
     else convert "df_glucose" df_glucose "timestamp");
  df_basal ←
    (if empty df_basal then mret df_basal
     else convert "df_basal" df_basal "timestamp");
  df_tempbasal ←
    (if empty df_tempbasal then mret df_tempbasal
     else df ← convert "df_tempbasal" df_tempbasal "ts_begin";
          convert "df_tempbasal" df "ts_end");
  df_bolus ←
    (if empty df_bolus then mret df_bolus
     else df ← convert "df_bolus" df_bolus "ts_begin";
          convert "df_bolus" df "ts_end");
  df_meal ←
    (if empty df_meal then mret df_meal
     else convert "df_meal" df_meal "timestamp");
  df_step ←
    (if empty df_step then mret df_step
     else convert "df_step" df_step "timestamp");
  mret (<["glucose_level" := df_glucose]>
        (<["basal" := df_basal]>
         (<["tempbasal" := df_tempbasal]>
          (<["bolus" := df_bolus]>
           (<["meal" := df_meal]>
            (<["step" := df_step]> ∅)))))).

(** ** The six categories *)

(** The loader repeats one pattern six times.  The tables below read the
    parameters of each repetition off the source, so that a property can be
    stated once for every category. *)
Inductive category : Type :=
| glucose_level | basal | temp_basal | bolus | meal | basis_steps.

#[global] Instance category_eq_dec : EqDecision category.
Proof. solve_decision. Defined.

(** The tag of the section, as passed to [root.find]. *)
Definition section (c : category) : string :=
  match c with
  | glucose_level => "glucose_level"
  | basal => "basal"
  | temp_basal => "temp_basal"
  | bolus => "bolus"
  | meal => "meal"
  | basis_steps => "basis_steps"
  end.

(** The key of the table in the returned dict (lines 125-132). *)
Definition key (c : category) : string :=
  match c with
  | glucose_level => "glucose_level"
  | basal => "basal"
  | temp_basal => "tempbasal"
  | bolus => "bolus"
  | meal => "meal"
  | basis_steps => "step"
  end.

(** The Python variable that holds the frame. *)
Definition variable (c : category) : string :=
  match c with
  | glucose_level => "df_glucose"
  | basal => "df_basal"
  | temp_basal => "df_tempbasal"
  | bolus => "df_bolus"
  | meal => "df_meal"
  | basis_steps => "df_step"
  end.

Definition record_of (c : category) : Element -> result record :=
  match c with
  | glucose_level => glucose_record
  | basal => basal_record
  | temp_basal => tempbasal_record
  | bolus => bolus_record
  | meal => meal_record
  | basis_steps => step_record
  end.

(** The fields of a record as pairs (column, attribute read), by kind:
    passed through [float], passed to [pd.to_datetime], kept as text. *)
Definition numeric_fields (c : category) : list (string * string) :=
  match c with
  | bolus => [("dose", "dose"); ("bwz_carb_input", "bwz_carb_input")]
  | meal => [("carbs", "carbs")]
  | _ => [("value", "value")]
  end.

Definition timestamp_fields (c : category) : list (string * string) :=
  match c with
  | temp_basal | bolus => [("ts_begin", "ts_begin"); ("ts_end", "ts_end")]
  | _ => [("timestamp", "ts")]
  end.

Definition string_fields (c : category) : list (string * string) :=
  match c with
  | bolus | meal => [("type", "type")]
  | _ => []
  end.

Definition timestamp_columns (c : category) : list string :=
  map fst (timestamp_fields c).

(** The [event] elements that the loader visits for a category: those
    directly under the section that [root.find] returns. *)
Definition events (root : Element) (c : category) : list Element :=
  match find root (section c) with
  | Some s => findall s "event"
  | None => []
  end.

(** The conversions of one frame, one column after the other. *)
Fixpoint convert_all (name : string) (df : DataFrame) (cols : list string) : Py DataFrame :=
  match cols with
  | [] => mret df
  | [col] => convert name df col
  | col :: cols' => df' ← convert name df col; convert_all name df' cols'
  end.

(** [if not df.empty: ...] with the conversions of the category. *)
Definition finish (c : category) (df : DataFrame) : Py DataFrame :=
  if empty df then mret df else convert_all (variable c) df (timestamp_columns c).

(** All that the loader does for one category: the loop, the frame, the
    conversions. *)
Definition table (c : category) (root : Element) : Py DataFrame :=
  data ← lift (collect (find root (section c)) (record_of c));
  finish c (DataFrame_ data).

(** The row that the event at position [i] of its section ends up as: the
    values of its record, those of the timestamp columns converted, each by
    the call made for its column. *)
Definition convert_record (c : category) (i : nat) (r : record) : result (list value) :=
  mapM (fun kv : string * value =>
          if existsb (String.eqb kv.1) (timestamp_columns c)
          then to_datetime_value (clock (Call (variable c) kv.1) i) FORMAT kv.2
          else inr kv.2) r.

Definition row_of (c : category) (i : nat) (event : Element) : result (list value) :=
  r ← record_of c event; convert_record c i r.

(** The keys of the returned dict as the specification names them, and as
    the source (docstring and return statement) names them. *)
Definition spec_keys : gset string :=
  {[ "glucose_level"; "basal"; "temp_basal"; "bolus"; "meal"; "basis_steps" ]}.

Definition source_keys : gset string :=
  {[ "glucose_level"; "basal"; "tempbasal"; "bolus"; "meal"; "step" ]}.

(** The dict that the loader returns, given the six frames. *)
Definition tables_of (f : category -> DataFrame) : gmap string DataFrame :=
  <[key glucose_level := f glucose_level]>
  (<[key basal := f basal]>
   (<[key temp_basal := f temp_basal]>
    (<[key bolus := f bolus]>
     (<[key meal := f meal]>
      (<[key basis_steps := f basis_steps]> ∅))))).

(** The column labels of a category, in the order of the dict literal. *)
Definition field_names (c : category) : list string :=
  match c with
  | temp_basal => ["ts_begin"; "ts_end"; "value"]
  | bolus => ["ts_begin"; "ts_end"; "type"; "dose"; "bwz_carb_input"]
  | meal => ["timestamp"; "type"; "carbs"]
  | _ => ["timestamp"; "value"]
  end.

(** The cell of row [i] in the column [col]. *)
Definition cell (df : DataFrame) (i : nat) (col : string) : option value :=
  j ← index_of col (columns df);
  row ← data df !! i;
  row !! j.

(** ** Sample documents *)

(** [<event k1="v1" ... />] *)
Definition event_ (attributes : list (string * string)) : Element :=
  mkElement "event" (list_to_map attributes) [].

(** A document without any section. *)
Definition empty_document : Element := mkElement "patient" ∅ [].

(** One glucose reading and one bolus, the other sections absent. *)
Definition sample_document : Element :=
  mkElement "patient" ∅
    [ mkElement "glucose_level" ∅
        [ event_ [("ts", "01-01-2021 00:00:00"); ("value", "120.5")] ];
      mkElement "bolus" ∅
        [ event_ [("ts_begin", "01-01-2021 00:05:00"); ("ts_end", "01-01-2021 00:10:00");
                  ("type", "normal"); ("dose", "2.5"); ("bwz_carb_input", "30.0")] ] ].

(** 120.5, 2.5 and 30.0 as binary64 values. *)
Definition f120_5 : float64 := S754_finite false 8479433673408512 (-46).
Definition f2_5 : float64 := S754_finite false 5629499534213120 (-51).
Definition f30_0 : float64 := S754_finite false 8444249301319680 (-48).

(** What the loader returns for [sample_document]. *)
Definition sample_frames (c : category) : DataFrame :=
  match c with
  | glucose_level =>
      mkDataFrame ["timestamp"; "value"]
        [[VTimestamp (mkTimestamp 2021 1 1 0 0 0); VFloat f120_5]]
  | bolus =>
      mkDataFrame ["ts_begin"; "ts_end"; "type"; "dose"; "bwz_carb_input"]
        [[VTimestamp (mkTimestamp 2021 1 1 0 5 0); VTimestamp (mkTimestamp 2021 1 1 0 10 0);
          VStr "normal"; VFloat f2_5; VFloat f30_0]]
  | _ => mkDataFrame [] []
  end.

Definition sample_tables : gmap string DataFrame := tables_of sample_frames.

(** Three glucose readings, neither in chronological order nor distinct. *)
Definition three_events_document : Element :=
  mkElement "patient" ∅
    [ mkElement "glucose_level" ∅
        [ event_ [("ts", "03-01-2021 00:00:00"); ("value", "3")];
          event_ [("ts", "01-01-2021 00:00:00"); ("value", "1")];
          event_ [("ts", "03-01-2021 00:00:00"); ("value", "3")] ] ].

Definition f1 : float64 := S754_finite false 4503599627370496 (-52).
Definition f3 : float64 := S754_finite false 6755399441055744 (-51).

Definition three_events_frames (c : category) : DataFrame :=
  match c with
  | glucose_level =>
      mkDataFrame ["timestamp"; "value"]
        [[VTimestamp (mkTimestamp 2021 1 3 0 0 0); VFloat f3];
         [VTimestamp (mkTimestamp 2021 1 1 0 0 0); VFloat f1];
         [VTimestamp (mkTimestamp 2021 1 3 0 0 0); VFloat f3]]
  | _ => mkDataFrame [] []
  end.

Definition three_events_tables : gmap string DataFrame := tables_of three_events_frames.

(** Two sibling [meal] sections with one event each. *)
Definition two_meals (event1 event2 : Element) : Element :=
  mkElement "patient" ∅
    [ mkElement "meal" ∅ [event1]; mkElement "meal" ∅ [event2] ].

Definition breakfast : Element :=
  event_ [("ts", "01-01-2021 08:00:00"); ("type", "Breakfast"); ("carbs", "40")].

Definition dinner : Element :=
  event_ [("ts", "01-01-2021 19:30:00"); ("type", "Dinner"); ("carbs", "75")].

Definition f40 : float64 := S754_finite false 5629499534213120 (-47).

(** A good glucose reading next to a bolus whose dose is no number. *)
Definition bad_bolus_document : Element :=
  mkElement "patient" ∅
    [ mkElement "glucose_level" ∅
        [ event_ [("ts", "01-01-2021 00:00:00"); ("value", "120.5")] ];
      mkElement "bolus" ∅
        [ event_ [("ts_begin", "01-01-2021 00:05:00"); ("ts_end", "01-01-2021 00:10:00");
                  ("type", "normal"); ("dose", "two"); ("bwz_carb_input", "30.0")] ] ].

(** A meal without [type] and without [ts], a glucose reading without
    [ts], and a glucose reading without [value]. *)
Definition meal_without_text : Element := event_ [("carbs", "40")].

Definition glucose_without_ts : Element := event_ [("value", "120.5")].

Definition glucose_without_value : Element := event_ [("ts", "01-01-2021 00:00:00")].

Definition missing_text_document : Element :=
  mkElement "patient" ∅
    [ mkElement "glucose_level" ∅ [glucose_without_ts];
      mkElement "meal" ∅ [meal_without_text] ].

Definition missing_text_frames (c : category) : DataFrame :=
  match c with
  | glucose_level => mkDataFrame ["timestamp"; "value"] [[VNaT; VFloat f120_5]]
  | meal => mkDataFrame ["timestamp"; "type"; "carbs"] [[VNaT; VNone; VFloat f40]]
  | _ => mkDataFrame [] []
  end.

Definition missing_text_tables : gmap string DataFrame := tables_of missing_text_frames.

Definition missing_value_document : Element :=
  mkElement "patient" ∅ [ mkElement "glucose_level" ∅ [glucose_without_value] ].

(** ** Text in the format DD-MM-YYYY HH:MM:SS *)

(** The text of a timestamp as the specification describes the format:
    two digits for day, month, hour, minute and second, four for the year. *)
Definition digit_char (d : Z) : ascii := ascii_of_N (Z.to_N (48 + d)).

Definition two_digits (n : Z) : string :=
  String (digit_char (n / 10)) (String (digit_char (n mod 10)) "").

Definition strftime (t : Timestamp) : string :=
  two_digits (day t) ++ "-" ++ two_digits (month t) ++ "-"
  ++ two_digits (year t / 100) ++ two_digits (year t mod 100) ++ " "
  ++ two_digits (hour t) ++ ":" ++ two_digits (minute t) ++ ":"
  ++ two_digits (second t).

(** A date of the calendar with a time of the day, in the years that
    every version of pandas holds in a timestamp (a count of nanoseconds in
    64 bits spans 1677-09-21 to 2262-04-11). *)
Definition well_formed (t : Timestamp) : Prop :=
  strptime.valid_date (year t) (month t) (day t) = true
  /\ 1678 <= year t <= 2261
  /\ 0 <= hour t < 24 /\ 0 <= minute t < 60 /\ 0 <= second t < 60.

(** A glucose reading whose [ts] is the text ["NaT"]. *)
Definition nat_text_document : Element :=
  mkElement "patient" ∅
    [ mkElement "glucose_level" ∅ [ event_ [("ts", "NaT"); ("value", "120.5")] ] ].

Definition nat_text_frames (c : category) : DataFrame :=
  match c with
  | glucose_level => mkDataFrame ["timestamp"; "value"] [[VNaT; VFloat f120_5]]
  | _ => mkDataFrame [] []
  end.

Definition nat_text_tables : gmap string DataFrame := tables_of nat_text_frames.

(** A glucose reading whose [ts] is written year first. *)
Definition iso_text_document : Element :=
  mkElement "patient" ∅
    [ mkElement "glucose_level" ∅
        [ event_ [("ts", "2021-12-02 06:14:00"); ("value", "120.5")] ] ].

(** 150.0 and 5.0 as binary64 values: [150 * 2^45 * 2^-45] and
    [5 * 2^50 * 2^-50]. *)
Definition f150 : float64 := S754_finite false 5277655813324800 (-45).
Definition f5 : float64 := S754_finite false 5629499534213120 (-50).

(** ** The order of the work and the parts of a document that are read *)

(** The categories in the order in which the loader handles them. *)
Definition category_order : list category :=
  [glucose_level; basal; temp_basal; bolus; meal; basis_steps].

Definition position (c : category) : nat :=
  match c with
  | glucose_level => 0
  | basal => 1
  | temp_basal => 2
  | bolus => 3
  | meal => 4
  | basis_steps => 5
  end.

(** The attributes that the dict literal of a category reads. *)
Definition attributes (c : category) : list string :=
  map snd (timestamp_fields c ++ string_fields c ++ numeric_fields c).

(** An event reduced to what the loader reads of it, a section reduced to
    its events, a document reduced to the first section of each name. *)
Definition prune_event (c : category) (event : Element) : Element :=
  mkElement "event" (filter (fun kv : string * string => kv.1 ∈ attributes c) (attrib event)) [].

Definition prune_section (c : category) (s : Element) : Element :=
  mkElement (section c) ∅ (map (prune_event c) (findall s "event")).

Definition prune (root : Element) : Element :=
  mkElement "" ∅
    (omap (fun c => prune_section c <$> find root (section c)) category_order).

(** The calls of [pd.to_datetime] that the conversions of a category make
    when none of them raises. *)
Definition conversions (root : Element) (c : category) : list call :=
  if decide (events root c = []) then []
  else map (Call (variable c)) (timestamp_columns c).

(** The kinds of value that the columns of a returned table hold. *)
Definition is_timestamp (v : value) : bool :=
  match v with
  | VTimestamp _ | VNaT => true
  | _ => false
  end.

Definition is_text (v : value) : bool :=
  match v with
  | VStr _ | VNone => true
  | _ => false
  end.

Definition is_float (v : value) : bool :=
  match v with
  | VFloat _ => true
  | _ => false
  end.

(** ** The example at the end of the file (lines 136-172) *)

(** [dict[key]]: [KeyError] without the key. *)
Definition subscript (d : gmap string DataFrame) (k : string) : result DataFrame :=
  match d !! k with
  | Some df => inr df
  | None => inl KeyError
  end.

(** [df.head()]: the first five rows. *)
Definition head (df : DataFrame) : DataFrame :=
  mkDataFrame (columns df) (take 5 (data df)).

(** [df.shape]: the numbers of rows and of columns. *)
Definition shape (df : DataFrame) : nat * nat :=
  (length (data df), length (columns df)).

(** What a [print] call is given; how it is laid out as text is not
    modelled. *)
Inductive output : Type :=
| Title (s : string)          (* print("...") *)
| Frame (df : DataFrame)      (* print(df.head()) *)
| Shape (s : nat * nat).      (* print(f"Shape: {df.shape}\n") *)

(** The block under [if __name__ == "__main__"], for the outcome of reading
    the file of the path written there: the prints made, in order. *)
Definition main (xml_file : result Element) : Py (list output) :=
  dataframes ← load_ohiot1dm_xml xml_file;
  df_glucose ← lift (subscript dataframes "glucose_level");
  df_basal ← lift (subscript dataframes "basal");
  df_tempbasal ← lift (subscript dataframes "tempbasal");
  df_bolus ← lift (subscript dataframes "bolus");
  df_meal ← lift (subscript dataframes "meal");
  df_step ← lift (subscript dataframes "step");
  mret [ Title "Glucose Level Data:"; Frame (head df_glucose); Shape (shape df_glucose);
         Title "Basal Insulin Data:"; Frame (head df_basal); Shape (shape df_basal);
         Title "Temporary Basal Data:"; Frame (head df_tempbasal); Shape (shape df_tempbasal);
         Title "Bolus Data:"; Frame (head df_bolus); Shape (shape df_bolus);
         Title "Meal Data:"; Frame (head df_meal); Shape (shape df_meal);
         Title "Step Data:"; Frame (head df_step); Shape (shape df_step) ].

(** The title that the example prints for a category. *)
Definition title (c : category) : string :=
  match c with
  | glucose_level => "Glucose Level Data:"
  | basal => "Basal Insulin Data:"
  | temp_basal => "Temporary Basal Data:"
  | bolus => "Bolus Data:"
  | meal => "Meal Data:"
  | basis_steps => "Step Data:"
  end.

(** The second half of the loader (lines 97-132), given the lists that the
    six loops have built: the frames, their conversions, the dict. *)
Definition finish_tables (data : category -> list record) : Py (gmap string DataFrame) :=
  df_glucose ← finish glucose_level (DataFrame_ (data glucose_level));
  df_basal ← finish basal (DataFrame_ (data basal));
  df_tempbasal ← finish temp_basal (DataFrame_ (data temp_basal));
  df_bolus ← finish bolus (DataFrame_ (data bolus));
  df_meal ← finish meal (DataFrame_ (data meal));
  df_step ← finish basis_steps (DataFrame_ (data basis_steps));
  mret (<["glucose_level" := df_glucose]>
        (<["basal" := df_basal]>
         (<["tempbasal" := df_tempbasal]>
          (<["bolus" := df_bolus]>
           (<["meal" := df_meal]>
            (<["step" := df_step]> ∅)))))).

(** A document in which a glucose timestamp is malformed and a later step
    count is missing. *)
Definition two_faults_document : Element :=
  mkElement "patient" ∅
    [ mkElement "glucose_level" ∅
        [ event_ [("ts", "2021-01-01 00:00:00"); ("value", "120.5")] ];
      mkElement "basis_steps" ∅
        [ event_ [("ts", "01-01-2021 00:00:00"); ("value", "12")];
          event_ [("ts", "01-01-2021 00:05:00")] ] ].

(** A bolus without [dose] and with a [bwz_carb_input] that is no number. *)
Definition faulty_bolus : Element :=
  event_ [("ts_begin", "01-01-2021 00:05:00"); ("ts_end", "01-01-2021 00:10:00");
          ("type", "normal"); ("bwz_carb_input", "thirty")].

(** [sample_document] with its two sections in the other order, and with a
    [meal] section added. *)
Definition swapped_sample_document : Element :=
  mkElement "patient" ∅ (reverse (children sample_document)).

Definition sample_with_meal_document : Element :=
  mkElement "patient" ∅ (children sample_document ++ [mkElement "meal" ∅ [breakfast]]).

Definition sample_with_meal_frames (c : category) : DataFrame :=
  match c with
  | meal =>
      mkDataFrame ["timestamp"; "type"; "carbs"]
        [[VTimestamp (mkTimestamp 2021 1 1 8 0 0); VStr "Breakfast"; VFloat f40]]
  | _ => sample_frames c
  end.

(** A glucose reading on the 29th of February of a year that is no leap
    year. *)
Definition leap_day_document : Element :=
  mkElement "patient" ∅
    [ mkElement "glucose_level" ∅
        [ event_ [("ts", "29-02-2021 12:00:00"); ("value", "120.5")] ] ].

(** Text made of the whitespace that [float] strips. *)
Fixpoint all_space (s : string) : bool :=
  match s with
  | EmptyString => true
  | String c s' => PyFloat.is_space c && all_space s'
  end.

(** ** Lists related position by position *)

(** [l] and [k] have the same length, and the element at each position [i]
    of [l] is related by [R i] to the one at that position of [k]. *)
Definition Forall2i {A B} (R : nat -> A -> B -> Prop) (l : list A) (k : list B) : Prop :=
  length l = length k
  /\ forall (i : nat) x, l !! i = Some x -> exists y, k !! i = Some y /\ R i x y.

(** ** The clock *)

(** A clock that shows noon of the first day of 2021 at every reading. *)
Definition noon : Clock := fun _ _ => mkTimestamp 2021 1 1 12 0 0.

(** A clock that shows the position of the element as the second. *)
Definition ticking : Clock := fun _ i => mkTimestamp 2021 1 1 12 0 (Z.of_nat i).

(** Two glucose readings whose [ts] is the text ["now"], and a meal whose
    [ts] is the text ["today"]. *)
Definition now_document : Element :=
  mkElement "patient" ∅
    [ mkElement "glucose_level" ∅
        [ event_ [("ts", "now"); ("value", "120.5")];
          event_ [("ts", "now"); ("value", "120.5")] ];
      mkElement "meal" ∅
        [ event_ [("ts", "today"); ("type", "Breakfast"); ("carbs", "40")] ] ].

(** A glucose reading of the year 3000, after the last second that a
    timestamp holds. *)
Definition far_future_document : Element :=
  mkElement "patient" ∅
    [ mkElement "glucose_level" ∅
        [ event_ [("ts", "01-01-3000 00:00:00"); ("value", "120.5")] ] ].

(** ** The texts that [float] reads *)

(** The Python reference gives the texts that [float] accepts: around the
    literal, whitespace; in it, single underscores between digits, which
    do not count; then an optional sign followed by [inf], [infinity] or
    [nan] in any case, or by a decimal number, digits with an optional
    point, at least one digit before or after it, and an optional exponent
    [e] or [E] with its own optional sign and at least one digit.  The
    definitions below write this down without reference to the parser. *)
Inductive sign_text : Type := NoSign | Plus | Minus.

Definition sign_string (sg : sign_text) : string :=
  match sg with
  | NoSign => ""
  | Plus => "+"
  | Minus => "-"
  end.

Definition is_minus (sg : sign_text) : bool :=
  match sg with
  | Minus => true
  | _ => false
  end.

Fixpoint all_digits (s : string) : bool :=
  match s with
  | EmptyString => true
  | String c s' => PyFloat.is_digit c && all_digits s'
  end.

(** The number that a run of decimal digits denotes, on top of [acc]. *)
Fixpoint number (acc : Z) (s : string) : Z :=
  match s with
  | EmptyString => acc
  | String c s' => number (10 * acc + PyFloat.digit_value c) s'
  end.

(** The text of an exponent and the power of ten that it denotes. *)
Inductive exponent_text : string -> Z -> Prop :=
| no_exponent : exponent_text "" 0
| some_exponent c sg ds :
    PyFloat.lower c = "e"%char -> all_digits ds = true -> ds <> "" ->
    exponent_text (String c (sign_string sg +:+ ds))
      (if is_minus sg then - number 0 ds else number 0 ds).

(** The text of a literal without underscores and what it denotes. *)
Inductive float_literal : string -> PyFloat.literal -> Prop :=
| literal_inf sg s :
    PyFloat.lowercase s = "inf" \/ PyFloat.lowercase s = "infinity" ->
    float_literal (sign_string sg +:+ s) (PyFloat.Infinity (is_minus sg))
| literal_nan sg s :
    PyFloat.lowercase s = "nan" ->
    float_literal (sign_string sg +:+ s) PyFloat.NaN
| literal_decimal sg ip point fp ex x :
    all_digits ip = true -> all_digits fp = true -> ip +:+ fp <> "" ->
    point = "." \/ (point = "" /\ fp = "") ->
    exponent_text ex x ->
    float_literal (sign_string sg +:+ ip +:+ point +:+ fp +:+ ex)
      (PyFloat.Decimal (is_minus sg) (number 0 (ip +:+ fp))
         (x - Z.of_nat (String.length fp))).

(** Every underscore of the text stands between two digits. *)
Definition grouped (s : string) : Prop :=
  forall a b, s = a +:+ String "_" b ->
    (exists a' d, a = a' +:+ String d "" /\ PyFloat.is_digit d = true)
    /\ (exists d b', b = String d b' /\ PyFloat.is_digit d = true).

(** The text is that of a float, which denotes [l]. *)
Definition float_text (text : string) (l : PyFloat.literal) : Prop :=
  exists ws1 s ws2,
    PyFloat.to_ascii text = ws1 +:+ s +:+ ws2
    /\ all_space ws1 = true /\ all_space ws2 = true
    /\ grouped s
    /\ float_literal (PyFloat.remove_underscores s) l.

(** The parser of [float] on the text of a literal, underscores removed:
    the part of [parse_literal] after the check of the underscores. *)
Definition parse_plain (u : string) : option PyFloat.literal :=
  let '(neg, s1) := PyFloat.sign u in
  match PyFloat.inf_or_nan neg s1 with
  | Some l => Some l
  | None =>
      match PyFloat.decimal s1 with
      | Some (m, e) => Some (PyFloat.Decimal neg m e)
      | None => None
      end
  end.

(** Auxiliary notions for the comparison of the parser with these texts. *)
(** Text without whitespace. *)
Fixpoint no_space (s : string) : bool :=
  match s with
  | EmptyString => true
  | String c s' => negb (PyFloat.is_space c) && no_space s'
  end.

(** A digit stands right before the end of [a] (the character [prev]
    when [a] is empty), right at the start of [b]. *)
Definition digit_before (prev : option ascii) (a : string) : Prop :=
  match a with
  | EmptyString => exists p, prev = Some p /\ PyFloat.is_digit p = true
  | _ => exists a' d, a = a' +:+ String d "" /\ PyFloat.is_digit d = true
  end.

Definition digit_after (b : string) : Prop :=
  exists d b', b = String d b' /\ PyFloat.is_digit d = true.

(** What does not start with a digit. *)
Definition no_digit_first (s : string) : Prop :=
  match s with
  | EmptyString => True
  | String c _ => PyFloat.is_digit c = false
  end.

(** What does not start with a sign. *)
Definition no_sign_first (s : string) : Prop :=
  match s with
  | EmptyString => True
  | String c _ => c <> "+"%char /\ c <> "-"%char
  end.

(** * Properties *)

(** ** The monads *)

Lemma outcome_bind {A B} (m : Py A) (f : A -> Py B) :
  outcome (m ≫= f) = outcome m ≫= (fun a => outcome (f a)).
Proof.
  destruct m as [[e|a] log]; simpl; [reflexivity|].
  unfold mbind, Py_bind, outcome. simpl. destruct (f a); reflexivity.
Qed.

Lemma calls_bind {A B} (m : Py A) (f : A -> Py B) :
  calls (m ≫= f) =
  calls m ++ match outcome m with inr a => calls (f a) | inl _ => [] end.
Proof.
  destruct m as [[e|a] log]; unfold mbind, Py_bind, calls; simpl.
  - by rewrite app_nil_r.
  - by destruct (f a).
Qed.

Lemma outcome_lift {A} (r : result A) : outcome (lift r) = r.
Proof. reflexivity. Qed.

Lemma calls_lift {A} (r : result A) : calls (lift r) = [].
Proof. reflexivity. Qed.

Lemma inr_bind {A B} (a : A) (f : A -> result B) : inr a ≫= f = f a.
Proof. reflexivity. Qed.

Lemma inl_bind {A B} (e : exn) (f : A -> result B) : inl e ≫= f = inl e.
Proof. reflexivity. Qed.

Lemma bind_inr {A B} (m : result A) (f : A -> result B) (b : B) :
  m ≫= f = inr b <-> exists a, m = inr a /\ f a = inr b.
Proof.
  destruct m as [e|a]; simpl; split.
  - discriminate.
  - intros (a & Ha & _). discriminate.
  - eauto.
  - intros (a' & Ha & Hf). by simplify_eq.
Qed.

(** [mapM] in the exception monad: success is success on every element, in
    order. *)
Lemma mapM_inr {A B} (f : A -> result B) (l : list A) (k : list B) :
  mapM f l = inr k <-> Forall2 (fun x y => f x = inr y) l k.
Proof.
  revert k. induction l as [|x l IH]; intros k; simpl.
  - split.
    + intros H. injection H as <-. constructor.
    + intros H. by inversion H.
  - split.
    + intros H. apply bind_inr in H as (y & Hy & H).
      apply bind_inr in H as (k' & Hk' & H). injection H as <-.
      constructor; [done|]. by apply IH.
    + intros H. inversion H as [|? y ? k' Hy Hk']; subst.
      apply bind_inr. exists y. split; [done|].
      apply bind_inr. exists k'. split; [by apply IH|done].
Qed.

Lemma mapM_inl {A B} (f : A -> result B) (l : list A) (x : A) (e : exn) :
  x ∈ l -> f x = inl e -> exists e', mapM f l = inl e'.
Proof.
  intros Hx Hf. induction l as [|y l IH]; [by apply elem_of_nil in Hx|].
  simpl. destruct (f y) as [e1|b] eqn:Hy; simpl; [by eauto|].
  apply elem_of_cons in Hx as [->|Hx]; [congruence|].
  destruct (IH Hx) as [e' ->]. simpl. eauto.
Qed.

(** [mapMi]: success is success at every position. *)
Lemma mapMi_inr {A B} (f : nat -> A -> result B) (l : list A) (k : list B) :
  mapMi f l = inr k <-> Forall2i (fun i x y => f i x = inr y) l k.
Proof.
  revert f k. induction l as [|x l IH]; intros f k; simpl.
  - split.
    + intros H. injection H as <-. split; [done|].
      intros i x Hx. by rewrite lookup_nil in Hx.
    + intros [Hlen _]. by destruct k.
  - split.
    + intros H. apply bind_inr in H as (y & Hy & H).
      apply bind_inr in H as (k' & Hk' & H). injection H as <-.
      apply IH in Hk' as [Hlen Hk']. split; [simpl; by rewrite Hlen|].
      intros [|i] x' Hx'; simpl in *.
      * injection Hx' as <-. by exists y.
      * by apply Hk'.
    + intros [Hlen H]. destruct k as [|y k]; [discriminate|].
      destruct (H 0%nat x eq_refl) as (y' & Hy' & Hf). injection Hy' as <-.
      apply bind_inr. exists y. split; [done|].
      apply bind_inr. exists k. split; [|done].
      apply IH. split; [simpl in Hlen; lia|].
      intros i x' Hx'. apply (H (S i) x' Hx').
Qed.

Lemma mapMi_ext {A B} (f g : nat -> A -> result B) (l : list A) :
  (forall (i : nat) x, l !! i = Some x -> f i x = g i x) -> mapMi f l = mapMi g l.
Proof.
  revert f g. induction l as [|x l IH]; intros f g H; simpl; [done|].
  rewrite (H 0%nat x eq_refl).
  by rewrite (IH (fun i => f (S i)) (fun i => g (S i)) (fun i x' Hx' => H (S i) x' Hx')).
Qed.

(** The first raise is the raise of the loop. *)
Lemma mapMi_inl {A B} (f : nat -> A -> result B) (l : list A) (e : exn) :
  mapMi f l = inl e <->
  exists (i : nat) x, l !! i = Some x /\ f i x = inl e
    /\ forall (j : nat) x', (j < i)%nat -> l !! j = Some x' -> exists y, f j x' = inr y.
Proof.
  revert f. induction l as [|x l IH]; intros f; simpl.
  - split; [discriminate|]. intros (i & x & Hx & _). by rewrite lookup_nil in Hx.
  - destruct (f 0%nat x) as [e0|y] eqn:Hy.
    + rewrite inl_bind. split.
      * intros H. injection H as <-. exists 0%nat, x. split; [done|]. split; [done|].
        intros j x' Hj. lia.
      * intros ([|i] & x' & Hx' & Hf & Hbefore).
        { simpl in Hx'. injection Hx' as <-. congruence. }
        destruct (Hbefore 0%nat x ltac:(lia) eq_refl) as [y' Hy']. congruence.
    + rewrite inr_bind. specialize (IH (fun i => f (S i))).
      destruct (mapMi (fun i => f (S i)) l) as [e1|k] eqn:Hk.
      * rewrite inl_bind. split.
        { intros H. injection H as <-.
          destruct (proj1 IH eq_refl) as (i & x' & Hx' & Hf & Hbefore).
          exists (S i), x'. split; [done|]. split; [done|].
          intros [|j] x'' Hj Hx''.
          - simpl in Hx''. injection Hx'' as <-. by eauto.
          - apply (Hbefore j x''); [lia|done]. }
        { intros ([|i] & x' & Hx' & Hf & Hbefore).
          - simpl in Hx'. injection Hx' as <-. congruence.
          - f_equal. assert (inl e1 = @inl exn (list B) e) as Heq; [|by injection Heq].
            apply IH. exists i, x'. split; [done|]. split; [done|].
            intros j x'' Hj Hx''. apply (Hbefore (S j) x''); [lia|done]. }
      * rewrite inr_bind. split; [discriminate|].
        intros ([|i] & x' & Hx' & Hf & Hbefore).
        { simpl in Hx'. injection Hx' as <-. congruence. }
        assert (@inr exn (list B) k = inl e) as Heq; [|discriminate Heq].
        apply IH. exists i, x'. split; [done|]. split; [done|].
        intros j x'' Hj Hx''. apply (Hbefore (S j) x''); [lia|done].
Qed.

Lemma Forall2i_Forall2 {A B} (P : A -> B -> Prop) (l : list A) (k : list B) :
  Forall2 P l k -> Forall2i (fun _ => P) l k.
Proof.
  intros H. split; [by eapply Forall2_length|].
  intros i x Hx. by eapply Forall2_lookup_l in H.
Qed.

Lemma Forall2i_trans {A B C} (R : nat -> A -> B -> Prop) (S : nat -> B -> C -> Prop)
    (T : nat -> A -> C -> Prop) (l : list A) (k : list B) (m : list C) :
  (forall i x y z, R i x y -> S i y z -> T i x z) ->
  Forall2i R l k -> Forall2i S k m -> Forall2i T l m.
Proof.
  intros H [Hlen1 H1] [Hlen2 H2]. split; [congruence|].
  intros i x Hx. destruct (H1 i x Hx) as (y & Hy & HR).
  destruct (H2 i y Hy) as (z & Hz & HS). by eauto.
Qed.

Lemma Forall2i_lookup_r {A B} (R : nat -> A -> B -> Prop) (l : list A) (k : list B)
    (i : nat) y :
  Forall2i R l k -> k !! i = Some y -> exists x, l !! i = Some x /\ R i x y.
Proof.
  intros [Hlen H] Hy.
  destruct (lookup_lt_is_Some_2 l i) as [x Hx].
  { rewrite Hlen. by eapply lookup_lt_Some. }
  destruct (H i x Hx) as (y' & Hy' & HR). exists x. split; [done|]. congruence.
Qed.

Lemma mapMi_succeeds {A B} (f : nat -> A -> result B) (l : list A) :
  (forall (i : nat) x, l !! i = Some x -> exists y, f i x = inr y) ->
  exists k, mapMi f l = inr k.
Proof.
  intros H. destruct (mapMi f l) as [e|k] eqn:Hk; [|by eauto].
  apply mapMi_inl in Hk as (i & x & Hx & Hf & _).
  destruct (H i x Hx) as [y Hy]. congruence.
Qed.

Lemma Forall2i_take {A B} (R : nat -> A -> B -> Prop) (l : list A) (k : list B) n :
  Forall2i R l k -> Forall2i R (take n l) (take n k).
Proof.
  intros [Hlen H]. split; [by rewrite !length_take, Hlen|].
  intros i x [Hx Hi]%lookup_take_Some.
  destruct (H i x Hx) as (y & Hy & HR). exists y. split; [|done].
  by apply lookup_take_Some.
Qed.

Lemma Forall2i_impl {A B} (R S : nat -> A -> B -> Prop) (l : list A) (k : list B) :
  (forall (i : nat) x y, l !! i = Some x -> R i x y -> S i x y) ->
  Forall2i R l k -> Forall2i S l k.
Proof.
  intros H [Hlen H1]. split; [done|].
  intros i x Hx. destruct (H1 i x Hx) as (y & Hy & HR). by eauto.
Qed.

(** ** The loader, category by category *)

Lemma tables_of_lookup f c : tables_of f !! key c = Some (f c).
Proof. by destruct c; unfold tables_of; simplify_map_eq. Qed.

Lemma tables_of_dom f : dom (tables_of f) = source_keys.
Proof.
  unfold tables_of, source_keys. rewrite !dom_insert_L, dom_empty_L. simpl.
  set_solver.
Qed.

Ltac loader_step H :=
  rewrite outcome_bind in H;
  match type of H with
  | outcome ?m ≫= _ = _ =>
      let E := fresh "E" in
      destruct (outcome m) eqn:E;
      [rewrite inl_bind in H; discriminate H | rewrite inr_bind in H]
  end.

(** A run that returns went through every category without a raise, and
    returns the six frames so obtained. *)
Lemma load_returns root T :
  outcome (load_ohiot1dm_xml (inr root)) = inr T ->
  exists f, (forall c, outcome (table c root) = inr (f c)) /\ T = tables_of f.
Proof.
  intros H. unfold load_ohiot1dm_xml in H.
  rewrite outcome_bind, outcome_lift, inr_bind in H.
  do 12 loader_step H.
  injection H as <-.
  rewrite outcome_lift in *.
  match goal with
  | H1 : _ = inr ?g, H2 : _ = inr ?b, H3 : _ = inr ?t, H4 : _ = inr ?bo,
    H5 : _ = inr ?m, H6 : _ = inr ?s,
    G1 : _ = inr ?dg, G2 : _ = inr ?db, G3 : _ = inr ?dt, G4 : _ = inr ?dbo,
    G5 : _ = inr ?dm, G6 : _ = inr ?ds |- _ =>
      exists (fun c => match c with
                       | glucose_level => dg | basal => db | temp_basal => dt
                       | bolus => dbo | meal => dm | basis_steps => ds end)
  end.
  split; [|reflexivity].
  intros c. unfold table. rewrite outcome_bind, outcome_lift.
  destruct c; simpl;
    match goal with
    | H : collect (find root ?n) _ = inr _ |- context [collect (find root ?n) _] =>
        rewrite H
    end; simpl; assumption.
Qed.

Lemma table_inr c root df :
  outcome (table c root) = inr df <->
  exists data, collect (find root (section c)) (record_of c) = inr data
               /\ outcome (finish c (DataFrame_ data)) = inr df.
Proof.
  unfold table. rewrite outcome_bind, outcome_lift. apply bind_inr.
Qed.

(** Conversely, a run in which no category raises returns. *)
Lemma load_succeeds root f :
  (forall c, outcome (table c root) = inr (f c)) ->
  outcome (load_ohiot1dm_xml (inr root)) = inr (tables_of f).
Proof.
  intros H.
  pose proof (proj1 (table_inr _ _ _) (H glucose_level)) as (g & Hg & Fg).
  pose proof (proj1 (table_inr _ _ _) (H basal)) as (b & Hb & Fb).
  pose proof (proj1 (table_inr _ _ _) (H temp_basal)) as (t & Ht & Ft).
  pose proof (proj1 (table_inr _ _ _) (H bolus)) as (bo & Hbo & Fbo).
  pose proof (proj1 (table_inr _ _ _) (H meal)) as (m & Hm & Fm).
  pose proof (proj1 (table_inr _ _ _) (H basis_steps)) as (s & Hs & Fs).
  simpl section in *. simpl record_of in *.
  unfold load_ohiot1dm_xml.
  rewrite outcome_bind, outcome_lift, inr_bind.
  rewrite outcome_bind, outcome_lift, Hg, inr_bind.
  rewrite outcome_bind, outcome_lift, Hb, inr_bind.
  rewrite outcome_bind, outcome_lift, Ht, inr_bind.
  rewrite outcome_bind, outcome_lift, Hbo, inr_bind.
  rewrite outcome_bind, outcome_lift, Hm, inr_bind.
  rewrite outcome_bind, outcome_lift, Hs, inr_bind.
  unfold finish in Fg, Fb, Ft, Fbo, Fm, Fs. simpl convert_all in *.
  rewrite outcome_bind, Fg, inr_bind.
  rewrite outcome_bind, Fb, inr_bind.
  rewrite outcome_bind, Ft, inr_bind.
  rewrite outcome_bind, Fbo, inr_bind.
  rewrite outcome_bind, Fm, inr_bind.
  rewrite outcome_bind, Fs, inr_bind.
  reflexivity.
Qed.

(** A raise in one category is a raise of the run. *)
Lemma table_raise_load_raise c root e :
  outcome (table c root) = inl e ->
  exists e', outcome (load_ohiot1dm_xml (inr root)) = inl e'.
Proof.
  intros Hc. destruct (outcome (load_ohiot1dm_xml (inr root))) as [e'|T] eqn:HT.
  - by exists e'.
  - apply load_returns in HT as (f & Hf & _). rewrite Hf in Hc. discriminate.
Qed.

(** A raise of the run is a raise in some category. *)
Lemma load_raise_table_raise root e :
  outcome (load_ohiot1dm_xml (inr root)) = inl e ->
  exists c e', outcome (table c root) = inl e'.
Proof.
  intros H.
  destruct (outcome (table glucose_level root)) as [?|dg] eqn:Hg; [by eauto|].
  destruct (outcome (table basal root)) as [?|db] eqn:Hb; [by eauto|].
  destruct (outcome (table temp_basal root)) as [?|dt] eqn:Ht; [by eauto|].
  destruct (outcome (table bolus root)) as [?|dbo] eqn:Hbo; [by eauto|].
  destruct (outcome (table meal root)) as [?|dm] eqn:Hm; [by eauto|].
  destruct (outcome (table basis_steps root)) as [?|ds] eqn:Hs; [by eauto|].
  rewrite (load_succeeds root
             (fun c => match c with
                       | glucose_level => dg | basal => db | temp_basal => dt
                       | bolus => dbo | meal => dm | basis_steps => ds end)) in H.
  - discriminate.
  - by intros [].
Qed.

Lemma variable_inj c c' : variable c = variable c' -> c = c'.
Proof. by destruct c, c'. Qed.

Lemma convert_calls name df col cl :
  cl ∈ calls (convert name df col) -> cl = Call name col.
Proof.
  unfold convert, lift, tell, calls, mbind, Py_bind.
  destruct (getitem df col) as [?|series]; simpl; [by intros ?%elem_of_nil|].
  destruct (to_datetime _ series FORMAT) as [?|parsed]; simpl.
  - by intros ->%list_elem_of_singleton.
  - by intros ->%list_elem_of_singleton.
Qed.

Lemma convert_all_calls name df cols cl :
  cl ∈ calls (convert_all name df cols) -> frame cl = name.
Proof.
  revert df. induction cols as [|col cols IH]; intros df; simpl.
  - by intros ?%elem_of_nil.
  - destruct cols as [|col' cols'].
    + by intros ->%convert_calls.
    + rewrite calls_bind. intros [H|H]%elem_of_app.
      * by apply convert_calls in H as ->.
      * destruct (outcome (convert name df col)); [by apply elem_of_nil in H|].
        by apply IH in H.
Qed.

Lemma finish_calls c df cl :
  cl ∈ calls (finish c df) -> frame cl = variable c /\ empty df = false.
Proof.
  unfold finish. destruct (empty df).
  - by intros ?%elem_of_nil.
  - by intros ?%convert_all_calls.
Qed.

Ltac calls_step H :=
  rewrite calls_bind in H;
  apply elem_of_app in H as [H|H];
  [ | match type of H with
      | _ ∈ match outcome ?m with _ => _ end =>
          let E := fresh "E" in
          destruct (outcome m) eqn:E; [by apply elem_of_nil in H|]
      end ].

(** Every recorded call comes from the conversions of a category whose loop
    has run, on the frame built from the records of that loop. *)
Lemma load_calls root cl :
  cl ∈ calls (load_ohiot1dm_xml (inr root)) ->
  exists c data, collect (find root (section c)) (record_of c) = inr data
                 /\ cl ∈ calls (finish c (DataFrame_ data)).
Proof.
  intros H. unfold load_ohiot1dm_xml in H.
  rewrite calls_bind, calls_lift, outcome_lift, app_nil_l in H.
  cbv beta iota in H.
  do 6 (calls_step H; [by apply elem_of_nil in H|]).
  rewrite outcome_lift in *.
  calls_step H; [by exists glucose_level; eauto|].
  calls_step H; [by exists basal; eauto|].
  calls_step H; [by exists temp_basal; eauto|].
  calls_step H; [by exists bolus; eauto|].
  calls_step H; [by exists meal; eauto|].
  calls_step H; [by exists basis_steps; eauto|].
  by apply elem_of_nil in H.
Qed.

(** ** Frames *)

Lemma union_keys_seen seen keys :
  (forall k, k ∈ keys -> k ∈ seen) -> union_keys seen keys = seen.
Proof.
  revert seen. induction keys as [|k keys IH]; intros seen H; simpl; [done|].
  destruct (decide (k ∈ seen)) as [_|Hk].
  - apply IH. intros k' Hk'. apply H. by right.
  - destruct Hk. apply H. by left.
Qed.

Lemma union_keys_app seen ks rest :
  NoDup (seen ++ ks) ->
  union_keys seen (ks ++ rest) = union_keys (seen ++ ks) rest.
Proof.
  revert seen. induction ks as [|k ks IH]; intros seen H; simpl.
  - by rewrite app_nil_r.
  - apply NoDup_app in H as (Hs & Hd & Hk).
    destruct (decide (k ∈ seen)) as [Hin|_].
    + destruct (Hd k Hin). by left.
    + rewrite IH.
      * by rewrite <- app_assoc.
      * rewrite <- app_assoc. simpl. apply NoDup_app. by split_and!.
Qed.

Lemma lookup_keys d (r : record) :
  NoDup (map fst r) ->
  map (fun k => default d (lookup_key k r)) (map fst r) = map snd r.
Proof.
  induction r as [|[k v] r IH]; intros H; simpl; [done|].
  apply NoDup_cons in H as [Hk H].
  destruct (decide (k = k)) as [_|]; [|done]. simpl. f_equal.
  rewrite <- (IH H). apply map_ext_in. intros k' Hk'.
  destruct (decide (k = k')) as [->|_]; [|done].
  destruct Hk. by apply list_elem_of_In.
Qed.

(** The frame of records that all have the same keys: those keys as the
    columns, the values of each record as a row. *)
Lemma DataFrame_uniform ks (records : list record) :
  NoDup ks -> records <> [] -> Forall (fun r => map fst r = ks) records ->
  DataFrame_ records = mkDataFrame ks (map (map snd) records).
Proof.
  intros Hks Hne Hall. unfold DataFrame_.
  assert (union_keys [] (concat (map (map fst) records)) = ks) as ->.
  { destruct records as [|r records]; [done|].
    apply Forall_cons in Hall as [Hr Hall]. simpl. rewrite Hr.
    rewrite union_keys_app by done. simpl.
    apply union_keys_seen. intros k Hk.
    apply list_elem_of_In, in_concat in Hk as (l & Hl & Hk).
    apply in_map_iff in Hl as (r' & <- & Hr').
    rewrite Forall_forall in Hall.
    rewrite (Hall r') in Hk; by apply list_elem_of_In. }
  f_equal. apply map_ext_in. intros r Hr.
  rewrite Forall_forall in Hall.
  assert (map fst r = ks) as <- by by apply Hall, list_elem_of_In.
  by apply lookup_keys.
Qed.

Lemma convert_outcome name df col :
  outcome (convert name df col) =
  (series ← getitem df col;
   parsed ← to_datetime (clock (Call name col)) series FORMAT;
   setitem df col parsed).
Proof.
  unfold convert, lift, tell, outcome, mbind, Py_bind, result_bind.
  destruct (getitem df col) as [?|series]; simpl; [done|].
  destruct (to_datetime _ series FORMAT) as [?|parsed]; simpl; done.
Qed.

Lemma zip_with_insert (j : nat) (conv : nat -> value -> result value) d
    (rows : list (list value)) (parsed : list value) :
  Forall2i (fun i x y => conv i x = inr y) (map (fun row => default d (row !! j)) rows) parsed ->
  Forall2i (fun i row row' => exists v, conv i (default d (row !! j)) = inr v
                                        /\ row' = <[j := v]> row)
    rows (zip_with (fun row v => <[j := v]> row) rows parsed).
Proof.
  intros [Hlen H]. rewrite length_map in Hlen. split.
  - rewrite length_zip_with. lia.
  - intros i row Hrow.
    destruct (H i (default d (row !! j))) as (v & Hv & Hconv).
    { change (map ?f rows) with (f <$> rows). by rewrite list_lookup_fmap, Hrow. }
    exists (<[j := v]> row). split; [|by eauto].
    by rewrite lookup_zip_with, Hrow, Hv.
Qed.

(** One conversion: the labels stay, the cell of the column is replaced in
    every row by its conversion, which has not raised. *)
Lemma convert_rows name df col j df' :
  index_of col (columns df) = Some j ->
  outcome (convert name df col) = inr df' ->
  columns df' = columns df /\
  Forall2i (fun i row row' =>
              exists v, to_datetime_value (clock (Call name col) i) FORMAT
                          (default (VFloat S754_nan) (row !! j)) = inr v
                        /\ row' = <[j := v]> row)
    (data df) (data df').
Proof.
  intros Hj H. rewrite convert_outcome in H. unfold getitem in H.
  rewrite Hj, inr_bind in H.
  apply bind_inr in H as (parsed & Hp & H).
  apply mapMi_inr in Hp. unfold setitem in H. rewrite Hj in H.
  destruct (decide _) as [_|]; [|discriminate]. injection H as <-. simpl.
  split; [done|].
  by apply (zip_with_insert j (fun i => to_datetime_value (clock (Call name col) i) FORMAT)).
Qed.

(** ** From the events of a section to the rows of its table *)

Lemma field_names_NoDup c : NoDup (field_names c).
Proof. destruct c; apply (bool_decide_unpack _); by vm_compute. Qed.

Lemma field_names_ne c : field_names c <> [].
Proof. by destruct c. Qed.

Lemma record_of_keys c event r :
  record_of c event = inr r -> map fst r = field_names c.
Proof.
  destruct c; simpl;
    unfold glucose_record, basal_record, tempbasal_record, bolus_record,
      meal_record, step_record;
    intros H; repeat (apply bind_inr in H as (? & ? & H));
    by injection H as <-.
Qed.

Lemma collect_events c root data :
  collect (find root (section c)) (record_of c) = inr data <->
  Forall2 (fun event r => record_of c event = inr r) (events root c) data.
Proof.
  unfold collect, events. destruct (find root (section c)) as [s|].
  - apply mapM_inr.
  - split.
    + intros H. injection H as <-. constructor.
    + intros H. by inversion H.
Qed.

Lemma collect_length c root data :
  collect (find root (section c)) (record_of c) = inr data ->
  length data = length (events root c).
Proof. intros H%collect_events. symmetry. by eapply Forall2_length. Qed.

Lemma empty_false cols rows :
  cols <> [] -> rows <> [] -> empty (mkDataFrame cols rows) = false.
Proof.
  intros Hc Hr. unfold empty. simpl.
  by rewrite !bool_decide_eq_false_2.
Qed.

Ltac split_record :=
  repeat match goal with
         | H : map fst ?r = _ :: _ |- _ =>
             is_var r;
             let k := fresh "k" in
             let v := fresh "v" in
             let r' := fresh "r" in
             destruct r as [|[k v] r']; simpl in H; [discriminate H|];
             injection H as -> H
         | H : map fst ?r = [] |- _ =>
             is_var r; destruct r; [clear H|discriminate H]
         end.

(** The conversions of a non-empty frame, row by row. *)
Lemma finish_rows c (records : list record) df :
  records <> [] ->
  Forall (fun r => map fst r = field_names c) records ->
  outcome (finish c (DataFrame_ records)) = inr df ->
  columns df = field_names c /\
  Forall2i (fun i r row => convert_record c i r = inr row) records (data df).
Proof.
  intros Hne Hkeys H.
  rewrite (DataFrame_uniform (field_names c)) in H
    by auto using field_names_NoDup.
  unfold finish in H. rewrite empty_false in H.
  2: apply field_names_ne.
  2: by destruct records.
  assert (Forall2i (fun (_ : nat) (r : record) row =>
                      row = map snd r /\ map fst r = field_names c) records
            (map (map snd) records)) as Hrows.
  { apply Forall2i_Forall2. clear -Hkeys. induction Hkeys; constructor; auto. }
  destruct c; simpl in H.
  1,2,5,6:
    apply (convert_rows _ _ _ 0%nat) in H as [Hcols H]; [|reflexivity];
    (split; [exact Hcols|]);
    simpl in H; (eapply Forall2i_trans; [|exact Hrows|exact H]);
    simpl; intros i r row0 row [-> Hk] (v & Hv & ->);
    split_record; simpl in *; unfold convert_record; simpl;
    rewrite Hv; reflexivity.
  all:
    rewrite outcome_bind in H; apply bind_inr in H as (df1 & H1 & H);
    apply (convert_rows _ _ _ 0%nat) in H1 as [Hcols1 H1]; [|reflexivity];
    (apply (convert_rows _ _ _ 1%nat) in H as [Hcols H]; [|by rewrite Hcols1]);
    (split; [by rewrite Hcols, Hcols1|]);
    simpl in H1;
    (eapply Forall2i_trans; [|exact Hrows|];
     [|eapply Forall2i_trans; [|exact H1|exact H];
       intros i row0 row1 row Hr1 Hr; exact (ex_intro _ row1 (conj Hr1 Hr))]);
    simpl; intros i r row0 row [-> Hk] (row1 & (v1 & Hv1 & ->) & (v2 & Hv2 & ->));
    split_record; simpl in *; unfold convert_record; simpl;
    rewrite Hv1; simpl; rewrite Hv2; reflexivity.
Qed.

(** A category without events: the loop appends nothing, the frame is the
    empty one and the conversions are skipped. *)
Lemma table_no_events c root :
  events root c = [] -> table c root = (inr (DataFrame_ []), []).
Proof.
  intros H. unfold table, events, collect in *.
  destruct (find root (section c)) as [s|]; [rewrite H|]; reflexivity.
Qed.

(** The table of a category: one row per event, in the order of the
    events, each the row of its event. *)
Lemma table_rows c root df :
  outcome (table c root) = inr df ->
  Forall2i (fun i event row => row_of c i event = inr row) (events root c) (data df).
Proof.
  intros (records & Hc & Hf)%table_inr.
  pose proof (proj1 (collect_events _ _ _) Hc) as Hev.
  destruct (decide (records = [])) as [->|Hne].
  - apply Forall2_nil_inv_r in Hev. rewrite Hev.
    injection Hf as <-. split; [done|].
    intros i x Hx. by rewrite lookup_nil in Hx.
  - apply finish_rows in Hf as [_ Hf]; [|done|].
    + eapply Forall2i_trans; [|exact (Forall2i_Forall2 _ _ _ Hev)|exact Hf].
      intros i event r row Hr Hrow. unfold row_of. by rewrite Hr.
    + eapply Forall2_Forall_r; [exact Hev|].
      apply Forall_forall. intros event _ r Hr. by eapply record_of_keys.
Qed.

Lemma table_columns c root df :
  outcome (table c root) = inr df ->
  columns df = if decide (events root c = []) then [] else field_names c.
Proof.
  intros (records & Hc & Hf)%table_inr.
  pose proof (proj1 (collect_events _ _ _) Hc) as Hev.
  destruct (decide (records = [])) as [->|Hne].
  - apply Forall2_nil_inv_r in Hev. rewrite Hev.
    injection Hf as <-. by rewrite decide_True.
  - rewrite decide_False.
    + apply finish_rows in Hf as [Hf _]; [done|done|].
      eapply Forall2_Forall_r; [exact Hev|].
      apply Forall_forall. intros event _ r Hr. by eapply record_of_keys.
    + intros Hnil. rewrite Hnil in Hev. by apply Forall2_nil_inv_l in Hev.
Qed.

(** The same for a run of the loader that returns. *)
Lemma load_rows root T c df :
  outcome (load_ohiot1dm_xml (inr root)) = inr T ->
  T !! key c = Some df ->
  Forall2i (fun i event row => row_of c i event = inr row) (events root c) (data df).
Proof.
  intros (f & Hf & ->)%load_returns Hdf.
  rewrite tables_of_lookup in Hdf. injection Hdf as <-.
  apply table_rows, Hf.
Qed.

Lemma load_lookup root T c :
  outcome (load_ohiot1dm_xml (inr root)) = inr T ->
  exists df, T !! key c = Some df /\ outcome (table c root) = inr df.
Proof.
  intros (f & Hf & ->)%load_returns. exists (f c).
  by rewrite tables_of_lookup.
Qed.

(** ** The returned dict *)

(** The end-to-end scenario: one glucose reading of 120.5, one bolus of
    2.5, four empty tables. *)
Lemma sample_document_loads :
  outcome (load_ohiot1dm_xml (inr sample_document)) = inr sample_tables.
Proof. vm_compute. reflexivity. Qed.

Lemma source_keys_not_spec_keys : source_keys <> spec_keys.
Proof.
  intros H. assert ("tempbasal" ∈ spec_keys) as Hin.
  { rewrite <- H. unfold source_keys. set_solver. }
  unfold spec_keys in Hin. set_solver.
Qed.

(** C1 (amended): whenever the loader returns, the dict has exactly the six
    keys [glucose_level], [basal], [tempbasal], [bolus], [meal] and [step],
    one per category, each bound to a frame; the frame of a category whose
    section is absent or has no event is the empty frame. *)
Theorem C1_six_tables root T :
  outcome (load_ohiot1dm_xml (inr root)) = inr T ->
  dom T = source_keys /\ size T = 6%nat /\
  forall c, exists df, T !! key c = Some df
                       /\ (events root c = [] -> df = DataFrame_ []).
Proof.
  intros H. pose proof H as (f & Hf & ->)%load_returns.
  split; [apply tables_of_dom|]. split.
  - rewrite <- size_dom, tables_of_dom. reflexivity.
  - intros c. exists (f c). split; [apply tables_of_lookup|].
    intros Hev. specialize (Hf c).
    rewrite (table_no_events c root Hev) in Hf. by injection Hf as <-.
Qed.

(** ** Absent and empty sections *)

Lemma absent_or_empty root c :
  find root (section c) = None
  \/ (exists s, find root (section c) = Some s /\ findall s "event" = []) ->
  events root c = [].
Proof.
  unfold events. intros [->|(s & -> & Hs)]; done.
Qed.

(** C3: when the section of a category is absent, or present without any
    [event] child, the work done for that category gives the empty frame
    without a raise and without a call of [pd.to_datetime]; in a run that
    returns, the category is bound to the empty frame; a run that raises
    does so in another category; and no call of [pd.to_datetime] of the run
    is on the frame of that category. *)
Theorem C3_empty_table root c :
  find root (section c) = None
  \/ (exists s, find root (section c) = Some s /\ findall s "event" = []) ->
  table c root = (inr (mkDataFrame [] []), [])
  /\ (forall T, outcome (load_ohiot1dm_xml (inr root)) = inr T ->
                T !! key c = Some (mkDataFrame [] []))
  /\ (forall e, outcome (load_ohiot1dm_xml (inr root)) = inl e ->
                exists c' e', c' <> c /\ outcome (table c' root) = inl e')
  /\ (forall cl, cl ∈ calls (load_ohiot1dm_xml (inr root)) -> frame cl <> variable c).
Proof.
  intros Hev%absent_or_empty.
  pose proof (table_no_events c root Hev) as Ht.
  split; [exact Ht|]. split; [|split].
  - intros T (df & HT & Hdf)%(load_lookup _ _ c).
    rewrite Ht in Hdf. injection Hdf as <-. exact HT.
  - intros e (c' & e' & H)%load_raise_table_raise.
    exists c', e'. split; [|done].
    intros ->. rewrite Ht in H. discriminate H.
  - intros cl (c' & records & Hc & Hcl)%load_calls Hframe.
    apply finish_calls in Hcl as [Hc' Hne].
    rewrite Hframe in Hc'. apply variable_inj in Hc' as <-.
    apply collect_length in Hc. rewrite Hev in Hc.
    destruct records; [|discriminate Hc]. discriminate Hne.
Qed.

(** ** Rows *)

(** C4: in a run that returns, the table of each category has as many rows
    as there are [event] elements under the section of that category, none
    when the section is absent. *)
Theorem C4_row_count root T c df :
  outcome (load_ohiot1dm_xml (inr root)) = inr T ->
  T !! key c = Some df ->
  len df = length (events root c)
  /\ (find root (section c) = None -> len df = 0%nat).
Proof.
  intros HT Hdf.
  assert (len df = length (events root c)) as Hlen.
  { symmetry. by destruct (load_rows _ _ _ _ HT Hdf) as [Hlen _]. }
  split; [exact Hlen|].
  intros Hnone. rewrite Hlen. unfold events. by rewrite Hnone.
Qed.

(** C5: in a run that returns, the rows of each table are the rows of the
    events of the section, one for one and in document order: row [i] is
    the row of event [i], whatever the values are; nothing is sorted and
    nothing is dropped. *)
Theorem C5_row_order root T c df :
  outcome (load_ohiot1dm_xml (inr root)) = inr T ->
  T !! key c = Some df ->
  mapMi (row_of c) (events root c) = inr (data df)
  /\ forall (i : nat) event, events root c !! i = Some event ->
       exists row, data df !! i = Some row /\ row_of c i event = inr row.
Proof.
  intros HT Hdf. pose proof (load_rows _ _ _ _ HT Hdf) as H.
  split; [by apply mapMi_inr|]. by destruct H as [_ H].
Qed.

(** ** Sibling sections of the same name *)

Lemma lift_inr_bind {A B} (a : A) (f : A -> Py B) : lift (inr a) ≫= f = f a.
Proof. unfold lift, mbind, Py_bind. by destruct (f a). Qed.

(** The loader reads the document through [root.find] alone. *)
Lemma load_find_ext root root' :
  (forall name, find root name = find root' name) ->
  load_ohiot1dm_xml (inr root) = load_ohiot1dm_xml (inr root').
Proof.
  intros H. unfold load_ohiot1dm_xml.
  rewrite !lift_inr_bind. by rewrite !H.
Qed.

Lemma find_first_app name l1 l2 :
  find_first name (l1 ++ l2) =
  match find_first name l1 with
  | Some x => Some x
  | None => find_first name l2
  end.
Proof.
  induction l1 as [|x l1 IH]; simpl; [done|].
  by destruct (decide (tag x = name)).
Qed.

Lemma find_first_none name l :
  Forall (fun x => tag x <> name) l -> find_first name l = None.
Proof.
  induction 1 as [|x l Hx _ IH]; simpl; [done|].
  by destruct (decide (tag x = name)).
Qed.

Lemma find_first_filter name other l :
  name <> other ->
  find_first name (filter (fun x => tag x <> other) l) = find_first name l.
Proof.
  intros Hne. induction l as [|x l IH]; [done|].
  rewrite filter_cons. destruct (decide (tag x <> other)) as [Hx|Hx]; simpl.
  - by destruct (decide (tag x = name)).
  - destruct (decide (tag x = name)) as [Hn|_]; [|done].
    destruct Hx. congruence.
Qed.

(** ** All or nothing *)

Lemma load_parse_error e : load_ohiot1dm_xml (inl e) = (inl e, []).
Proof. reflexivity. Qed.

(** C8: a run either returns the dict of all six tables, each the complete
    table of its category, or raises and returns nothing.  It raises when
    the document cannot be read, and it raises as soon as the work for one
    category raises, whatever the other categories hold. *)
Theorem C8_all_or_nothing xml_file :
  ((exists root T, xml_file = inr root
      /\ outcome (load_ohiot1dm_xml xml_file) = inr T
      /\ dom T = source_keys
      /\ forall c, exists df, T !! key c = Some df /\ outcome (table c root) = inr df)
   \/ (exists e, outcome (load_ohiot1dm_xml xml_file) = inl e))
  /\ (forall e, xml_file = inl e -> outcome (load_ohiot1dm_xml xml_file) = inl e)
  /\ (forall root c e, xml_file = inr root -> outcome (table c root) = inl e ->
        exists e', outcome (load_ohiot1dm_xml xml_file) = inl e').
Proof.
  split; [|split].
  - destruct (outcome (load_ohiot1dm_xml xml_file)) as [e|T] eqn:H; [by eauto|].
    left. destruct xml_file as [e|root]; [discriminate H|].
    exists root, T. split; [done|]. split; [done|].
    pose proof H as (f & Hf & ->)%load_returns.
    split; [apply tables_of_dom|].
    intros c. exists (f c). by rewrite tables_of_lookup.
  - by intros e ->.
  - intros root c e -> H. by eapply table_raise_load_raise.
Qed.

(** ** Missing attributes *)

Lemma record_raise_table_raise root c event e :
  event ∈ events root c -> record_of c event = inl e ->
  exists e', outcome (table c root) = inl e'.
Proof.
  intros Hin He. unfold table. rewrite outcome_bind, outcome_lift.
  unfold events in Hin. unfold collect.
  destruct (find root (section c)) as [s|]; [|by apply elem_of_nil in Hin].
  destruct (mapM_inl _ _ _ _ Hin He) as [e' ->]. by exists e'.
Qed.

Lemma float_raise_record_raise c event column attribute e :
  (column, attribute) ∈ numeric_fields c ->
  float (get event attribute) = inl e ->
  exists e', record_of c event = inl e'.
Proof.
  intros Hin He.
  destruct c; simpl in Hin;
    repeat (apply elem_of_cons in Hin as [Hin|Hin]; [injection Hin as -> ->|]);
    try (by apply elem_of_nil in Hin); simpl;
    unfold glucose_record, basal_record, tempbasal_record, bolus_record,
      meal_record, step_record;
    try (rewrite He; by eauto).
  destruct (float (get event "dose")); [by eauto|].
  rewrite inr_bind, He. by eauto.
Qed.

(** C2 (amended): when an event that the loader visits lacks an attribute
    that is passed through [float] (a numeric field of its category), its
    record is not built and the whole run raises: no table is returned. *)
Theorem C2_missing_numeric root c event column attribute :
  event ∈ events root c ->
  (column, attribute) ∈ numeric_fields c ->
  get event attribute = None ->
  float (get event attribute) = inl TypeError
  /\ (exists e, record_of c event = inl e)
  /\ (exists e, outcome (load_ohiot1dm_xml (inr root)) = inl e).
Proof.
  intros Hev Hfield Hget.
  assert (float (get event attribute) = inl TypeError) as Hfloat by by rewrite Hget.
  destruct (float_raise_record_raise _ _ _ _ _ Hfield Hfloat) as [e He].
  split; [done|]. split; [by eauto|].
  destruct (record_raise_table_raise _ _ _ _ Hev He) as [e' He'].
  by eapply table_raise_load_raise.
Qed.

(** ** When the loader returns *)

Lemma mapM_succeeds {A B} (f : A -> result B) (l : list A) :
  Forall (fun x => exists y, f x = inr y) l -> exists k, mapM f l = inr k.
Proof.
  induction 1 as [|x l [y Hy] _ [k IH]].
  - by exists [].
  - exists (y :: k). simpl. by rewrite Hy, inr_bind, IH.
Qed.

Lemma convert_succeeds name df col j :
  index_of col (columns df) = Some j ->
  (forall (i : nat) row, data df !! i = Some row ->
     exists v, to_datetime_value (clock (Call name col) i) FORMAT
                 (default (VFloat S754_nan) (row !! j)) = inr v) ->
  exists df', outcome (convert name df col) = inr df'.
Proof.
  intros Hj Hrows. rewrite convert_outcome. unfold getitem. rewrite Hj, inr_bind.
  destruct (mapMi_succeeds (fun i => to_datetime_value (clock (Call name col) i) FORMAT)
              (map (fun row => default (VFloat S754_nan) (row !! j)) (data df)))
    as [parsed Hp].
  { intros i x Hx. change (map ?f (data df)) with (f <$> data df) in Hx.
    apply list_lookup_fmap_Some in Hx as (row & -> & Hrow). by apply Hrows. }
  unfold to_datetime. rewrite Hp, inr_bind. unfold setitem.
  apply mapMi_inr in Hp as [Hp _]. rewrite length_map in Hp.
  rewrite decide_True by done. rewrite Hj. by eauto.
Qed.

Lemma uniform_row (c : category) (records : list record) (i : nat) row :
  map (map snd) records !! i = Some row ->
  exists r, records !! i = Some r /\ row = map snd r.
Proof.
  change (map ?f records) with (f <$> records).
  intros (r & -> & Hr)%list_lookup_fmap_Some. by eauto.
Qed.

Lemma finish_succeeds c (records : list record) :
  Forall (fun r => map fst r = field_names c) records ->
  (forall (i : nat) r, records !! i = Some r -> exists row, convert_record c i r = inr row) ->
  exists df, outcome (finish c (DataFrame_ records)) = inr df.
Proof.
  intros Hkeys Hconv.
  destruct (decide (records = [])) as [->|Hne]; [by eexists|].
  rewrite (DataFrame_uniform (field_names c)) by auto using field_names_NoDup.
  unfold finish. rewrite empty_false.
  2: apply field_names_ne.
  2: by destruct records.
  assert (forall (i : nat) r, records !! i = Some r ->
            map fst r = field_names c
            /\ exists row, convert_record c i r = inr row) as Hall.
  { intros i r Hr. split; [|by eauto].
    rewrite Forall_forall in Hkeys. by eapply Hkeys, list_elem_of_lookup_2. }
  clear Hkeys Hconv.
  destruct c; simpl.
  1,2,5,6:
    apply (convert_succeeds _ _ _ 0%nat); [reflexivity|]; simpl;
    intros i row0 (r & Hr & ->)%(uniform_row glucose_level);
    apply Hall in Hr as [Hk [row Hrow]];
    simpl in Hk; split_record; unfold convert_record in Hrow; simpl in *;
    apply bind_inr in Hrow as (v' & Hv' & _); by eauto.
  all:
    rewrite outcome_bind;
    match goal with
    | |- exists df, outcome (convert ?n ?df0 ?col) ≫= _ = inr df =>
        destruct (convert_succeeds n df0 col 0%nat) as [df1 H1]
    end;
    [reflexivity| |];
    [ simpl;
      intros i row0 (r & Hr & ->)%(uniform_row glucose_level);
      apply Hall in Hr as [Hk [row Hrow]];
      simpl in Hk; split_record; unfold convert_record in Hrow; simpl in *;
      apply bind_inr in Hrow as (v' & Hv' & _); by eauto
    | simpl in H1; rewrite H1, inr_bind;
      apply (convert_rows _ _ _ 0%nat) in H1 as [Hcols1 H1]; [|reflexivity];
      apply (convert_succeeds _ _ _ 1%nat); [by rewrite Hcols1|];
      simpl in H1;
      intros i row1 Hrow1;
      destruct (Forall2i_lookup_r _ _ _ _ _ H1 Hrow1)
        as (row0 & (r & Hr & ->)%(uniform_row glucose_level) & (w1 & Hw1 & ->));
      apply Hall in Hr as [Hk [row Hrow]];
      simpl in Hk; split_record; unfold convert_record in Hrow; simpl in *;
      rewrite Hw1, inr_bind in Hrow;
      apply bind_inr in Hrow as (k' & Hrow & _);
      apply bind_inr in Hrow as (v' & Hv' & _); by eauto ].
Qed.

(** A category does not raise when each of its events has a row. *)
Lemma table_succeeds c root :
  (forall (i : nat) event, events root c !! i = Some event ->
     exists row, row_of c i event = inr row) ->
  exists df, outcome (table c root) = inr df.
Proof.
  intros H.
  destruct (mapM_succeeds (record_of c) (events root c)) as [records Hrec].
  { apply Forall_lookup. intros i event Hi.
    destruct (H i event Hi) as [row Hrow]. unfold row_of in Hrow.
    apply bind_inr in Hrow as (r & Hr & _). by eauto. }
  apply mapM_inr in Hrec.
  destruct (finish_succeeds c records) as [df Hdf].
  - eapply Forall2_Forall_r; [exact Hrec|].
    apply Forall_forall. intros event _ r Hr. by eapply record_of_keys.
  - intros i r Hr.
    destruct (Forall2_lookup_r _ _ _ _ _ Hrec Hr) as (event & Hev & Hrecord).
    destruct (H i event Hev) as [row Hrow]. unfold row_of in Hrow.
    rewrite Hrecord, inr_bind in Hrow. by eauto.
  - exists df. apply table_inr. exists records. split; [|done].
    by apply collect_events.
Qed.

(** The loader returns exactly when every event that it visits has a row. *)
Lemma load_succeeds_iff root :
  (exists T, outcome (load_ohiot1dm_xml (inr root)) = inr T) <->
  forall c (i : nat) event, events root c !! i = Some event ->
    exists row, row_of c i event = inr row.
Proof.
  split.
  - intros [T HT] c i event Hi.
    destruct (load_lookup _ _ c HT) as (df & _ & Hdf).
    apply table_rows in Hdf as [_ Hdf].
    destruct (Hdf i event Hi) as (row & _ & Hrow). by eauto.
  - intros H.
    destruct (outcome (load_ohiot1dm_xml (inr root))) as [e|T] eqn:HT; [|by eauto].
    apply load_raise_table_raise in HT as (c & e' & Hc).
    destruct (table_succeeds c root (H c)) as [df Hdf]. congruence.
Qed.

(** ** The first of several sections *)

Lemma events_two_meals event1 event2 c :
  tag event1 = "event" ->
  events (two_meals event1 event2) c = if decide (c = meal) then [event1] else [].
Proof.
  intros Htag. unfold events, two_meals, find, findall. simpl.
  destruct c; simpl; try reflexivity.
  by rewrite filter_cons, decide_True.
Qed.

(** C6: of several sibling sections with the name of a category, the first
    in document order is the one whose events are loaded; the later ones
    are not read: removing them changes neither the outcome of the run nor
    its calls.  In particular, with two [meal] sections of one event each,
    the run returns as soon as the event of the first section has a row,
    whatever the second section holds, and the [meal] table that it returns
    has exactly one row, the row of the event of the first section. *)
Theorem C6_first_section_wins t a l1 s l2 c :
  tag s = section c ->
  Forall (fun x => tag x <> section c) l1 ->
  find (mkElement t a (l1 ++ s :: l2)) (section c) = Some s
  /\ events (mkElement t a (l1 ++ s :: l2)) c = findall s "event"
  /\ load_ohiot1dm_xml (inr (mkElement t a (l1 ++ s :: l2)))
     = load_ohiot1dm_xml
         (inr (mkElement t a (l1 ++ s :: filter (fun x => tag x <> section c) l2)))
  /\ (forall event1 event2 row,
        tag event1 = "event" ->
        row_of meal 0 event1 = inr row ->
        exists T df,
          outcome (load_ohiot1dm_xml (inr (two_meals event1 event2))) = inr T
          /\ T !! "meal" = Some df
          /\ columns df = field_names meal
          /\ data df = [row]).
Proof.
  intros Hs Hl1.
  assert (find (mkElement t a (l1 ++ s :: l2)) (section c) = Some s) as Hfind.
  { unfold find. simpl. rewrite find_first_app, find_first_none by done.
    simpl. by rewrite decide_True. }
  split; [exact Hfind|]. split; [|split].
  - unfold events. by rewrite Hfind.
  - apply load_find_ext. intros name. unfold find. simpl.
    rewrite !find_first_app. destruct (find_first name l1); [done|]. simpl.
    destruct (decide (tag s = name)) as [_|Hne]; [done|].
    rewrite find_first_filter; [done|congruence].
  - intros event1 event2 row Htag Hrow.
    destruct (proj2 (load_succeeds_iff (two_meals event1 event2))) as [T HT].
    { intros c' i event. rewrite events_two_meals by done.
      destruct (decide (c' = meal)) as [->|_]; [|by rewrite lookup_nil].
      destruct i as [|i]; [|by rewrite lookup_cons, lookup_nil].
      intros Hev. injection Hev as <-. by eauto. }
    destruct (load_lookup _ _ meal HT) as (df & Hdf & Htab).
    exists T, df. split; [done|]. split; [exact Hdf|].
    pose proof (table_columns _ _ _ Htab) as Hcols.
    pose proof (table_rows _ _ _ Htab) as [Hlen Hrows].
    rewrite events_two_meals in Hcols, Hlen, Hrows by done.
    rewrite decide_True in Hlen, Hrows by done.
    split; [by rewrite Hcols|].
    destruct (Hrows 0%nat event1 eq_refl) as (row' & Hrow' & Heq).
    assert (row' = row) as -> by congruence.
    destruct (data df) as [|r [|r' rest]]; simpl in Hlen, Hrow'; try discriminate.
    by injection Hrow' as ->.
Qed.

(** ** Missing text and timestamp attributes *)

Ltac field_cases H :=
  simpl in H;
  repeat (apply elem_of_cons in H as [H|H]; [injection H as -> ->|]);
  try (by apply elem_of_nil in H).

Ltac invert_binds :=
  repeat match goal with
         | H : _ ≫= _ = inr _ |- _ =>
             apply bind_inr in H as (? & ? & H); cbv beta in H
         | H : mret _ = inr _ |- _ =>
             unfold mret, result_ret in H; injection H as <-
         | H : inr _ = inr ?x |- _ => is_var x; injection H as <-
         end.

Ltac unfold_records :=
  unfold glucose_record, basal_record, tempbasal_record, bolus_record,
    meal_record, step_record in *.

(** The record of an event whose numeric attributes are numbers: the other
    fields hold what [event.get] gave, [None] for an absent attribute. *)
Lemma record_of_text c event :
  (forall column attribute, (column, attribute) ∈ numeric_fields c ->
     exists x, float (get event attribute) = inr x) ->
  exists r, record_of c event = inr r
            /\ forall column attribute,
                 (column, attribute) ∈ string_fields c ++ timestamp_fields c ->
                 lookup_key column r = Some (text (get event attribute)).
Proof.
  intros Hnum.
  destruct c; simpl; unfold_records.
  1,2,3,6:
    destruct (Hnum "value" "value") as [x ->]; [by apply list_elem_of_singleton|];
    eexists; (split; [reflexivity|]);
    intros column attribute Hin; field_cases Hin; reflexivity.
  - destruct (Hnum "dose" "dose") as [x ->]; [simpl; set_solver|].
    destruct (Hnum "bwz_carb_input" "bwz_carb_input") as [y ->]; [simpl; set_solver|].
    eexists; (split; [reflexivity|]).
    intros column attribute Hin; field_cases Hin; reflexivity.
  - destruct (Hnum "carbs" "carbs") as [x ->]; [by apply list_elem_of_singleton|].
    eexists; (split; [reflexivity|]).
    intros column attribute Hin; field_cases Hin; reflexivity.
Qed.

(** The cells of the row of an event, by column: a timestamp column holds
    the conversion of what [event.get] gave, a text column what [event.get]
    gave, a numeric column the [float] of it. *)
Lemma row_of_cells c (i : nat) event row :
  row_of c i event = inr row ->
  length row = length (field_names c)
  /\ (forall column attribute, (column, attribute) ∈ timestamp_fields c ->
        exists j v, index_of column (field_names c) = Some j
                    /\ to_datetime_value (clock (Call (variable c) column) i) FORMAT
                         (text (get event attribute)) = inr v
                    /\ row !! j = Some v)
  /\ (forall column attribute, (column, attribute) ∈ string_fields c ->
        exists j, index_of column (field_names c) = Some j
                  /\ row !! j = Some (text (get event attribute)))
  /\ (forall column attribute, (column, attribute) ∈ numeric_fields c ->
        exists j x, index_of column (field_names c) = Some j
                    /\ float (get event attribute) = inr x
                    /\ row !! j = Some (VFloat x)).
Proof.
  unfold row_of. intros (r & Hr & Hrow)%bind_inr.
  destruct c; simpl in Hr; unfold_records; invert_binds;
    unfold convert_record in Hrow; simpl in Hrow; invert_binds;
    (split; [reflexivity|]); (split; [|split]);
    intros column attribute Hin; field_cases Hin;
    repeat eexists; try reflexivity; eassumption.
Qed.

(** Row [i] of a returned table, as the row of event [i]. *)
Lemma load_row root T c df (i : nat) event :
  outcome (load_ohiot1dm_xml (inr root)) = inr T ->
  T !! key c = Some df ->
  events root c !! i = Some event ->
  columns df = field_names c
  /\ exists row, data df !! i = Some row /\ row_of c i event = inr row.
Proof.
  intros HT Hdf Hi. split.
  - destruct (load_lookup _ _ c HT) as (df' & Hdf' & Htab).
    assert (df' = df) as -> by congruence.
    rewrite (table_columns _ _ _ Htab). rewrite decide_False; [done|].
    intros Hnil. by rewrite Hnil in Hi.
  - destruct (load_rows _ _ _ _ HT Hdf) as [_ H]. by apply H.
Qed.

Lemma cell_row df (i j : nat) column row :
  index_of column (columns df) = Some j -> data df !! i = Some row ->
  cell df i column = row !! j.
Proof. intros Hj Hi. unfold cell. by rewrite Hj, Hi. Qed.

(** The row of an event whose numeric attributes are numbers and whose
    timestamp attributes, where present, convert. *)
Lemma row_of_succeeds c (i : nat) event :
  (forall column attribute, (column, attribute) ∈ numeric_fields c ->
     exists x, float (get event attribute) = inr x) ->
  (forall column attribute s,
     (column, attribute) ∈ timestamp_fields c ->
     get event attribute = Some s ->
     exists v, to_datetime_value (clock (Call (variable c) column) i) FORMAT (VStr s) = inr v) ->
  exists row, row_of c i event = inr row.
Proof.
  intros Hnum Hts.
  destruct (record_of_text c event Hnum) as (r & Hr & _).
  unfold row_of. rewrite Hr, inr_bind.
  assert (forall column attribute, (column, attribute) ∈ timestamp_fields c ->
            exists v, to_datetime_value (clock (Call (variable c) column) i) FORMAT
                        (text (get event attribute)) = inr v)
    as Hconv.
  { intros column attribute Hin.
    destruct (get event attribute) as [s|] eqn:Hget; [by eauto|].
    by exists VNaT. }
  clear Hts Hnum.
  destruct c; simpl in Hr; unfold_records; invert_binds;
    unfold convert_record; simpl.
  1,2,5,6:
    destruct (Hconv "timestamp" "ts") as [v Hv];
    [by apply list_elem_of_singleton|];
    simpl variable in Hv; rewrite Hv; by eauto.
  all:
    destruct (Hconv "ts_begin" "ts_begin") as [v1 Hv1]; [simpl; set_solver|];
    destruct (Hconv "ts_end" "ts_end") as [v2 Hv2]; [simpl; set_solver|];
    simpl variable in Hv1, Hv2; rewrite Hv1; simpl; rewrite Hv2; by eauto.
Qed.

(** C10: an event whose numeric attributes are numbers gets its record
    whatever text or timestamp attribute it lacks, with [None] in the field
    of an absent attribute.  [pd.to_datetime] turns a [None] into [NaT]
    without a raise, so that the event has a row as soon as the timestamp
    attributes that are present convert.  The run then returns, when the
    other events of the document have their rows: the absent attributes do
    not make it raise, and in the table returned the cell of an absent
    timestamp attribute is [NaT] and the cell of an absent text attribute
    is [None]. *)
Theorem C10_null_fields c event :
  (forall column attribute, (column, attribute) ∈ numeric_fields c ->
     exists x, float (get event attribute) = inr x) ->
  (exists r, record_of c event = inr r
             /\ forall column attribute,
                  (column, attribute) ∈ string_fields c ++ timestamp_fields c ->
                  get event attribute = None ->
                  lookup_key column r = Some VNone)
  /\ (forall now, to_datetime_value now FORMAT VNone = inr VNaT)
  /\ (forall root (i : nat),
        events root c !! i = Some event ->
        (forall column attribute s,
           (column, attribute) ∈ timestamp_fields c ->
           get event attribute = Some s ->
           exists v, to_datetime_value (clock (Call (variable c) column) i) FORMAT (VStr s)
                     = inr v) ->
        (forall c' (j : nat) event',
           events root c' !! j = Some event' -> c' <> c \/ j <> i ->
           exists row, row_of c' j event' = inr row) ->
        exists T df row,
          outcome (load_ohiot1dm_xml (inr root)) = inr T
          /\ T !! key c = Some df
          /\ data df !! i = Some row
          /\ row_of c i event = inr row
          /\ forall column attribute,
               get event attribute = None ->
               ((column, attribute) ∈ timestamp_fields c -> cell df i column = Some VNaT)
               /\ ((column, attribute) ∈ string_fields c -> cell df i column = Some VNone)).
Proof.
  intros Hnum.
  destruct (record_of_text c event Hnum) as (r & Hr & Htext).
  split; [|split; [reflexivity|]].
  - exists r. split; [done|].
    intros column attribute Hin Hget. rewrite (Htext _ _ Hin), Hget. reflexivity.
  - intros root i Hi Hts Hothers.
    destruct (proj2 (load_succeeds_iff root)) as [T HT].
    { intros c' j event' Hj.
      destruct (decide (c' = c)) as [->|Hc]; [|by eauto].
      destruct (decide (j = i)) as [->|Hji]; [|by eauto].
      assert (event' = event) as -> by congruence.
      by apply row_of_succeeds. }
    destruct (load_lookup _ _ c HT) as (df & Hdf & _).
    destruct (load_row _ _ _ _ _ _ HT Hdf Hi) as (Hcols & row & Hrow & Hrowof).
    exists T, df, row. split; [done|]. split; [done|]. split; [done|]. split; [done|].
    intros column attribute Hget.
    apply row_of_cells in Hrowof as (_ & Hts' & Hstr & _).
    split; intros Hin.
    + destruct (Hts' _ _ Hin) as (j & v & Hj & Hv & Hcell).
      rewrite Hget in Hv. injection Hv as <-.
      rewrite <- Hcell. apply cell_row; [by rewrite Hcols|done].
    + destruct (Hstr _ _ Hin) as (j & Hj & Hcell).
      rewrite Hget in Hcell. simpl in Hcell.
      rewrite <- Hcell. apply cell_row; [by rewrite Hcols|done].
Qed.

(** ** Timestamps *)

Import strptime.

Lemma match_items_app items1 items2 s t :
  match_items (items1 ++ items2) s t =
  match match_items items1 s t with
  | Some (t', r) => match_items items2 r t'
  | None => None
  end.
Proof.
  revert s t. induction items1 as [|[c| |c] items1 IH]; intros s t; simpl; [done|..].
  - destruct (directive c s) as [[v r]|]; [apply IH|done].
  - destruct (starts_with_space s); [apply IH|done].
  - destruct s as [|a r]; [done|]. destruct (bool_decide (a = c)); [apply IH|done].
Qed.

Ltac enumerate n H :=
  rewrite <- (Z2Nat.id n) in * by lia;
  let k := fresh "k" in
  set (k := Z.to_nat n) in *; clearbody k;
  do 100 (try (destruct k as [|k]; [first [reflexivity | exfalso; lia]|]));
  exfalso; lia.

Lemma match_day D rest t :
  1 <= D <= 31 ->
  match_items [Directive "d"; Literal "-"] (two_digits D ++ "-" ++ rest) t
  = Some (mkTimestamp (year t) (month t) D (hour t) (minute t) (second t), rest).
Proof. intros H. enumerate D H. Qed.

Lemma match_month M rest t :
  1 <= M <= 12 ->
  match_items [Directive "m"; Literal "-"] (two_digits M ++ "-" ++ rest) t
  = Some (mkTimestamp (year t) M (day t) (hour t) (minute t) (second t), rest).
Proof. intros H. enumerate M H. Qed.

Lemma two_two_digits n rest :
  0 <= n <= 99 ->
  two PyFloat.is_digit PyFloat.is_digit (two_digits n ++ rest) = Some (n, rest).
Proof. intros H. enumerate n H. Qed.

Lemma match_year Y rest t :
  1 <= Y <= 9999 ->
  match_items [Directive "Y"] (two_digits (Y / 100) ++ two_digits (Y mod 100) ++ rest) t
  = Some (mkTimestamp Y (month t) (day t) (hour t) (minute t) (second t), rest).
Proof.
  intros H.
  change (match_items [Directive "Y"] ?s t)
    with (match four_digits s with
          | Some (v, r) =>
              Some (mkTimestamp v (month t) (day t) (hour t) (minute t) (second t), r)
          | None => None
          end).
  unfold four_digits.
  assert (0 <= Y / 100 <= 99) as Hhi.
  { split; [apply Z.div_pos; lia|].
    apply Z.lt_succ_r, Z.div_lt_upper_bound; lia. }
  assert (0 <= Y mod 100 <= 99) as Hlo.
  { pose proof (Z.mod_pos_bound Y 100). lia. }
  rewrite two_two_digits by done. rewrite two_two_digits by done.
  do 3 f_equal. pose proof (Z.div_mod Y 100). lia.
Qed.

Lemma match_hour H rest t :
  0 <= H <= 23 ->
  match_items [Whitespace; Directive "H"; Literal ":"] (" " ++ two_digits H ++ ":" ++ rest) t
  = Some (mkTimestamp (year t) (month t) (day t) H (minute t) (second t), rest).
Proof. intros Hr. enumerate H Hr. Qed.

Lemma match_minute M rest t :
  0 <= M <= 59 ->
  match_items [Directive "M"; Literal ":"] (two_digits M ++ ":" ++ rest) t
  = Some (mkTimestamp (year t) (month t) (day t) (hour t) M (second t), rest).
Proof. intros H. enumerate M H. Qed.

Lemma match_second S t :
  0 <= S <= 59 ->
  match_items [Directive "S"] (two_digits S) t
  = Some (mkTimestamp (year t) (month t) (day t) (hour t) (minute t) S, "").
Proof. intros H. enumerate S H. Qed.

(** The text of a well-formed timestamp, read with the format of the
    loader, is that timestamp. *)
Lemma parse_strftime t :
  well_formed t -> parse FORMAT (strftime t) = Some t.
Proof.
  destruct t as [Y M D h mi s]. unfold well_formed. simpl.
  intros (Hdate & _ & Hh & Hmi & Hs).
  unfold valid_date in Hdate.
  repeat (apply andb_prop in Hdate as [Hdate ?]).
  assert (days_in_month Y M <= 31) as Hdim.
  { unfold days_in_month. repeat case_match; lia. }
  unfold parse.
  change (pattern FORMAT)
    with ([Directive "d"; Literal "-"] ++ [Directive "m"; Literal "-"]
          ++ [Directive "Y"] ++ [Whitespace; Directive "H"; Literal ":"]
          ++ [Directive "M"; Literal ":"] ++ [Directive "S"])%list.
  unfold strftime. simpl year. simpl month. simpl day. simpl hour.
  simpl minute. simpl second.
  rewrite match_items_app, match_day by lia.
  rewrite match_items_app, match_month by lia.
  rewrite match_items_app, match_year by lia.
  rewrite match_items_app, match_hour by lia.
  rewrite match_items_app, match_minute by lia.
  rewrite match_second by lia.
  simpl year. simpl month. simpl day.
  unfold valid_date.
  repeat match goal with H : _ = true |- _ => rewrite H end. simpl.
  unfold normalize. simpl second.
  by rewrite (proj2 (Z.ltb_lt s 60)) by lia.
Qed.

Lemma strftime_not_null t :
  bool_decide (strftime t = "") || bool_decide (strftime t ∈ nat_strings) = false.
Proof.
  assert (exists a b r, strftime t = String a (String b (String "-" r)))
    as (a & b & r & ->) by (do 3 eexists; reflexivity).
  rewrite bool_decide_eq_false_2 by discriminate.
  rewrite bool_decide_eq_false_2; [done|].
  unfold nat_strings. intros H.
  repeat (apply elem_of_cons in H as [H|H]; [discriminate H|]).
  by apply elem_of_nil in H.
Qed.

Lemma strftime_not_now t :
  bool_decide (strftime t = "now") || bool_decide (strftime t = "today") = false.
Proof.
  assert (exists a b r, strftime t = String a (String b (String "-" r)))
    as (a & b & r & ->) by (do 3 eexists; reflexivity).
  by rewrite !bool_decide_eq_false_2 by discriminate.
Qed.

(** The years 1678 to 2261 are within the range of a timestamp. *)
Lemma well_formed_in_bounds t : well_formed t -> in_bounds t = true.
Proof.
  destruct t as [Y M D h mi s]. unfold well_formed. simpl.
  intros (_ & HY & _). unfold in_bounds, fields, earliest, latest. simpl.
  rewrite (proj2 (Z.ltb_lt 1677 Y)) by lia.
  by rewrite (proj2 (Z.ltb_lt Y 2262)) by lia.
Qed.

(** The conversion of text that is neither a null marker nor the name of
    the present time: the parsed timestamp, or a raise. *)
Lemma to_datetime_text now s :
  s <> "" -> s ∉ nat_strings -> s <> "now" -> s <> "today" ->
  to_datetime_value now FORMAT (VStr s) =
  match parse FORMAT s with
  | Some t => if in_bounds t then inr (VTimestamp t) else inl ValueError
  | None => inl ValueError
  end.
Proof.
  intros H1 H2 H3 H4. unfold to_datetime_value.
  by rewrite !bool_decide_eq_false_2.
Qed.

Lemma to_datetime_null now s :
  s = "" \/ s ∈ nat_strings -> to_datetime_value now FORMAT (VStr s) = inr VNaT.
Proof.
  intros H. unfold to_datetime_value.
  destruct H as [->|H]; [done|].
  rewrite (bool_decide_eq_true_2 (s ∈ nat_strings)) by done.
  by rewrite orb_true_r.
Qed.

Lemma to_datetime_now now s :
  s = "now" \/ s = "today" -> to_datetime_value now FORMAT (VStr s) = inr (VTimestamp now).
Proof. by intros [->| ->]. Qed.

(** Text that the loader passes to [pd.to_datetime] and that does not
    convert makes the run raise. *)
Lemma timestamp_raise_load_raise root c (i : nat) event column attribute e :
  events root c !! i = Some event ->
  (column, attribute) ∈ timestamp_fields c ->
  to_datetime_value (clock (Call (variable c) column) i) FORMAT (text (get event attribute))
  = inl e ->
  exists e', outcome (load_ohiot1dm_xml (inr root)) = inl e'.
Proof.
  intros Hev Hfield Hconv.
  destruct (outcome (load_ohiot1dm_xml (inr root))) as [e'|T] eqn:HT; [by eauto|].
  assert (exists T, outcome (load_ohiot1dm_xml (inr root)) = inr T) as Hret by eauto.
  rewrite load_succeeds_iff in Hret.
  destruct (Hret c i event Hev) as [row Hrow].
  apply row_of_cells in Hrow as (_ & Hts & _).
  destruct (Hts _ _ Hfield) as (j & v & _ & Hv & _). congruence.
Qed.

(** The format itself reads more than two-digit fields: a day, month, hour,
    minute or second of one digit, and any run of whitespace between the
    date and the time. *)
Lemma parse_one_digit_fields :
  parse FORMAT "2-12-2021 6:14:0" = Some (mkTimestamp 2021 12 2 6 14 0)
  /\ parse FORMAT "02-12-2021   06:14:00" = Some (mkTimestamp 2021 12 2 6 14 0).
Proof. split; vm_compute; reflexivity. Qed.

(** C7 (amended): the text of a calendar date (of the years 1678 to 2261)
    and time of day written as DD-MM-YYYY HH:MM:SS converts to the timestamp
    with exactly those fields (["02-12-2021 06:14:00"] to year 2021, month
    12, day 2, hour 6, minute 14, second 0), whatever the clock shows.  The
    texts ["now"] and ["today"] convert to the time that the clock shows.
    In a run that returns, the cell of a timestamp field whose attribute
    text is empty or one of the null markers of pandas (NaT, nat, NAT, nan,
    NaN, NAN) is [NaT], the cell of the text ["now"] or ["today"] is the
    reading of the clock taken for that cell, and the cell of any other
    attribute text is the timestamp that the format reads from it, which is
    within the range of a timestamp.  Text that is none of these and that
    the format does not read, or reads as a time outside that range, makes
    the run raise. *)
Theorem C7_timestamps :
  (forall now, to_datetime_value now FORMAT (VStr "02-12-2021 06:14:00")
               = inr (VTimestamp (mkTimestamp 2021 12 2 6 14 0)))
  /\ (forall now t, well_formed t ->
        to_datetime_value now FORMAT (VStr (strftime t)) = inr (VTimestamp t))
  /\ (forall now s, s = "now" \/ s = "today" ->
        to_datetime_value now FORMAT (VStr s) = inr (VTimestamp now))
  /\ (forall root T c df (i : nat) event column attribute s,
        outcome (load_ohiot1dm_xml (inr root)) = inr T ->
        T !! key c = Some df ->
        events root c !! i = Some event ->
        (column, attribute) ∈ timestamp_fields c ->
        get event attribute = Some s ->
        if bool_decide (s = "") || bool_decide (s ∈ nat_strings)
        then cell df i column = Some VNaT
        else if bool_decide (s = "now") || bool_decide (s = "today")
        then cell df i column = Some (VTimestamp (clock (Call (variable c) column) i))
        else exists t, parse FORMAT s = Some t /\ in_bounds t = true
                       /\ cell df i column = Some (VTimestamp t))
  /\ (forall root c event column attribute s,
        event ∈ events root c ->
        (column, attribute) ∈ timestamp_fields c ->
        get event attribute = Some s ->
        s <> "" -> s ∉ nat_strings -> s <> "now" -> s <> "today" ->
        parse FORMAT s = None
        \/ (exists t, parse FORMAT s = Some t /\ in_bounds t = false) ->
        exists e, outcome (load_ohiot1dm_xml (inr root)) = inl e).
Proof.
  split; [intros now; vm_compute; reflexivity|]. split; [|split; [|split]].
  - intros now t Ht. unfold to_datetime_value.
    by rewrite strftime_not_null, strftime_not_now, parse_strftime,
      well_formed_in_bounds.
  - intros now s. apply to_datetime_now.
  - intros root T c df i event column attribute s HT Hdf Hi Hfield Hget.
    destruct (load_row _ _ _ _ _ _ HT Hdf Hi) as (Hcols & row & Hrow & Hrowof).
    apply row_of_cells in Hrowof as (_ & Hts & _).
    destruct (Hts _ _ Hfield) as (j & v & Hj & Hv & Hcell).
    rewrite (cell_row df i j column row) by (by rewrite ?Hcols).
    rewrite Hget in Hv. simpl in Hv.
    destruct (bool_decide (s = "") || bool_decide (s ∈ nat_strings)).
    + by injection Hv as <-.
    + destruct (bool_decide (s = "now") || bool_decide (s = "today")).
      * by injection Hv as <-.
      * destruct (parse FORMAT s) as [t|]; [|discriminate Hv].
        destruct (in_bounds t) eqn:Hb; [|discriminate Hv].
        injection Hv as <-. by exists t.
  - intros root c event column attribute s Hev Hfield Hget Hne Hnat Hnow Htoday Hparse.
    apply list_elem_of_lookup in Hev as [i Hi].
    eapply timestamp_raise_load_raise; [done..|].
    rewrite Hget. simpl text. rewrite to_datetime_text by done.
    destruct Hparse as [->|(t & -> & ->)]; reflexivity.
Qed.

(** ** Numbers *)

Import PyFloat.

(** *** Strings *)

Lemma append_cons (a : ascii) (s t : string) :
  String a s +:+ t = String a (s +:+ t).
Proof. reflexivity. Qed.

Lemma append_nil_r (s : string) : s +:+ "" = s.
Proof.
  induction s as [|a s IH]; [reflexivity|]. by rewrite append_cons, IH.
Qed.

Lemma append_assoc (a b c : string) : (a +:+ b) +:+ c = a +:+ (b +:+ c).
Proof.
  induction a as [|x a IH]; [reflexivity|]. by rewrite !append_cons, IH.
Qed.

Lemma rev_app_append (s acc : string) :
  String.rev_app s acc = String.rev s +:+ acc.
Proof.
  revert acc. induction s as [|a s IH]; intros acc; [reflexivity|].
  unfold String.rev. simpl String.rev_app.
  rewrite (IH (String a acc)), (IH (String a "")).
  by rewrite append_assoc.
Qed.

Lemma rev_cons (a : ascii) (s : string) :
  String.rev (String a s) = String.rev s +:+ String a "".
Proof. unfold String.rev at 1. simpl String.rev_app. apply rev_app_append. Qed.

Lemma rev_append (a b : string) :
  String.rev (a +:+ b) = String.rev b +:+ String.rev a.
Proof.
  induction a as [|x a IH].
  - change ("" +:+ b) with b. change (String.rev "") with "".
    by rewrite append_nil_r.
  - by rewrite append_cons, !rev_cons, IH, append_assoc.
Qed.

Lemma all_space_append (a b : string) :
  all_space (a +:+ b) = all_space a && all_space b.
Proof.
  induction a as [|x a IH]; [reflexivity|].
  rewrite append_cons. simpl all_space. by rewrite IH, andb_assoc.
Qed.

Lemma all_space_rev (s : string) : all_space (String.rev s) = all_space s.
Proof.
  induction s as [|a s IH]; [reflexivity|].
  rewrite rev_cons, all_space_append, IH. simpl all_space.
  by rewrite andb_true_r, andb_comm.
Qed.

Lemma lstrip_all_space (ws s : string) :
  all_space ws = true -> PyFloat.lstrip (ws +:+ s) = PyFloat.lstrip s.
Proof.
  induction ws as [|a ws IH]; [reflexivity|].
  simpl all_space. intros [Ha Hws]%andb_prop.
  rewrite append_cons. simpl PyFloat.lstrip. rewrite Ha. by apply IH.
Qed.

Lemma lstrip_append_space (s ws : string) :
  all_space ws = true ->
  PyFloat.lstrip (s +:+ ws)
  = match PyFloat.lstrip s with
    | EmptyString => EmptyString
    | String a r => String a r +:+ ws
    end.
Proof.
  intros Hws. induction s as [|a s IH].
  - change ("" +:+ ws) with ws. simpl PyFloat.lstrip.
    rewrite <- (append_nil_r ws). by rewrite lstrip_all_space.
  - rewrite append_cons. simpl PyFloat.lstrip.
    destruct (PyFloat.is_space a); [exact IH|reflexivity].
Qed.

(** Whitespace before and after a text does not change what [strip]
    leaves. *)
Lemma strip_padding (ws1 s ws2 : string) :
  all_space ws1 = true -> all_space ws2 = true ->
  PyFloat.strip (ws1 +:+ s +:+ ws2) = PyFloat.strip s.
Proof.
  intros H1 H2. unfold PyFloat.strip.
  rewrite lstrip_all_space by done.
  rewrite lstrip_append_space by done.
  destruct (PyFloat.lstrip s) as [|a r]; [done|].
  rewrite rev_append, lstrip_all_space; [done|].
  by rewrite all_space_rev.
Qed.

Lemma is_ascii_cons (a : ascii) (s : string) :
  is_ascii (String a s) = (N_of_ascii a <? 128)%N && is_ascii s.
Proof. reflexivity. Qed.

Lemma is_ascii_append (a b : string) :
  is_ascii (a +:+ b) = is_ascii a && is_ascii b.
Proof.
  induction a as [|x a IH]; [reflexivity|].
  by rewrite append_cons, !is_ascii_cons, IH, andb_assoc.
Qed.

Lemma is_space_code (c : ascii) :
  PyFloat.is_space c = true -> PyFloat.code c < 127.
Proof.
  unfold PyFloat.is_space.
  intros [H|[H1 H2]%andb_prop]%orb_prop; lia.
Qed.

Lemma all_space_is_ascii (ws : string) : all_space ws = true -> is_ascii ws = true.
Proof.
  induction ws as [|a ws IH]; [reflexivity|].
  simpl all_space. intros [Ha Hws]%andb_prop.
  rewrite is_ascii_cons, IH by done. apply is_space_code in Ha.
  unfold PyFloat.code in Ha. rewrite andb_true_r. apply N.ltb_lt. lia.
Qed.

Lemma transform_space_append (ws s : string) :
  all_space ws = true -> PyFloat.transform (ws +:+ s) = ws +:+ PyFloat.transform s.
Proof.
  induction ws as [|a ws IH]; [reflexivity|].
  simpl all_space. intros [Ha Hws]%andb_prop.
  rewrite !append_cons. simpl PyFloat.transform.
  apply is_space_code in Ha.
  rewrite (proj2 (Z.ltb_lt _ _)) by done. by rewrite IH.
Qed.

(** [transform] either cuts the text before the padding, or passes the
    padding on. *)
Lemma transform_append_space (s ws : string) :
  all_space ws = true ->
  PyFloat.transform (s +:+ ws) = PyFloat.transform s +:+ ws
  \/ PyFloat.transform (s +:+ ws) = PyFloat.transform s.
Proof.
  intros Hws. induction s as [|a s IH].
  - left. change (PyFloat.transform ws = ws).
    rewrite <- (append_nil_r ws) at 1.
    by rewrite transform_space_append, append_nil_r.
  - rewrite append_cons. simpl PyFloat.transform.
    destruct (PyFloat.code a <? 127); [|destruct (PyFloat.is_unicode_space a)].
    + destruct IH as [-> | ->]; [by left|by right].
    + destruct IH as [-> | ->]; [by left|by right].
    + by right.
Qed.

Lemma to_ascii_padding (ws1 text ws2 : string) :
  all_space ws1 = true -> all_space ws2 = true ->
  PyFloat.strip (PyFloat.to_ascii (ws1 +:+ text +:+ ws2))
  = PyFloat.strip (PyFloat.to_ascii text).
Proof.
  intros H1 H2. unfold PyFloat.to_ascii.
  rewrite !is_ascii_append.
  rewrite (all_space_is_ascii ws1), (all_space_is_ascii ws2) by done.
  rewrite andb_true_r. simpl.
  destruct (is_ascii text); [by apply strip_padding|].
  rewrite transform_space_append by done.
  destruct (transform_append_space text ws2 H2) as [-> | ->].
  - by apply strip_padding.
  - rewrite <- (append_nil_r (PyFloat.transform text)) at 1.
    by apply strip_padding.
Qed.

(** ** The parser of [float] and the texts of the reference *)

Lemma append_nil_l (s : string) : "" +:+ s = s.
Proof. reflexivity. Qed.

Lemma string_rev_involutive (s : string) : String.rev (String.rev s) = s.
Proof.
  induction s as [|a s IH]; [reflexivity|].
  by rewrite rev_cons, rev_append, IH.
Qed.

Lemma lstrip_decompose (s : string) :
  exists ws, s = ws +:+ lstrip s /\ all_space ws = true.
Proof.
  induction s as [|a s (ws & IH & Hws)]; [by exists ""|].
  simpl lstrip. destruct (is_space a) eqn:Ha.
  - exists (String a ws). rewrite append_cons, <- IH. simpl. by rewrite Ha, Hws.
  - by exists "".
Qed.

(** What [strip] removes is whitespace. *)
Lemma strip_decompose (s : string) :
  exists ws1 ws2, s = ws1 +:+ strip s +:+ ws2
                  /\ all_space ws1 = true /\ all_space ws2 = true.
Proof.
  destruct (lstrip_decompose s) as (ws1 & Hs & H1).
  destruct (lstrip_decompose (String.rev (lstrip s))) as (ws2 & Hr & H2).
  exists ws1, (String.rev ws2). split; [|split; [done|by rewrite all_space_rev]].
  rewrite Hs at 1. f_equal. unfold strip.
  rewrite <- rev_append, <- Hr. by rewrite string_rev_involutive.
Qed.

Lemma no_space_append (a b : string) :
  no_space (a +:+ b) = no_space a && no_space b.
Proof.
  induction a as [|x a IH]; [reflexivity|].
  rewrite append_cons. simpl no_space. by rewrite IH, andb_assoc.
Qed.

Lemma no_space_rev (s : string) : no_space (String.rev s) = no_space s.
Proof.
  induction s as [|a s IH]; [reflexivity|].
  rewrite rev_cons, no_space_append, IH. simpl no_space.
  by rewrite andb_true_r, andb_comm.
Qed.

Lemma lstrip_no_space (s : string) : no_space s = true -> lstrip s = s.
Proof.
  destruct s as [|a s]; [done|]. simpl.
  intros [Ha _]%andb_prop. by destruct (is_space a).
Qed.

Lemma strip_no_space (s : string) : no_space s = true -> strip s = s.
Proof.
  intros H. unfold strip. rewrite (lstrip_no_space s) by done.
  rewrite lstrip_no_space by (by rewrite no_space_rev).
  apply string_rev_involutive.
Qed.

(** *** Underscores *)

Lemma digit_before_cons prev c a :
  digit_before prev (String c a) <-> digit_before (Some c) a.
Proof.
  split.
  - intros (a' & d & Heq & Hd). destruct a as [|x a].
    + destruct a' as [|y a']; simpl in Heq.
      * injection Heq as ->. by exists d.
      * injection Heq as _ Heq. by destruct a'.
    + destruct a' as [|y a']; [discriminate Heq|].
      simpl in Heq. injection Heq as -> Heq. by exists a', d.
  - destruct a as [|x a].
    + intros (p & Hp & Hd). injection Hp as <-. by exists "", c.
    + intros (a' & d & Heq & Hd). exists (String c a'), d. by rewrite Heq.
Qed.

Lemma underscores_ok_spec prev s :
  underscores_ok prev s = true <->
  (forall a b, s = a +:+ String "_" b -> digit_before prev a /\ digit_after b)
  /\ (prev = Some "_"%char -> digit_after s).
Proof.
  revert prev. induction s as [|c s IH]; intros prev.
  - simpl. split.
    + intros H. split.
      * intros [|x a] b Heq; discriminate Heq.
      * intros ->. discriminate H.
    + intros [_ H]. destruct (bool_decide (prev = Some "_"%char)) eqn:Hp; [|done].
      apply bool_decide_eq_true in Hp. by destruct (H Hp) as (? & ? & ? & _).
  - simpl underscores_ok. rewrite andb_true_iff, IH. clear IH. split.
    + intros (Hcheck & Hrest & Hnext). split.
      * intros [|x a] b Heq.
        { simpl in Heq. injection Heq as -> ->.
          rewrite bool_decide_eq_true_2 in Hcheck by done. split.
          - destruct prev as [p|]; [by exists p|discriminate].
          - by apply Hnext. }
        simpl in Heq. injection Heq as <- Heq.
        destruct (Hrest a b Heq) as [Hb Ha]. split; [|done].
        by apply digit_before_cons.
      * intros ->. destruct (bool_decide (c = "_"%char)); [discriminate Hcheck|].
        rewrite bool_decide_eq_true_2 in Hcheck by done. by exists c, s.
    + intros [Hall Hprev]. split; [|split].
      * destruct (bool_decide (c = "_"%char)) eqn:Hc.
        { apply bool_decide_eq_true in Hc as ->.
          destruct (Hall "" s eq_refl) as [(p & -> & Hp) _]. done. }
        destruct (bool_decide (prev = Some "_"%char)) eqn:Hp; [|done].
        apply bool_decide_eq_true in Hp.
        destruct (Hprev Hp) as (d & s' & Heq & Hd). by injection Heq as -> _.
      * intros a b Heq.
        destruct (Hall (String c a) b) as [Hb Ha]; [by rewrite Heq|].
        split; [|done]. by apply (digit_before_cons prev).
      * intros Hc. injection Hc as ->. by destruct (Hall "" s eq_refl) as [_ Ha].
Qed.

(** The check of the underscores is that each stands between two digits. *)
Lemma underscores_ok_grouped s : underscores_ok None s = true <-> grouped s.
Proof.
  rewrite underscores_ok_spec. unfold grouped. split.
  - intros [H _] a b Heq. destruct (H a b Heq) as [Hb Ha]. split; [|done].
    destruct a; [|done]. by destruct Hb as (? & ? & _).
  - intros H. split; [|discriminate].
    intros a b Heq. destruct (H a b Heq) as [(a' & d & -> & Hd) Ha]. split; [|done].
    destruct (a' +:+ String d "") eqn:Heq'; [by destruct a'|].
    simpl. by exists a', d.
Qed.

(** *** Digits *)

Ltac each_ascii c := destruct c as [[] [] [] [] [] [] [] []].

Lemma sign_cons c r :
  sign (String c r)
  = if bool_decide (c = "-"%char) then (true, r)
    else if bool_decide (c = "+"%char) then (false, r)
    else (false, String c r).
Proof. each_ascii c; reflexivity. Qed.

Lemma lower_e c :
  lower c = "e"%char ->
  is_digit c = false /\ is_space c = false /\ c <> "."%char /\ c <> "+"%char
  /\ c <> "-"%char /\ c <> "_"%char.
Proof. each_ascii c; intros H; try discriminate H; by repeat split. Qed.

Lemma is_digit_other c :
  is_digit c = true ->
  is_space c = false /\ c <> "."%char /\ c <> "+"%char /\ c <> "-"%char
  /\ c <> "_"%char /\ lower c = c.
Proof. each_ascii c; intros H; try discriminate H; by repeat split. Qed.

Lemma is_space_lower c : is_space (lower c) = is_space c.
Proof. each_ascii c; reflexivity. Qed.

Lemma number_app acc (a b : string) : number acc (a +:+ b) = number (number acc a) b.
Proof.
  revert acc. induction a as [|c a IH]; intros acc; [reflexivity|].
  rewrite append_cons. simpl. apply IH.
Qed.

Lemma length_append (a b : string) :
  String.length (a +:+ b) = (String.length a + String.length b)%nat.
Proof.
  induction a as [|c a IH]; [reflexivity|]. rewrite append_cons. simpl. by rewrite IH.
Qed.

Lemma digits_stop acc n rest : no_digit_first rest -> digits acc n rest = (acc, n, rest).
Proof. destruct rest as [|c r]; [done|]. simpl. by intros ->. Qed.

Lemma digits_app acc n ds rest :
  all_digits ds = true ->
  digits acc n (ds +:+ rest) = digits (number acc ds) (n + Z.of_nat (String.length ds)) rest.
Proof.
  revert acc n. induction ds as [|c ds IH]; intros acc n.
  - intros _. simpl. by rewrite Z.add_0_r.
  - simpl all_digits. intros [Hc Hds]%andb_prop.
    rewrite append_cons. simpl digits. rewrite Hc, IH by done.
    simpl number. f_equal. simpl String.length. lia.
Qed.

Lemma digits_decompose acc n s :
  exists ds rest, s = ds +:+ rest /\ all_digits ds = true /\ no_digit_first rest
                  /\ digits acc n s = (number acc ds, n + Z.of_nat (String.length ds), rest).
Proof.
  revert acc n. induction s as [|c s IH]; intros acc n.
  - exists "", "". simpl. by rewrite Z.add_0_r.
  - simpl digits. destruct (is_digit c) eqn:Hc.
    + destruct (IH (10 * acc + digit_value c) (n + 1)) as (ds & rest & -> & Hds & Hrest & ->).
      exists (String c ds), rest. rewrite append_cons. simpl. rewrite Hc, Hds.
      repeat split; try done. do 2 f_equal; lia.
    + exists "", (String c s). simpl. by rewrite Z.add_0_r.
Qed.

(** *** Sign, exponent, infinities *)

Lemma sign_sign_string sg r :
  no_sign_first r -> sign (sign_string sg +:+ r) = (is_minus sg, r).
Proof.
  intros H. destruct sg; simpl sign_string; try reflexivity.
  rewrite append_nil_l. destruct r as [|c r]; [done|]. destruct H as [H1 H2].
  rewrite sign_cons. by rewrite !bool_decide_eq_false_2.
Qed.

Lemma sign_decompose u :
  exists sg r, u = sign_string sg +:+ r /\ sign u = (is_minus sg, r).
Proof.
  destruct u as [|c r]; [by exists NoSign, ""|]. rewrite sign_cons.
  destruct (bool_decide (c = "-"%char)) eqn:H1.
  { apply bool_decide_eq_true in H1 as ->. by exists Minus, r. }
  destruct (bool_decide (c = "+"%char)) eqn:H2.
  { apply bool_decide_eq_true in H2 as ->. by exists Plus, r. }
  by exists NoSign, (String c r).
Qed.

Lemma all_digits_first ds c r :
  all_digits ds = true -> ds = String c r -> is_digit c = true.
Proof. intros H ->. simpl in H. by apply andb_prop in H as [? _]. Qed.

Lemma exponent_complete ex x : exponent_text ex x -> exponent ex = Some x.
Proof.
  intros [|c sg ds Hc Hds Hne]; [reflexivity|].
  simpl exponent. rewrite Hc. rewrite bool_decide_eq_true_2 by done.
  rewrite sign_sign_string.
  - rewrite <- (append_nil_r ds) at 1. rewrite digits_app by done.
    rewrite digits_stop by done. simpl.
    destruct ds as [|d ds]; [done|]. simpl String.length.
    rewrite (proj2 (Z.ltb_lt 0 _)) by lia. by destruct sg.
  - destruct ds as [|d ds]; [done|].
    apply (all_digits_first _ d ds) in Hds; [|done].
    apply is_digit_other in Hds. simpl. tauto.
Qed.

Lemma exponent_sound s x : exponent s = Some x -> exponent_text s x.
Proof.
  destruct s as [|c s]; simpl.
  - intros H. injection H as <-. constructor.
  - destruct (bool_decide (lower c = "e"%char)) eqn:Hc; [|discriminate].
    apply bool_decide_eq_true in Hc.
    destruct (sign_decompose s) as (sg & r & -> & ->).
    destruct (digits_decompose 0 0 r) as (ds & rest & -> & Hds & _ & ->).
    destruct (0 <? 0 + Z.of_nat (String.length ds)) eqn:Hn; [|discriminate].
    destruct (bool_decide (rest = "")) eqn:Hrest; [|discriminate].
    apply bool_decide_eq_true in Hrest as ->. simpl.
    intros H. injection H as <-. rewrite append_nil_r.
    destruct sg; simpl is_minus; constructor; try done;
      intros ->; discriminate Hn.
Qed.

Lemma inf_or_nan_spec neg s l :
  inf_or_nan neg s = Some l <->
  (l = Infinity neg /\ (lowercase s = "inf" \/ lowercase s = "infinity"))
  \/ (l = NaN /\ lowercase s = "nan").
Proof.
  unfold inf_or_nan.
  destruct (bool_decide (lowercase s = "inf")) eqn:H1;
    [apply bool_decide_eq_true in H1|apply bool_decide_eq_false in H1];
  (destruct (bool_decide (lowercase s = "infinity")) eqn:H2;
    [apply bool_decide_eq_true in H2|apply bool_decide_eq_false in H2]);
  (destruct (bool_decide (lowercase s = "nan")) eqn:H3;
    [apply bool_decide_eq_true in H3|apply bool_decide_eq_false in H3]);
  simpl; split;
    try (intros H; injection H as <-); try (intros [[-> [H|H]]|[-> H]]);
    try congruence; try tauto.
Qed.

(** *** Decimal numbers *)

Lemma decimal_unfold s :
  decimal s =
  let '(i, ni, s1) := digits 0 0 s in
  let '(m, nf, s2) :=
    match s1 with
    | String c s' => if bool_decide (c = "."%char) then digits i 0 s' else (i, 0, s1)
    | EmptyString => (i, 0, s1)
    end in
  if 0 <? ni + nf then
    match exponent s2 with
    | Some x => Some (m, x - nf)
    | None => None
    end
  else None.
Proof.
  unfold decimal. destruct (digits 0 0 s) as [[i ni] s1].
  destruct s1 as [|c s']; [reflexivity|].
  each_ascii c; try reflexivity.
  by destruct (digits i 0 s') as [[? ?] ?].
Qed.

Lemma exponent_text_first ex x : exponent_text ex x -> no_digit_first ex.
Proof.
  intros [|c sg ds Hc _ _]; [done|]. simpl. by apply lower_e in Hc as [? _].
Qed.

Lemma exponent_text_no_point ex x c r : exponent_text ex x -> ex = String c r -> c <> "."%char.
Proof.
  intros [|c' sg ds Hc _ _]; [discriminate|]. intros H. injection H as -> _.
  by apply lower_e in Hc as (_ & _ & ? & _).
Qed.

Lemma decimal_complete ip point fp ex x :
  all_digits ip = true -> all_digits fp = true -> ip +:+ fp <> "" ->
  point = "." \/ (point = "" /\ fp = "") ->
  exponent_text ex x ->
  decimal (ip +:+ point +:+ fp +:+ ex)
  = Some (number 0 (ip +:+ fp), x - Z.of_nat (String.length fp)).
Proof.
  intros Hip Hfp Hne Hpoint Hex. rewrite decimal_unfold.
  rewrite digits_app by done. rewrite number_app.
  pose proof (exponent_text_first _ _ Hex) as Hstop.
  destruct Hpoint as [->|[-> ->]].
  - rewrite digits_stop by done.
    change ("." +:+ fp +:+ ex) with (String "." (fp +:+ ex)). cbv beta iota.
    rewrite bool_decide_eq_true_2 by done.
    rewrite digits_app by done. rewrite digits_stop by done.
    rewrite (exponent_complete _ _ Hex).
    assert (0 < Z.of_nat (String.length ip) + Z.of_nat (String.length fp)) as Hlen.
    { destruct ip, fp; simpl in *; try lia; done. }
    rewrite (proj2 (Z.ltb_lt 0 _)) by lia. do 2 f_equal; lia.
  - change ("" +:+ "" +:+ ex) with ex. rewrite digits_stop by done.
    assert (ip <> "") as Hip' by (intros ->; done).
    assert (0 < Z.of_nat (String.length ip)) as Hlen by (destruct ip; simpl; [done|lia]).
    destruct ex as [|c r]; cbv beta iota.
    + rewrite (proj2 (Z.ltb_lt 0 _)) by lia. rewrite (exponent_complete _ _ Hex).
      simpl. do 2 f_equal; lia.
    + rewrite bool_decide_eq_false_2 by (by eapply exponent_text_no_point).
      rewrite (proj2 (Z.ltb_lt 0 _)) by lia. rewrite (exponent_complete _ _ Hex).
      simpl. do 2 f_equal; lia.
Qed.

Lemma decimal_sound s m e :
  decimal s = Some (m, e) ->
  exists ip point fp ex x,
    s = ip +:+ point +:+ fp +:+ ex
    /\ all_digits ip = true /\ all_digits fp = true /\ ip +:+ fp <> ""
    /\ (point = "." \/ (point = "" /\ fp = ""))
    /\ exponent_text ex x
    /\ m = number 0 (ip +:+ fp) /\ e = x - Z.of_nat (String.length fp).
Proof.
  rewrite decimal_unfold.
  destruct (digits_decompose 0 0 s) as (ip & s1 & -> & Hip & _ & ->).
  assert (forall fp : string,
            0 < 0 + Z.of_nat (String.length ip) + (0 + Z.of_nat (String.length fp)) ->
            ip +:+ fp <> "") as Hne.
  { intros fp Hlen Heq. destruct ip, fp; simpl in *; try discriminate; lia. }
  destruct s1 as [|c s'].
  - destruct (0 <? 0 + Z.of_nat (String.length ip) + 0) eqn:Hn; [|discriminate].
    simpl. intros H. injection H as <- <-.
    apply Z.ltb_lt in Hn.
    exists ip, "", "", "", 0.
    split; [done|]. split; [done|]. split; [done|].
    split; [apply (Hne ""); simpl; lia|]. split; [by right|].
    split; [constructor|]. split; [by rewrite append_nil_r|done].
  - destruct (bool_decide (c = "."%char)) eqn:Hc.
    + apply bool_decide_eq_true in Hc as ->.
      destruct (digits_decompose (number 0 ip) 0 s') as (fp & s2 & -> & Hfp & _ & ->).
      destruct (0 <? _) eqn:Hn; [|discriminate]. apply Z.ltb_lt in Hn.
      destruct (exponent s2) as [x|] eqn:Hx; [|discriminate].
      intros H. injection H as <- <-.
      exists ip, ".", fp, s2, x.
      split; [done|]. split; [done|]. split; [done|].
      split; [apply Hne; lia|]. split; [by left|].
      split; [by apply exponent_sound|]. split; [by rewrite number_app|lia].
    + destruct (0 <? _) eqn:Hn; [|discriminate]. apply Z.ltb_lt in Hn.
      destruct (exponent (String c s')) as [x|] eqn:Hx; [|discriminate].
      intros H. injection H as <- <-.
      exists ip, "", "", (String c s'), x.
      split; [done|]. split; [done|]. split; [done|].
      split; [apply (Hne ""); simpl; lia|]. split; [by right|].
      split; [by apply exponent_sound|]. split; [by rewrite append_nil_r|done].
Qed.

(** *** The literal *)

Lemma parse_literal_unfold text :
  parse_literal text
  = if underscores_ok None (strip (to_ascii text))
    then parse_plain (remove_underscores (strip (to_ascii text)))
    else None.
Proof. reflexivity. Qed.

Lemma lowercase_cons c s : lowercase (String c s) = String (lower c) (lowercase s).
Proof. reflexivity. Qed.

Lemma lowercase_first s c r :
  lowercase s = String c r -> exists c' r', s = String c' r' /\ lower c' = c.
Proof.
  destruct s as [|c' r']; [discriminate|]. rewrite lowercase_cons.
  intros H. injection H as H _. by eauto.
Qed.

Lemma letter_no_sign s c r :
  lowercase s = String c r -> c <> "+"%char -> c <> "-"%char -> no_sign_first s.
Proof.
  intros (c' & r' & -> & <-)%lowercase_first H1 H2. simpl.
  split; intros ->; by simpl in *.
Qed.

Lemma decimal_first ip point fp ex :
  all_digits ip = true -> ip +:+ fp <> "" ->
  point = "." \/ (point = "" /\ fp = "") ->
  exists c r, ip +:+ point +:+ fp +:+ ex = String c r
              /\ (is_digit c = true \/ c = "."%char).
Proof.
  intros Hip Hne Hpoint. destruct ip as [|d ip].
  - destruct Hpoint as [->|[-> ->]]; [|done]. exists "."%char, (fp +:+ ex). by split; [|right].
  - exists d, (ip +:+ point +:+ fp +:+ ex). split; [done|]. left.
    by eapply all_digits_first.
Qed.

Lemma inf_or_nan_decimal neg c r :
  is_digit c = true \/ c = "."%char -> inf_or_nan neg (String c r) = None.
Proof.
  intros Hc. unfold inf_or_nan. rewrite lowercase_cons.
  assert (lower c <> "i"%char /\ lower c <> "n"%char) as [H1 H2].
  { destruct Hc as [Hc| ->]; [|by split].
    apply is_digit_other in Hc as Hc'. destruct Hc' as (_ & _ & _ & _ & _ & ->).
    split; intros ->; discriminate Hc. }
  rewrite !bool_decide_eq_false_2; [done|..]; intros H; by injection H.
Qed.

Lemma plain_complete u l : float_literal u l -> parse_plain u = Some l.
Proof.
  intros [sg s Hs|sg s Hs|sg ip point fp ex x Hip Hfp Hne Hpoint Hex]; unfold parse_plain.
  - rewrite sign_sign_string.
    + assert (inf_or_nan (is_minus sg) s = Some (Infinity (is_minus sg))) as ->; [|done].
      apply inf_or_nan_spec. by left.
    + destruct Hs as [Hs|Hs]; by eapply letter_no_sign.
  - rewrite sign_sign_string.
    + assert (inf_or_nan (is_minus sg) s = Some NaN) as ->; [|done].
      apply inf_or_nan_spec. by right.
    + by eapply letter_no_sign.
  - destruct (decimal_first ip point fp ex Hip Hne Hpoint) as (c & r & Heq & Hc).
    rewrite sign_sign_string.
    + rewrite Heq, inf_or_nan_decimal by done. rewrite <- Heq.
      by rewrite (decimal_complete ip point fp ex x).
    + rewrite Heq. simpl. destruct Hc as [Hc| ->]; [|by split].
      apply is_digit_other in Hc. tauto.
Qed.

Lemma plain_sound u l : parse_plain u = Some l -> float_literal u l.
Proof.
  unfold parse_plain.
  destruct (sign_decompose u) as (sg & s1 & -> & ->).
  destruct (inf_or_nan (is_minus sg) s1) as [l'|] eqn:Hinf.
  - intros H. injection H as <-.
    apply inf_or_nan_spec in Hinf as [[-> Hs]|[-> Hs]]; by constructor.
  - destruct (decimal s1) as [[m e]|] eqn:Hdec; [|discriminate].
    intros H. injection H as <-.
    apply decimal_sound in Hdec
      as (ip & point & fp & ex & x & -> & Hip & Hfp & Hne & Hpoint & Hex & -> & ->).
    by constructor.
Qed.

(** *** Whitespace *)

Lemma all_digits_no_space ds : all_digits ds = true -> no_space ds = true.
Proof.
  induction ds as [|c ds IH]; [done|]. simpl.
  intros [Hc Hds]%andb_prop. apply is_digit_other in Hc as (-> & _). by rewrite IH.
Qed.

Lemma no_space_lowercase s : no_space (lowercase s) = no_space s.
Proof.
  induction s as [|c s IH]; [done|]. rewrite lowercase_cons. simpl.
  by rewrite is_space_lower, IH.
Qed.

Lemma sign_string_no_space sg : no_space (sign_string sg) = true.
Proof. by destruct sg. Qed.

Lemma exponent_text_no_space ex x : exponent_text ex x -> no_space ex = true.
Proof.
  intros [|c sg ds Hc Hds _]; [done|]. simpl.
  apply lower_e in Hc as (_ & -> & _).
  by rewrite no_space_append, sign_string_no_space, all_digits_no_space.
Qed.

Lemma float_literal_no_space u l : float_literal u l -> no_space u = true.
Proof.
  intros [sg s Hs|sg s Hs|sg ip point fp ex x Hip Hfp Hne Hpoint Hex];
    rewrite !no_space_append, sign_string_no_space; simpl.
  - rewrite <- no_space_lowercase. by destruct Hs as [-> | ->].
  - rewrite <- no_space_lowercase. by rewrite Hs.
  - rewrite (all_digits_no_space ip), (all_digits_no_space fp) by done.
    rewrite (exponent_text_no_space _ _ Hex).
    by destruct Hpoint as [->|[-> _]].
Qed.

Lemma remove_underscores_no_space s :
  no_space (remove_underscores s) = true -> no_space s = true.
Proof.
  induction s as [|c s IH]; [done|]. simpl remove_underscores.
  destruct (bool_decide (c = "_"%char)) eqn:Hc.
  - apply bool_decide_eq_true in Hc as ->. intros H. simpl. by apply IH.
  - simpl. intros [-> H]%andb_prop. by apply IH.
Qed.

(** The parser of [float] accepts the texts of the reference, no other,
    and reads from a text what it denotes. *)
Lemma parse_literal_spec text l : parse_literal text = Some l <-> float_text text l.
Proof.
  rewrite parse_literal_unfold. split.
  - destruct (underscores_ok None (strip (to_ascii text))) eqn:Hu; [|discriminate].
    intros H. apply underscores_ok_grouped in Hu. apply plain_sound in H.
    destruct (strip_decompose (to_ascii text)) as (ws1 & ws2 & Heq & H1 & H2).
    by exists ws1, (strip (to_ascii text)), ws2.
  - intros (ws1 & s & ws2 & -> & H1 & H2 & Hg & Hl).
    rewrite strip_padding by done.
    rewrite strip_no_space
      by (eapply remove_underscores_no_space, float_literal_no_space; exact Hl).
    rewrite (proj2 (underscores_ok_grouped s) Hg).
    by apply plain_complete.
Qed.

(** *** Values *)

(** On sample ratios, integers and others, [round_ratio] gives what the
    division of IEEE binary64 values of the Standard Library gives. *)
Lemma round_ratio_SFdiv_samples :
  Forall (fun '(n, d) =>
            round_ratio false n d
            = SFdiv 53 1024 (binary_normalize 53 1024 n 0 false)
                (binary_normalize 53 1024 d 0 false))
    [(150, 1); (5, 1); (1205, 10); (25, 10); (1, 10); (1, 3); (2, 3);
     (123456789, 1000); (3, 1000000); (9007199254740991, 7)].
Proof. repeat constructor. Qed.

(** The candidate exponent of [round_ratio] is the exponent of the value,
    or one less for a value with a full mantissa. *)
Lemma candidate_exponent n d m e :
  0 < n -> 0 < d -> canonical m e ->
  n * 2 ^ Z.max 0 (- e) = m * 2 ^ Z.max 0 e * d ->
  let e0 := Z.max emin (Z.log2 n - Z.log2 d - prec) in
  e0 = e \/ (e0 = e - 1 /\ 2 ^ (prec - 1) <= m).
Proof.
  intros Hn Hd ((Hm0 & Hm) & (Hemin & Hemax) & Hcan) Heq e0.
  assert (Z.log2 m < prec) as Hlm by by apply Z.log2_lt_pow2.
  assert (Z.max 0 (- e) + Z.log2 n = Z.max 0 e + Z.log2 (m * d)) as Hlog.
  { rewrite <- !Z.log2_mul_pow2 by lia. f_equal. rewrite Heq. ring. }
  pose proof (Z.log2_mul_below m d Hm0 Hd).
  pose proof (Z.log2_mul_above m d ltac:(lia) ltac:(lia)).
  assert (2 ^ (prec - 1) <= m -> prec - 1 <= Z.log2 m) as Hfull.
  { intros. by apply Z.log2_le_pow2. }
  unfold prec, emin in *. subst e0.
  destruct (Z.le_gt_cases (2 ^ (53 - 1)) m) as [Hge|Hlt].
  - specialize (Hfull Hge). lia.
  - destruct Hcan as [->|?]; [|lia].
    assert (Z.log2 m < 52) by by apply Z.log2_lt_pow2.
    lia.
Qed.

(** Rounding is exact on the values of binary64: a ratio equal to
    [m * 2^e] with [m] and [e] canonical rounds to that value. *)
Lemma round_ratio_exact s n d m e :
  0 < n -> 0 < d -> canonical m e ->
  n * 2 ^ Z.max 0 (- e) = m * 2 ^ Z.max 0 e * d ->
  round_ratio s n d = S754_finite s (Z.to_pos m) e.
Proof.
  intros Hn Hd Hcan Heq.
  pose proof (candidate_exponent n d m e Hn Hd Hcan Heq) as He0.
  destruct Hcan as ((Hm0 & Hm) & (Hemin & Hemax) & Hcan).
  assert (0 < 2 ^ Z.max 0 (- e)) as HA by (apply Z.pow_pos_nonneg; lia).
  assert (0 < 2 ^ Z.max 0 e) as HB by (apply Z.pow_pos_nonneg; lia).
  assert (n * 2 ^ Z.max 0 (- e) = m * (d * 2 ^ Z.max 0 e)) as Heq' by (rewrite Heq; ring).
  assert ((if 2 ^ prec <=?
                (n * 2 ^ Z.max 0 (- Z.max emin (Z.log2 n - Z.log2 d - prec)))
                / (d * 2 ^ Z.max 0 (Z.max emin (Z.log2 n - Z.log2 d - prec)))
           then Z.max emin (Z.log2 n - Z.log2 d - prec) + 1
           else Z.max emin (Z.log2 n - Z.log2 d - prec)) = e) as He.
  { cbv zeta in He0. destruct He0 as [->|[-> Hfull]].
    - rewrite Heq', Z.div_mul by lia.
      destruct (Z.leb_spec (2 ^ prec) m); [lia|done].
    - assert (n * 2 ^ Z.max 0 (- (e - 1)) = (2 * m) * (d * 2 ^ Z.max 0 (e - 1))) as ->.
      { destruct (Z.le_gt_cases 1 e).
        - rewrite !Z.max_l in * by lia. rewrite !Z.max_r in * by lia.
          replace e with (Z.succ (e - 1)) in Heq at 1 by lia.
          rewrite Z.pow_succ_r in Heq by lia. simpl in *. lia.
        - rewrite !Z.max_r in * by lia. rewrite !(Z.max_l 0 e), !(Z.max_l 0 (e - 1)) in * by lia.
          replace (- (e - 1)) with (Z.succ (- e)) by lia.
          rewrite Z.pow_succ_r by lia. simpl in *. lia. }
      rewrite Z.div_mul.
      + change (2 ^ prec) with (2 * 2 ^ (prec - 1)).
        destruct (Z.leb_spec (2 * 2 ^ (prec - 1)) (2 * m)); lia.
      + assert (0 < 2 ^ Z.max 0 (e - 1)) by (apply Z.pow_pos_nonneg; lia). lia. }
  unfold round_ratio. cbv zeta.
  rewrite (proj2 (Z.eqb_neq n 0)) by lia.
  rewrite He, Heq'.
  rewrite Z.div_mul, Z.mod_mul by lia.
  rewrite (proj2 (Z.ltb_lt (2 * 0) _)) by lia.
  rewrite (proj2 (Z.eqb_neq m (2 ^ prec))) by lia.
  rewrite (proj2 (Z.eqb_neq m 0)) by lia.
  rewrite (proj2 (Z.ltb_ge _ _)) by lia.
  reflexivity.
Qed.

Lemma of_decimal_exact neg M E x :
  0 < M ->
  exactly x neg (M * 10 ^ Z.max 0 E) (10 ^ Z.max 0 (- E)) ->
  of_decimal neg M E = x.
Proof.
  intros HM (m & e & -> & Hcan & Heq). unfold of_decimal.
  destruct (Z.leb_spec 0 E).
  - rewrite Z.max_r in Heq by lia. rewrite (Z.max_l 0 (- E)) in Heq by lia.
    apply round_ratio_exact; [|lia|done|done].
    apply Z.mul_pos_pos; [done|]. apply Z.pow_pos_nonneg; lia.
  - rewrite Z.max_l in Heq by lia. rewrite (Z.max_r 0 (- E)) in Heq by lia.
    apply round_ratio_exact; [done| |done|].
    + apply Z.pow_pos_nonneg; lia.
    + rewrite <- Heq. simpl. ring.
Qed.

Lemma float_text_raise root c event column attribute e :
  event ∈ events root c ->
  (column, attribute) ∈ numeric_fields c ->
  float (get event attribute) = inl e ->
  exists e', outcome (load_ohiot1dm_xml (inr root)) = inl e'.
Proof.
  intros Hev Hfield Hfloat.
  destruct (float_raise_record_raise _ _ _ _ _ Hfield Hfloat) as [e1 He1].
  destruct (record_raise_table_raise _ _ _ _ Hev He1) as [e2 He2].
  by eapply table_raise_load_raise.
Qed.

(** C9: every numeric field is the [float] of the text of its attribute.
    [float] reads the texts that the Python reference describes and raises
    [ValueError] on every other text.  The conversion is exact on decimals
    that binary64 holds: ["150.0"] gives 150.0 and ["5"] gives 5.0, and in
    general a text that denotes the decimal [m * 10^e] gives the binary64
    value equal to it whenever there is one (a zero for [m = 0]).
    In a run that returns, the cell of a numeric field holds the [float] of
    the attribute text; text that is not that of a float makes [float]
    raise [ValueError] and with it the whole run. *)
Theorem C9_numeric :
  (float (Some "150.0") = inr f150 /\ exactly f150 false 150 1)
  /\ (float (Some "5") = inr f5 /\ exactly f5 false 5 1)
  /\ (forall text,
        (float (Some text) = inl ValueError <-> forall l, ~ float_text text l)
        /\ ((exists x, float (Some text) = inr x) <-> exists l, float_text text l))
  /\ (forall text neg M E x,
        float_text text (Decimal neg M E) ->
        0 < M ->
        exactly x neg (M * 10 ^ Z.max 0 E) (10 ^ Z.max 0 (- E)) ->
        float (Some text) = inr x)
  /\ (forall text neg E,
        float_text text (Decimal neg 0 E) ->
        float (Some text) = inr (S754_zero neg))
  /\ (forall root T c df (i : nat) event column attribute,
        outcome (load_ohiot1dm_xml (inr root)) = inr T ->
        T !! key c = Some df ->
        events root c !! i = Some event ->
        (column, attribute) ∈ numeric_fields c ->
        exists x, float (get event attribute) = inr x
                  /\ cell df i column = Some (VFloat x))
  /\ (forall root c event column attribute text,
        event ∈ events root c ->
        (column, attribute) ∈ numeric_fields c ->
        get event attribute = Some text ->
        (forall l, ~ float_text text l) ->
        float (Some text) = inl ValueError
        /\ exists e, outcome (load_ohiot1dm_xml (inr root)) = inl e).
Proof.
  assert (forall text, float (Some text) = inl ValueError <-> forall l, ~ float_text text l)
    as Hreject.
  { intros text. unfold float, of_string. split.
    - intros H l Hl. apply parse_literal_spec in Hl. by rewrite Hl in H.
    - intros H. destruct (parse_literal text) as [l|] eqn:Hl; [|done].
      apply parse_literal_spec in Hl. by destruct (H l). }
  split; [|split; [|split; [|split; [|split; [|split]]]]].
  - split; [vm_compute; reflexivity|].
    exists 5277655813324800, (-45). unfold canonical, prec, emax, emin.
    repeat split; try reflexivity; lia.
  - split; [vm_compute; reflexivity|].
    exists 5629499534213120, (-50). unfold canonical, prec, emax, emin.
    repeat split; try reflexivity; lia.
  - intros text. split; [apply Hreject|].
    unfold float, of_string. split.
    + intros [x Hx]. destruct (parse_literal text) as [l|] eqn:Hl; [|discriminate Hx].
      exists l. by apply parse_literal_spec.
    + intros [l Hl]. apply parse_literal_spec in Hl. rewrite Hl. by eauto.
  - intros text neg M E x Hparse%parse_literal_spec HM Hx. unfold float, of_string.
    rewrite Hparse. simpl. by rewrite (of_decimal_exact _ _ _ x).
  - intros text neg E Hparse%parse_literal_spec. unfold float, of_string.
    rewrite Hparse. simpl. unfold of_decimal, round_ratio.
    by destruct (0 <=? E).
  - intros root T c df i event column attribute HT Hdf Hi Hfield.
    destruct (load_row _ _ _ _ _ _ HT Hdf Hi) as (Hcols & row & Hrow & Hrowof).
    apply row_of_cells in Hrowof as (_ & _ & _ & Hnum).
    destruct (Hnum _ _ Hfield) as (j & x & Hj & Hx & Hcell).
    exists x. split; [done|].
    rewrite <- Hcell. apply cell_row; [by rewrite Hcols|done].
  - intros root c event column attribute text Hev Hfield Hget Hno.
    assert (float (Some text) = inl ValueError) as Hfloat by by apply Hreject.
    split; [done|].
    eapply float_text_raise; [done..|]. by rewrite Hget.
Qed.

(** * More about the loader *)

(** ** The shape and the types of a returned table *)

Lemma load_table_columns root T c df :
  outcome (load_ohiot1dm_xml (inr root)) = inr T ->
  T !! key c = Some df ->
  columns df = if decide (events root c = []) then [] else field_names c.
Proof.
  intros HT Hdf. destruct (load_lookup _ _ c HT) as (df' & Hdf' & Htab).
  assert (df' = df) as -> by congruence. by apply table_columns.
Qed.

Lemma to_datetime_value_is_timestamp now fmt v v' :
  to_datetime_value now fmt v = inr v' -> is_timestamp v' = true.
Proof.
  unfold to_datetime_value. intros H.
  repeat case_match; by simplify_eq.
Qed.

Lemma to_datetime_value_raise now fmt v e :
  to_datetime_value now fmt v = inl e -> e = ValueError.
Proof.
  unfold to_datetime_value. intros H.
  repeat case_match; by simplify_eq.
Qed.

(** X1: in a run that returns, the table of a category with events has the
    keys of the dict literal as its column labels, in the order written,
    and every row has one cell per label; the table of a category without
    events has no column at all, so that subscripting it with any label
    raises [KeyError]. *)
Theorem X1_columns root T c df :
  outcome (load_ohiot1dm_xml (inr root)) = inr T ->
  T !! key c = Some df ->
  (events root c <> [] -> columns df = field_names c)
  /\ Forall (fun row => length row = length (columns df)) (data df)
  /\ (events root c = [] ->
      columns df = [] /\ forall col, getitem df col = inl KeyError).
Proof.
  intros HT Hdf. pose proof (load_table_columns _ _ _ _ HT Hdf) as Hcols.
  pose proof (load_rows _ _ _ _ HT Hdf) as Hrows.
  split; [|split].
  - intros Hne. by rewrite decide_False in Hcols.
  - apply Forall_lookup. intros i row Hi.
    destruct (Forall2i_lookup_r _ _ _ _ _ Hrows Hi) as (event & Hev & Hrow).
    apply row_of_cells in Hrow as [Hlen _]. rewrite Hlen, Hcols.
    rewrite decide_False; [done|]. intros Hnil. by rewrite Hnil in Hev.
  - intros Hnil. rewrite decide_True in Hcols by done.
    split; [done|]. intros col. unfold getitem. by rewrite Hcols.
Qed.

(** X2: in a run that returns, the columns of a table are typed: every cell
    of a timestamp column is a timestamp or [NaT] (never the attribute
    text), every cell of a numeric column is a float, and every cell of a
    text column is text or [None]. *)
Theorem X2_typed_cells root T c df (i : nat) row :
  outcome (load_ohiot1dm_xml (inr root)) = inr T ->
  T !! key c = Some df ->
  data df !! i = Some row ->
  (forall column attribute, (column, attribute) ∈ timestamp_fields c ->
     exists v, cell df i column = Some v /\ is_timestamp v = true)
  /\ (forall column attribute, (column, attribute) ∈ numeric_fields c ->
        exists v, cell df i column = Some v /\ is_float v = true)
  /\ (forall column attribute, (column, attribute) ∈ string_fields c ->
        exists v, cell df i column = Some v /\ is_text v = true).
Proof.
  intros HT Hdf Hi.
  pose proof (load_rows _ _ _ _ HT Hdf) as Hrows.
  destruct (Forall2i_lookup_r _ _ _ _ _ Hrows Hi) as (event & Hev & Hrow).
  destruct (load_row _ _ _ _ _ _ HT Hdf Hev) as (Hcols & _).
  apply row_of_cells in Hrow as (_ & Hts & Hstr & Hnum).
  split; [|split]; intros column attribute Hin.
  - destruct (Hts _ _ Hin) as (j & v & Hj & Hv & Hcell).
    exists v. split; [|by eapply to_datetime_value_is_timestamp].
    rewrite <- Hcell. apply cell_row; [by rewrite Hcols|done].
  - destruct (Hnum _ _ Hin) as (j & x & Hj & _ & Hcell).
    exists (VFloat x). split; [|done].
    rewrite <- Hcell. apply cell_row; [by rewrite Hcols|done].
  - destruct (Hstr _ _ Hin) as (j & Hj & Hcell).
    exists (text (get event attribute)). split; [|by destruct (get event attribute)].
    rewrite <- Hcell. apply cell_row; [by rewrite Hcols|done].
Qed.

(** ** The order of the work *)

Lemma Py_bind_inr {A B} (m : Py A) (f : A -> Py B) a :
  outcome m = inr a -> m ≫= f = (outcome (f a), calls m ++ calls (f a)).
Proof.
  destruct m as [[e|a'] log]; simpl; intros H; [discriminate H|].
  injection H as ->. unfold mbind, Py_bind. by destruct (f a).
Qed.

Lemma Py_bind_inl {A B} (m : Py A) (f : A -> Py B) e :
  outcome m = inl e -> m ≫= f = (inl e, calls m).
Proof.
  destruct m as [[e'|a] log]; simpl; intros H; [|discriminate H].
  by injection H as ->.
Qed.

Lemma lift_inl_bind {A B} e (f : A -> Py B) : lift (inl e) ≫= f = (inl e, []).
Proof. reflexivity. Qed.

(** Once the six loops have run, the rest of the loader works on their
    lists alone. *)
Lemma load_after_loops root data :
  (forall c, collect (find root (section c)) (record_of c) = inr (data c)) ->
  load_ohiot1dm_xml (inr root) = finish_tables data.
Proof.
  intros H. unfold load_ohiot1dm_xml. rewrite lift_inr_bind.
  pose proof (H glucose_level) as Hg. pose proof (H basal) as Hb.
  pose proof (H temp_basal) as Ht. pose proof (H bolus) as Hbo.
  pose proof (H meal) as Hm. pose proof (H basis_steps) as Hs.
  simpl in Hg, Hb, Ht, Hbo, Hm, Hs.
  rewrite Hg, lift_inr_bind, Hb, lift_inr_bind, Ht, lift_inr_bind.
  rewrite Hbo, lift_inr_bind, Hm, lift_inr_bind, Hs, lift_inr_bind.
  reflexivity.
Qed.

(** The loop of a category raises what the first event that has no record
    raises. *)
Lemma mapM_first_inl {A B} (f : A -> result B) l1 x l2 e :
  Forall (fun y => exists b, f y = inr b) l1 -> f x = inl e ->
  mapM f (l1 ++ x :: l2) = inl e.
Proof.
  intros Hl1 Hx. induction Hl1 as [|y l1 [b Hy] _ IH]; simpl.
  - by rewrite Hx.
  - by rewrite Hy, inr_bind, IH.
Qed.

Lemma collect_succeeds c root :
  Forall (fun event => exists r, record_of c event = inr r) (events root c) ->
  exists data, collect (find root (section c)) (record_of c) = inr data.
Proof.
  unfold events, collect. destruct (find root (section c)) as [s|]; [|by eexists].
  apply mapM_succeeds.
Qed.

Lemma collect_first_inl c root l1 event l2 e :
  events root c = l1 ++ event :: l2 ->
  Forall (fun ev => exists r, record_of c ev = inr r) l1 ->
  record_of c event = inl e ->
  collect (find root (section c)) (record_of c) = inl e.
Proof.
  unfold events, collect. destruct (find root (section c)) as [s|].
  - intros ->. apply mapM_first_inl.
  - intros H. by destruct l1.
Qed.

(** A loop that raises after the loops before it have run ends the call. *)
Lemma load_loop_raise root c e :
  collect (find root (section c)) (record_of c) = inl e ->
  (forall c', (position c' < position c)%nat ->
     exists data, collect (find root (section c')) (record_of c') = inr data) ->
  load_ohiot1dm_xml (inr root) = (inl e, []).
Proof.
  intros He Hbefore. unfold load_ohiot1dm_xml. rewrite lift_inr_bind.
  destruct c; simpl section in He; simpl record_of in He; simpl position in Hbefore.
  1: by rewrite He.
  all: destruct (Hbefore glucose_level ltac:(simpl; lia)) as [? Hg];
       simpl section in Hg; simpl record_of in Hg; rewrite Hg, lift_inr_bind.
  1: by rewrite He.
  all: destruct (Hbefore basal ltac:(simpl; lia)) as [? Hb];
       simpl section in Hb; simpl record_of in Hb; rewrite Hb, lift_inr_bind.
  1: by rewrite He.
  all: destruct (Hbefore temp_basal ltac:(simpl; lia)) as [? Ht];
       simpl section in Ht; simpl record_of in Ht; rewrite Ht, lift_inr_bind.
  1: by rewrite He.
  all: destruct (Hbefore bolus ltac:(simpl; lia)) as [? Hbo];
       simpl section in Hbo; simpl record_of in Hbo; rewrite Hbo, lift_inr_bind.
  1: by rewrite He.
  all: destruct (Hbefore meal ltac:(simpl; lia)) as [? Hm];
       simpl section in Hm; simpl record_of in Hm; rewrite Hm, lift_inr_bind.
  by rewrite He.
Qed.

(** X3: the six loops run before any conversion.  When an event has no
    record (a numeric attribute is absent or no number), and the events
    before it in its section and the events of the categories handled
    before have theirs, the run raises the exception of that event and has
    not called [pd.to_datetime] at all, whatever the timestamps of the
    document are. *)
Theorem X3_loops_before_conversions root c l1 event l2 e :
  events root c = l1 ++ event :: l2 ->
  Forall (fun ev => exists r, record_of c ev = inr r) l1 ->
  record_of c event = inl e ->
  (forall c', (position c' < position c)%nat ->
     Forall (fun ev => exists r, record_of c' ev = inr r) (events root c')) ->
  load_ohiot1dm_xml (inr root) = (inl e, []).
Proof.
  intros Hev Hl1 He Hbefore. apply (load_loop_raise root c).
  - by eapply collect_first_inl.
  - intros c' Hlt. by apply collect_succeeds, Hbefore.
Qed.

Lemma float_raise x e :
  float x = inl e ->
  (x = None /\ e = TypeError) \/ (is_Some x /\ e = ValueError).
Proof.
  destruct x as [s|]; simpl.
  - destruct (PyFloat.of_string s); intros H; [discriminate H|].
    injection H as <-. right. by eauto.
  - intros H. injection H as <-. by left.
Qed.

(** X4: the record of an event raises what the first call of [float], in
    the order of the dict literal, raises: [TypeError] for an absent
    attribute, [ValueError] for text that is no number.  For a bolus,
    [dose] is read before [bwz_carb_input]. *)
Theorem X4_record_exception c event before column attribute after e :
  numeric_fields c = before ++ (column, attribute) :: after ->
  Forall (fun f : string * string => exists x, float (get event f.2) = inr x) before ->
  float (get event attribute) = inl e ->
  record_of c event = inl e
  /\ (get event attribute = None -> e = TypeError)
  /\ (is_Some (get event attribute) -> e = ValueError).
Proof.
  intros Hfields Hbefore He. split.
  - destruct c; simpl in Hfields;
      destruct before as [|f1 [|f2 before]]; simplify_eq/=;
      unfold_records; try (by rewrite He).
    + apply Forall_cons in Hbefore as [[x Hx] _]. simpl in Hx.
      by rewrite Hx, inr_bind, He.
    + by destruct before.
  - destruct (float_raise _ _ He) as [[Hx ->]|[Hx ->]]; split; try done.
    + intros [s Hs]. congruence.
    + intros Hnone. rewrite Hnone in Hx. by destruct Hx.
Qed.

(** ** The exceptions of a run *)

Lemma mapM_inl_inv {A B} (f : A -> result B) (l : list A) e :
  mapM f l = inl e -> exists x, x ∈ l /\ f x = inl e.
Proof.
  induction l as [|x l IH]; simpl; [discriminate|].
  destruct (f x) as [e'|b] eqn:Hx.
  - intros H. injection H as <-. exists x. split; [by left|done].
  - rewrite inr_bind. destruct (mapM f l) as [e'|k].
    + intros H. injection H as <-. destruct (IH eq_refl) as (y & Hy & Hfy).
      exists y. split; [by right|done].
    + discriminate.
Qed.

Lemma record_of_raise c event e :
  record_of c event = inl e ->
  exists column attribute,
    (column, attribute) ∈ numeric_fields c /\ float (get event attribute) = inl e.
Proof.
  destruct c; simpl; unfold_records; intros H.
  1,2,3,6:
    destruct (float (get event "value")) as [e'|x] eqn:Hx; [|discriminate H];
    injection H as <-; exists "value", "value";
    (split; [by apply list_elem_of_singleton|done]).
  - destruct (float (get event "dose")) as [e'|x] eqn:Hx.
    + injection H as <-. exists "dose", "dose". split; [by left|done].
    + rewrite inr_bind in H.
      destruct (float (get event "bwz_carb_input")) as [e'|y] eqn:Hy; [|discriminate H].
      injection H as <-. exists "bwz_carb_input", "bwz_carb_input".
      split; [right; by left|done].
  - destruct (float (get event "carbs")) as [e'|x] eqn:Hx; [|discriminate H].
    injection H as <-. exists "carbs", "carbs".
    split; [by apply list_elem_of_singleton|done].
Qed.

Lemma collect_raise c root e :
  collect (find root (section c)) (record_of c) = inl e ->
  exists event, event ∈ events root c /\ record_of c event = inl e.
Proof.
  unfold collect, events. destruct (find root (section c)) as [s|]; [|discriminate].
  apply mapM_inl_inv.
Qed.

(** A conversion of a column that the frame has raises nothing but the
    [ValueError] of [pd.to_datetime]. *)
Lemma convert_raise name df col j e :
  index_of col (columns df) = Some j ->
  outcome (convert name df col) = inl e -> e = ValueError.
Proof.
  intros Hj. rewrite convert_outcome. unfold getitem. rewrite Hj, inr_bind.
  destruct (to_datetime (clock (Call name col))
              (map (fun row => default (VFloat S754_nan) (row !! j)) (data df))
              FORMAT) as [e'|parsed] eqn:Hp.
  - intros H. injection H as <-.
    apply mapMi_inl in Hp as (i & v & _ & Hv & _). by eapply to_datetime_value_raise.
  - rewrite inr_bind. unfold setitem.
    apply mapMi_inr in Hp as [Hp _]. rewrite length_map in Hp.
    rewrite decide_True by done. by rewrite Hj.
Qed.

Lemma finish_raise c (records : list record) e :
  Forall (fun r => map fst r = field_names c) records ->
  outcome (finish c (DataFrame_ records)) = inl e -> e = ValueError.
Proof.
  intros Hkeys.
  destruct (decide (records = [])) as [->|Hne]; [discriminate|].
  rewrite (DataFrame_uniform (field_names c)) by auto using field_names_NoDup.
  unfold finish. rewrite empty_false.
  2: apply field_names_ne.
  2: by destruct records.
  destruct c; simpl.
  1,2,5,6: by apply (convert_raise _ _ _ 0%nat).
  all:
    rewrite outcome_bind;
    match goal with
    | |- outcome ?m ≫= _ = _ -> _ => destruct (outcome m) as [e1|df1] eqn:H1
    end;
    [ rewrite inl_bind; intros H; injection H as <-;
      by apply (convert_raise _ _ _ 0%nat) in H1
    | rewrite inr_bind;
      apply (convert_rows _ _ _ 0%nat) in H1 as [Hcols1 _]; [|reflexivity];
      apply (convert_raise _ _ _ 1%nat); by rewrite Hcols1 ].
Qed.

Lemma collect_keys c root data :
  collect (find root (section c)) (record_of c) = inr data ->
  Forall (fun r => map fst r = field_names c) data.
Proof.
  intros H%collect_events. eapply Forall2_Forall_r; [exact H|].
  apply Forall_forall. intros event _ r Hr. by eapply record_of_keys.
Qed.

Lemma finish_tables_raise data e :
  outcome (finish_tables data) = inl e ->
  exists c, outcome (finish c (DataFrame_ (data c))) = inl e.
Proof.
  unfold finish_tables. intros H.
  repeat (rewrite outcome_bind in H;
          match type of H with
          | outcome ?m ≫= _ = _ =>
              let E := fresh "E" in
              destruct (outcome m) eqn:E;
              [rewrite inl_bind in H; injection H as <-; by eauto
              |rewrite inr_bind in H]
          end).
  discriminate H.
Qed.

(** A run that raises does so in a loop, or in a conversion after the six
    loops have run. *)
Lemma load_raise_cases root e :
  outcome (load_ohiot1dm_xml (inr root)) = inl e ->
  (exists c, collect (find root (section c)) (record_of c) = inl e)
  \/ (exists c data, collect (find root (section c)) (record_of c) = inr data
                     /\ outcome (finish c (DataFrame_ data)) = inl e).
Proof.
  intros H.
  destruct (collect (find root (section glucose_level)) (record_of glucose_level))
    as [e0|dg] eqn:Hg.
  { rewrite (load_loop_raise root glucose_level e0 Hg) in H;
      [injection H as <-; by eauto|].
    intros c' Hlt. simpl in Hlt. lia. }
  destruct (collect (find root (section basal)) (record_of basal)) as [e0|db] eqn:Hb.
  { rewrite (load_loop_raise root basal e0 Hb) in H; [injection H as <-; by eauto|].
    intros c' Hlt. destruct c'; simpl in Hlt; try lia; by eauto. }
  destruct (collect (find root (section temp_basal)) (record_of temp_basal))
    as [e0|dt] eqn:Ht.
  { rewrite (load_loop_raise root temp_basal e0 Ht) in H; [injection H as <-; by eauto|].
    intros c' Hlt. destruct c'; simpl in Hlt; try lia; by eauto. }
  destruct (collect (find root (section bolus)) (record_of bolus)) as [e0|dbo] eqn:Hbo.
  { rewrite (load_loop_raise root bolus e0 Hbo) in H; [injection H as <-; by eauto|].
    intros c' Hlt. destruct c'; simpl in Hlt; try lia; by eauto. }
  destruct (collect (find root (section meal)) (record_of meal)) as [e0|dm] eqn:Hm.
  { rewrite (load_loop_raise root meal e0 Hm) in H; [injection H as <-; by eauto|].
    intros c' Hlt. destruct c'; simpl in Hlt; try lia; by eauto. }
  destruct (collect (find root (section basis_steps)) (record_of basis_steps))
    as [e0|ds] eqn:Hs.
  { rewrite (load_loop_raise root basis_steps e0 Hs) in H; [injection H as <-; by eauto|].
    intros c' Hlt. destruct c'; simpl in Hlt; try lia; by eauto. }
  right.
  rewrite (load_after_loops root
             (fun c => match c with
                       | glucose_level => dg | basal => db | temp_basal => dt
                       | bolus => dbo | meal => dm | basis_steps => ds end)) in H
    by (by intros []).
  apply finish_tables_raise in H as [c Hc].
  destruct c; by eauto.
Qed.

(** X5: a run on a document that was read raises nothing but [TypeError]
    and [ValueError], never [KeyError].  It raises [TypeError] only when an
    event that it visits lacks a numeric attribute; every other failure,
    of [float] or of [pd.to_datetime], is a [ValueError]. *)
Theorem X5_exceptions root e :
  outcome (load_ohiot1dm_xml (inr root)) = inl e ->
  (e = TypeError
   /\ exists c event column attribute,
        event ∈ events root c /\ (column, attribute) ∈ numeric_fields c
        /\ get event attribute = None)
  \/ e = ValueError.
Proof.
  intros [[c Hc]|(c & data & Hc & Hf)]%load_raise_cases.
  - apply collect_raise in Hc as (event & Hev & Hrec).
    apply record_of_raise in Hrec as (column & attribute & Hin & Hfloat).
    destruct (float_raise _ _ Hfloat) as [[Hnone ->]|[_ ->]]; [|by right].
    left. split; [done|]. by exists c, event, column, attribute.
  - right. eapply finish_raise; [|exact Hf]. by eapply collect_keys.
Qed.

(** ** The calls of [pd.to_datetime] *)

Lemma convert_calls_eq name df col df' :
  outcome (convert name df col) = inr df' ->
  calls (convert name df col) = [Call name col].
Proof.
  unfold convert, lift, tell, outcome, calls, mbind, Py_bind.
  destruct (getitem df col) as [?|series]; simpl; [discriminate|].
  by destruct (to_datetime _ series FORMAT) as [?|parsed].
Qed.

Lemma finish_calls_eq c root data df :
  collect (find root (section c)) (record_of c) = inr data ->
  outcome (finish c (DataFrame_ data)) = inr df ->
  calls (finish c (DataFrame_ data)) = conversions root c.
Proof.
  intros Hc Hf. pose proof (collect_length _ _ _ Hc) as Hlen.
  pose proof (collect_keys _ _ _ Hc) as Hkeys.
  unfold conversions.
  destruct (decide (data = [])) as [->|Hne].
  - destruct (events root c); [|discriminate Hlen]. by rewrite decide_True.
  - rewrite decide_False by (intros Hnil; rewrite Hnil in Hlen; by destruct data).
    revert Hf.
    rewrite (DataFrame_uniform (field_names c)) by auto using field_names_NoDup.
    unfold finish. rewrite empty_false.
    2: apply field_names_ne.
    2: by destruct data.
    destruct c; simpl.
    1,2,5,6: apply convert_calls_eq.
    all:
      rewrite outcome_bind, calls_bind;
      match goal with
      | |- outcome ?m ≫= _ = _ -> _ => destruct (outcome m) as [e1|df1] eqn:H1
      end;
      [ rewrite inl_bind; discriminate
      | rewrite inr_bind; intros H2;
        rewrite (convert_calls_eq _ _ _ _ H1), (convert_calls_eq _ _ _ _ H2);
        reflexivity ].
Qed.

(** X6: in a run that returns, [pd.to_datetime] is called once for every
    timestamp column of every table that has rows, and for nothing else: in
    the order of the categories, [ts_begin] before [ts_end]. *)
Theorem X6_conversion_calls root T :
  outcome (load_ohiot1dm_xml (inr root)) = inr T ->
  calls (load_ohiot1dm_xml (inr root))
  = conversions root glucose_level ++ conversions root basal
    ++ conversions root temp_basal ++ conversions root bolus
    ++ conversions root meal ++ conversions root basis_steps.
Proof.
  intros HT.
  destruct (load_lookup _ _ glucose_level HT) as (dg & _ & (g & Hg & Fg)%table_inr).
  destruct (load_lookup _ _ basal HT) as (db & _ & (b & Hb & Fb)%table_inr).
  destruct (load_lookup _ _ temp_basal HT) as (dt & _ & (t & Ht & Ft)%table_inr).
  destruct (load_lookup _ _ bolus HT) as (dbo & _ & (bo & Hbo & Fbo)%table_inr).
  destruct (load_lookup _ _ meal HT) as (dm & _ & (m & Hm & Fm)%table_inr).
  destruct (load_lookup _ _ basis_steps HT) as (ds & _ & (s & Hs & Fs)%table_inr).
  rewrite (load_after_loops root
             (fun c => match c with
                       | glucose_level => g | basal => b | temp_basal => t
                       | bolus => bo | meal => m | basis_steps => s end))
    by (by intros []).
  unfold finish_tables.
  rewrite (Py_bind_inr _ _ _ Fg). simpl calls. simpl outcome.
  rewrite (Py_bind_inr _ _ _ Fb). simpl calls. simpl outcome.
  rewrite (Py_bind_inr _ _ _ Ft). simpl calls. simpl outcome.
  rewrite (Py_bind_inr _ _ _ Fbo). simpl calls. simpl outcome.
  rewrite (Py_bind_inr _ _ _ Fm). simpl calls. simpl outcome.
  rewrite (Py_bind_inr _ _ _ Fs). simpl calls. simpl outcome.
  rewrite (finish_calls_eq _ _ _ _ Hg Fg), (finish_calls_eq _ _ _ _ Hb Fb),
    (finish_calls_eq _ _ _ _ Ht Ft), (finish_calls_eq _ _ _ _ Hbo Fbo),
    (finish_calls_eq _ _ _ _ Hm Fm), (finish_calls_eq _ _ _ _ Hs Fs).
  by rewrite app_nil_r.
Qed.

(** ** What the loader reads of a document *)

(** The loader reads the document through the six [root.find] calls
    alone. *)
Lemma load_sections_ext root root' :
  (forall c, find root (section c) = find root' (section c)) ->
  load_ohiot1dm_xml (inr root) = load_ohiot1dm_xml (inr root').
Proof.
  intros H. unfold load_ohiot1dm_xml. rewrite !lift_inr_bind.
  pose proof (H glucose_level) as Hg. pose proof (H basal) as Hb.
  pose proof (H temp_basal) as Ht. pose proof (H bolus) as Hbo.
  pose proof (H meal) as Hm. pose proof (H basis_steps) as Hs.
  simpl in Hg, Hb, Ht, Hbo, Hm, Hs.
  by rewrite Hg, Hb, Ht, Hbo, Hm, Hs.
Qed.

(** And through the lists that the six loops build. *)
Lemma load_collect_ext root root' :
  (forall c, collect (find root (section c)) (record_of c)
             = collect (find root' (section c)) (record_of c)) ->
  load_ohiot1dm_xml (inr root) = load_ohiot1dm_xml (inr root').
Proof.
  intros H. unfold load_ohiot1dm_xml. rewrite !lift_inr_bind.
  pose proof (H glucose_level) as Hg. pose proof (H basal) as Hb.
  pose proof (H temp_basal) as Ht. pose proof (H bolus) as Hbo.
  pose proof (H meal) as Hm. pose proof (H basis_steps) as Hs.
  simpl in Hg, Hb, Ht, Hbo, Hm, Hs.
  by rewrite Hg, Hb, Ht, Hbo, Hm, Hs.
Qed.

Lemma find_first_filter_keep (P : Element -> Prop) `{!forall x, Decision (P x)} name l :
  (forall x, tag x = name -> P x) ->
  find_first name (filter P l) = find_first name l.
Proof.
  intros HP. induction l as [|x l IH]; [done|].
  rewrite filter_cons. destruct (decide (P x)) as [Hx|Hx]; simpl.
  - by destruct (decide (tag x = name)).
  - destruct (decide (tag x = name)) as [Hn|_]; [|done].
    destruct Hx. by apply HP.
Qed.

Lemma section_inj c c' : section c = section c' -> c = c'.
Proof. by destruct c, c'. Qed.

Lemma section_in_order c : section c ∈ map section category_order.
Proof. destruct c; simpl; set_solver. Qed.

(** X7: the loader reads nothing of the root but its children named after
    the six sections: the tag and the attributes of the root and every
    child of another name can be changed or dropped without any change to
    the outcome or to the calls made. *)
Theorem X7_foreign_children t a t' a' children :
  load_ohiot1dm_xml (inr (mkElement t a children))
  = load_ohiot1dm_xml
      (inr (mkElement t' a'
              (filter (fun x => tag x ∈ map section category_order) children))).
Proof.
  apply load_sections_ext. intros c. unfold find. simpl.
  symmetry. apply find_first_filter_keep.
  intros x ->. apply section_in_order.
Qed.

Lemma get_prune_event c event attribute :
  attribute ∈ attributes c ->
  get (prune_event c event) attribute = get event attribute.
Proof.
  intros Hin. unfold get, prune_event. simpl attrib.
  rewrite map_lookup_filter. destruct (attrib event !! attribute) as [x|]; [|done].
  simpl. by rewrite option_guard_True.
Qed.

Lemma record_of_prune_event c event :
  record_of c (prune_event c event) = record_of c event.
Proof.
  destruct c; simpl; unfold_records;
    rewrite !get_prune_event; try reflexivity;
    unfold attributes; simpl; set_solver.
Qed.

Lemma mapM_map_ext {A B C} (f : B -> result C) (g : A -> B) (h : A -> result C) l :
  (forall x, f (g x) = h x) -> mapM f (map g l) = mapM h l.
Proof.
  intros H. induction l as [|x l IH]; simpl; [done|]. by rewrite H, IH.
Qed.

Lemma findall_prune_section c s :
  findall (prune_section c s) "event" = map (prune_event c) (findall s "event").
Proof.
  unfold findall at 1, prune_section. simpl children.
  induction (findall s "event") as [|x l IH]; [done|].
  rewrite map_cons, filter_cons_True by done. by rewrite IH.
Qed.

Lemma find_prune root c :
  find (prune root) (section c) = prune_section c <$> find root (section c).
Proof.
  unfold prune, find at 1. simpl children. unfold category_order. simpl omap.
  destruct c; simpl section;
    destruct (find root "glucose_level"), (find root "basal"),
      (find root "temp_basal"), (find root "bolus"),
      (find root "meal"), (find root "basis_steps");
    reflexivity.
Qed.

(** X8: of a document the loader reads the first section of each of the six
    names, of a section its [event] children, and of an event the
    attributes of the dict literal of its category.  Everything else (other
    children of a section, children of an event, further attributes, later
    sections of the same name) can be dropped without any change to the
    outcome or to the calls made. *)
Theorem X8_prune root :
  load_ohiot1dm_xml (inr (prune root)) = load_ohiot1dm_xml (inr root).
Proof.
  apply load_collect_ext. intros c. rewrite find_prune.
  destruct (find root (section c)) as [s|]; [|done].
  simpl. rewrite findall_prune_section.
  apply mapM_map_ext, record_of_prune_event.
Qed.

Lemma find_first_Some name l x :
  find_first name l = Some x -> x ∈ l /\ tag x = name.
Proof.
  induction l as [|y l IH]; simpl; [discriminate|].
  destruct (decide (tag y = name)) as [Hy|_].
  - intros H. injection H as <-. split; [by left|done].
  - intros [Hx Ht]%IH. split; [by right|done].
Qed.

Lemma find_first_NoDup l x :
  NoDup (tag <$> l) -> x ∈ l -> find_first (tag x) l = Some x.
Proof.
  induction l as [|y l IH]; simpl; intros Hnd Hx; [by apply elem_of_nil in Hx|].
  apply NoDup_cons in Hnd as [Hy Hnd].
  apply elem_of_cons in Hx as [->|Hx]; [by rewrite decide_True|].
  rewrite decide_False; [by apply IH|].
  intros Heq. apply Hy. rewrite Heq. apply list_elem_of_fmap. by exists x.
Qed.

Lemma find_first_Permutation name l l' :
  NoDup (tag <$> l) -> l ≡ₚ l' -> find_first name l = find_first name l'.
Proof.
  intros Hnd Hperm.
  assert (NoDup (tag <$> l')) as Hnd' by by rewrite <- Hperm.
  destruct (find_first name l) as [x|] eqn:Hl.
  - apply find_first_Some in Hl as [Hx <-].
    symmetry. apply find_first_NoDup; [done|]. by rewrite <- Hperm.
  - destruct (find_first name l') as [y|] eqn:Hl'; [|done].
    apply find_first_Some in Hl' as [Hy <-].
    rewrite find_first_NoDup in Hl; [done..|]. by rewrite Hperm.
Qed.

(** X9: when no two children of the root have the same tag, the order in
    which the sections stand in the document does not matter: the outcome
    and the calls made are the same for every order. *)
Theorem X9_section_order t a children children' :
  NoDup (tag <$> children) ->
  children ≡ₚ children' ->
  load_ohiot1dm_xml (inr (mkElement t a children))
  = load_ohiot1dm_xml (inr (mkElement t a children')).
Proof.
  intros Hnd Hperm. apply load_find_ext. intros name.
  unfold find. simpl. by apply find_first_Permutation.
Qed.

(** X11: a section without [event] children cannot be told from an absent
    one: dropping every section of that name from the document changes
    neither the outcome nor the calls made. *)
Theorem X11_empty_as_absent t a children c s :
  find (mkElement t a children) (section c) = Some s ->
  findall s "event" = [] ->
  load_ohiot1dm_xml (inr (mkElement t a children))
  = load_ohiot1dm_xml
      (inr (mkElement t a (filter (fun x => tag x <> section c) children))).
Proof.
  intros Hfind Hempty. apply load_collect_ext. intros c'.
  unfold find in *. simpl in Hfind. simpl.
  destruct (decide (c' = c)) as [->|Hne].
  - rewrite Hfind. simpl. rewrite Hempty.
    rewrite find_first_none; [done|].
    apply Forall_forall. by intros x [Hx _]%list_elem_of_filter.
  - rewrite find_first_filter; [done|].
    intros Heq. by apply section_inj in Heq.
Qed.

(** ** The example at the end of the file *)

Lemma subscript_tables_of f c : subscript (tables_of f) (key c) = inr (f c).
Proof. unfold subscript. by rewrite tables_of_lookup. Qed.

(** The prints of the example, given the six frames. *)
Lemma main_returns root f :
  outcome (load_ohiot1dm_xml (inr root)) = inr (tables_of f) ->
  main (inr root)
  = (inr (c ← category_order; [Title (title c); Frame (head (f c)); Shape (shape (f c))]),
     calls (load_ohiot1dm_xml (inr root))).
Proof.
  intros H. unfold main. rewrite (Py_bind_inr _ _ _ H).
  pose proof (subscript_tables_of f glucose_level) as Hg.
  pose proof (subscript_tables_of f basal) as Hb.
  pose proof (subscript_tables_of f temp_basal) as Ht.
  pose proof (subscript_tables_of f bolus) as Hbo.
  pose proof (subscript_tables_of f meal) as Hm.
  pose proof (subscript_tables_of f basis_steps) as Hs.
  simpl key in Hg, Hb, Ht, Hbo, Hm, Hs.
  rewrite Hg, lift_inr_bind, Hb, lift_inr_bind, Ht, lift_inr_bind.
  rewrite Hbo, lift_inr_bind, Hm, lift_inr_bind, Hs, lift_inr_bind.
  simpl. by rewrite app_nil_r.
Qed.

(** X12: the six subscripts of the example use the six keys that the
    loader returns: the example never raises [KeyError].  It raises exactly
    when the loader raises, with the same exception, and makes no call of
    [pd.to_datetime] of its own. *)
Theorem X12_main_keys xml_file :
  calls (main xml_file) = calls (load_ohiot1dm_xml xml_file)
  /\ (forall e, outcome (main xml_file) = inl e
                <-> outcome (load_ohiot1dm_xml xml_file) = inl e)
  /\ ((exists out, outcome (main xml_file) = inr out)
      <-> exists T, outcome (load_ohiot1dm_xml xml_file) = inr T).
Proof.
  destruct (outcome (load_ohiot1dm_xml xml_file)) as [e|T] eqn:H.
  - unfold main. rewrite (Py_bind_inl _ _ _ H). simpl.
    split; [done|]. split; [intros e'; split; intros Heq; by injection Heq as ->|].
    split; intros [? ?]; discriminate.
  - destruct xml_file as [e|root]; [discriminate H|].
    pose proof H as (f & _ & ->)%load_returns.
    rewrite (main_returns root f H). simpl.
    split; [done|]. split; [|by split; eauto].
    intros e. split; discriminate.
Qed.

(** X13: when the loader returns, the example prints for each category, in
    the order of the categories, its title, the first five rows of its
    table (the rows of the first five events of its section, in document
    order) and its shape: the number of events of the section by the number
    of fields of the category, 0 by 0 for a category without events. *)
Theorem X13_main_prints root out :
  outcome (main (inr root)) = inr out ->
  exists f,
    outcome (load_ohiot1dm_xml (inr root)) = inr (tables_of f)
    /\ out = (c ← category_order; [Title (title c); Frame (head (f c)); Shape (shape (f c))])
    /\ forall c,
         mapMi (row_of c) (take 5 (events root c)) = inr (data (head (f c)))
         /\ shape (f c)
            = (length (events root c),
               if decide (events root c = []) then 0%nat else length (field_names c)).
Proof.
  intros Hout.
  destruct (outcome (load_ohiot1dm_xml (inr root))) as [e|T] eqn:H.
  { unfold main in Hout. rewrite (Py_bind_inl _ _ _ H) in Hout. discriminate Hout. }
  pose proof H as (f & Hf & ->)%load_returns.
  exists f. split; [done|].
  rewrite (main_returns root f H) in Hout. simpl in Hout. injection Hout as <-.
  split; [done|]. intros c.
  pose proof (table_rows _ _ _ (Hf c)) as Hrows.
  pose proof (table_columns _ _ _ (Hf c)) as Hcols.
  split.
  - apply mapMi_inr. simpl. by apply Forall2i_take.
  - unfold shape. rewrite Hcols. destruct Hrows as [<- _].
    by destruct (decide (events root c = [])).
Qed.

(** ** Dates that are not in the calendar *)

(** The text of a date whose day the month does not have is read by the
    regular expression and then refused. *)
Lemma parse_strftime_no_such_day t :
  1 <= year t <= 9999 -> 1 <= month t <= 12 ->
  days_in_month (year t) (month t) < day t <= 31 ->
  0 <= hour t < 24 -> 0 <= minute t < 60 -> 0 <= second t < 60 ->
  parse FORMAT (strftime t) = None.
Proof.
  destruct t as [Y M D h mi s]. simpl.
  intros HY HM HD Hh Hmi Hs.
  assert (28 <= days_in_month Y M) as Hdim.
  { unfold days_in_month. repeat case_match; lia. }
  unfold parse.
  change (pattern FORMAT)
    with ([Directive "d"; Literal "-"] ++ [Directive "m"; Literal "-"]
          ++ [Directive "Y"] ++ [Whitespace; Directive "H"; Literal ":"]
          ++ [Directive "M"; Literal ":"] ++ [Directive "S"])%list.
  unfold strftime. simpl year. simpl month. simpl day. simpl hour.
  simpl minute. simpl second.
  rewrite match_items_app, match_day by lia.
  rewrite match_items_app, match_month by lia.
  rewrite match_items_app, match_year by lia.
  rewrite match_items_app, match_hour by lia.
  rewrite match_items_app, match_minute by lia.
  rewrite match_second by lia.
  simpl year. simpl month. simpl day.
  unfold valid_date.
  rewrite (proj2 (Z.leb_gt D (days_in_month Y M))) by lia.
  by rewrite !andb_false_r.
Qed.

(** X14: a timestamp attribute written as DD-MM-YYYY HH:MM:SS whose day the
    month does not have (the 31st of a month of 30 days, the 30th of
    February, the 29th of February of a year that is no leap year) is not
    rolled over into the next month: the conversion raises [ValueError],
    and the run raises. *)
Theorem X14_no_such_day root c event column attribute t :
  event ∈ events root c ->
  (column, attribute) ∈ timestamp_fields c ->
  get event attribute = Some (strftime t) ->
  1 <= year t <= 9999 -> 1 <= month t <= 12 ->
  days_in_month (year t) (month t) < day t <= 31 ->
  0 <= hour t < 24 -> 0 <= minute t < 60 -> 0 <= second t < 60 ->
  (forall now, to_datetime_value now FORMAT (VStr (strftime t)) = inl ValueError)
  /\ exists e, outcome (load_ohiot1dm_xml (inr root)) = inl e.
Proof.
  intros Hev Hfield Hget HY HM HD Hh Hmi Hs.
  assert (forall now, to_datetime_value now FORMAT (VStr (strftime t)) = inl ValueError)
    as Hconv.
  { intros now. unfold to_datetime_value.
    by rewrite strftime_not_null, strftime_not_now, parse_strftime_no_such_day. }
  split; [done|].
  apply list_elem_of_lookup in Hev as [i Hi].
  eapply timestamp_raise_load_raise; [done..|]. rewrite Hget. apply Hconv.
Qed.

(** ** Whitespace around a number *)

(** X15: [float] does trim: a numeric attribute reads the same with any
    whitespace (spaces, tabs, line ends) before and after it.  The text is
    a number with its padding exactly when it is one without, and the value
    is the same. *)
Theorem X15_float_padding ws1 text ws2 :
  all_space ws1 = true -> all_space ws2 = true ->
  float (Some (ws1 +:+ text +:+ ws2)) = float (Some text).
Proof.
  intros H1 H2. unfold float, PyFloat.of_string, PyFloat.parse_literal.
  by rewrite to_ascii_padding.
Qed.

End Loader.

(** * Two runs *)

Import strptime.
Import PyFloat.

(** Apart from the texts ["now"] and ["today"], a conversion does not look
    at the clock. *)
Lemma to_datetime_value_clock now now' fmt v :
  v <> VStr "now" -> v <> VStr "today" ->
  to_datetime_value now fmt v = to_datetime_value now' fmt v.
Proof.
  intros H1 H2. destruct v as [|s| | |]; try reflexivity.
  unfold to_datetime_value.
  rewrite (bool_decide_eq_false_2 (s = "now")) by congruence.
  by rewrite (bool_decide_eq_false_2 (s = "today")) by congruence.
Qed.

Lemma text_not_now x s : x <> Some s -> text x <> VStr s.
Proof. destruct x; simpl; congruence. Qed.

Ltac same_readings clock clock' H :=
  repeat match goal with
         | |- context [to_datetime_value (clock (Call ?n ?col) ?i) FORMAT
                         (text (get _ ?a))] =>
             rewrite (H col a (clock (Call n col) i) (clock' (Call n col) i))
               by (simpl; set_solver)
         end.

Lemma row_of_clock clock clock' c (i : nat) event :
  (forall column attribute, (column, attribute) ∈ timestamp_fields c ->
     get event attribute <> Some "now" /\ get event attribute <> Some "today") ->
  row_of clock c i event = row_of clock' c i event.
Proof.
  intros H. unfold row_of.
  destruct (record_of c event) as [e|r] eqn:Hr; [done|]. rewrite !inr_bind.
  assert (forall column attribute now now', (column, attribute) ∈ timestamp_fields c ->
            to_datetime_value now FORMAT (text (get event attribute))
            = to_datetime_value now' FORMAT (text (get event attribute))) as Hconv.
  { intros column attribute now now' [H1 H2]%H.
    apply to_datetime_value_clock; by apply text_not_now. }
  clear H.
  destruct c; simpl in Hr;
    unfold glucose_record, basal_record, tempbasal_record, bolus_record,
      meal_record, step_record in Hr;
    repeat (apply bind_inr in Hr as (? & ? & Hr); cbv beta in Hr);
    injection Hr as <-; unfold convert_record; simpl.
  all: same_readings clock clock' Hconv; reflexivity.
Qed.

(** X10: the table of a category depends on the section of that category
    alone, and on the clock only through the texts ["now"] and ["today"]:
    two documents with the same section for it, none of whose timestamp
    attributes is one of these two texts, have the same table for it in
    any two runs that return, whatever their other sections hold and
    whatever the clock shows. *)
Theorem X10_independent_tables clock clock' root root' T T' c :
  find root (section c) = find root' (section c) ->
  (forall event column attribute,
     event ∈ events root c -> (column, attribute) ∈ timestamp_fields c ->
     get event attribute <> Some "now" /\ get event attribute <> Some "today") ->
  outcome (load_ohiot1dm_xml clock (inr root)) = inr T ->
  outcome (load_ohiot1dm_xml clock' (inr root')) = inr T' ->
  T !! key c = T' !! key c.
Proof.
  intros Hfind Hnow HT HT'.
  destruct (load_lookup clock _ _ c HT) as (df & -> & Hdf).
  destruct (load_lookup clock' _ _ c HT') as (df' & -> & Hdf').
  pose proof (table_rows _ _ _ _ Hdf) as Hrows.
  pose proof (table_rows _ _ _ _ Hdf') as Hrows'.
  pose proof (table_columns _ _ _ _ Hdf) as Hcols.
  pose proof (table_columns _ _ _ _ Hdf') as Hcols'.
  assert (events root' c = events root c) as Hev by (unfold events; by rewrite Hfind).
  rewrite Hev in Hrows', Hcols'.
  apply mapMi_inr in Hrows, Hrows'.
  rewrite (mapMi_ext _ (row_of clock' c)) in Hrows.
  - destruct df as [cols rows], df' as [cols' rows']. simpl in *.
    do 2 f_equal; congruence.
  - intros i event Hi. apply row_of_clock. intros column attribute Hin.
    eapply Hnow; [|exact Hin]. by eapply list_elem_of_lookup_2.
Qed.

(** * Sample runs *)

Ltac field_case H :=
  simpl in H;
  repeat (apply elem_of_cons in H as [H|H]; [injection H as -> ->|]);
  try (by apply elem_of_nil in H).

(** C1, as the specification states it, fails on the document without
    sections: the dict returned has the keys of the source, ["tempbasal"]
    and ["step"] among them, not ["temp_basal"] and ["basis_steps"]. *)
Lemma C1_spec_keys_counterexample :
  exists T, outcome (load_ohiot1dm_xml noon (inr empty_document)) = inr T
            /\ dom T <> spec_keys
            /\ T !! "temp_basal" = None /\ T !! "basis_steps" = None
            /\ is_Some (T !! "tempbasal") /\ is_Some (T !! "step").
Proof.
  destruct (outcome (load_ohiot1dm_xml noon (inr empty_document))) as [e|T] eqn:H.
  - vm_compute in H. discriminate H.
  - exists T. split; [reflexivity|].
    apply load_returns in H as (f & _ & ->).
    split; [rewrite tables_of_dom; apply source_keys_not_spec_keys|].
    unfold tables_of. simpl key. by simplify_map_eq.
Qed.

Lemma C1_six_tables_witness :
  outcome (load_ohiot1dm_xml noon (inr sample_document)) = inr sample_tables
  /\ dom sample_tables = source_keys /\ size sample_tables = 6%nat.
Proof.
  split; [vm_compute; reflexivity|].
  pose proof (C1_six_tables noon sample_document sample_tables) as H.
  split; apply H; vm_compute; reflexivity.
Defined.

Lemma C3_empty_table_witness :
  find sample_document (section basal) = None
  /\ table noon basal sample_document = (inr (mkDataFrame [] []), [])
  /\ sample_tables !! key basal = Some (mkDataFrame [] []).
Proof.
  split; [reflexivity|].
  destruct (C3_empty_table noon sample_document basal) as (Ht & HT & _).
  - left. reflexivity.
  - split; [exact Ht|]. apply HT. vm_compute. reflexivity.
Defined.

Lemma C4_row_count_witness :
  len (three_events_frames glucose_level) = 3%nat
  /\ len (three_events_frames glucose_level)
     = length (events three_events_document glucose_level).
Proof.
  split; [reflexivity|].
  apply (C4_row_count noon three_events_document three_events_tables glucose_level);
    vm_compute; reflexivity.
Defined.

Lemma C5_row_order_witness :
  mapMi (row_of noon glucose_level) (events three_events_document glucose_level)
  = inr [[VTimestamp (mkTimestamp 2021 1 3 0 0 0); VFloat f3];
         [VTimestamp (mkTimestamp 2021 1 1 0 0 0); VFloat f1];
         [VTimestamp (mkTimestamp 2021 1 3 0 0 0); VFloat f3]].
Proof.
  apply (C5_row_order noon three_events_document three_events_tables glucose_level
           (three_events_frames glucose_level));
    vm_compute; reflexivity.
Defined.

Lemma C6_first_section_wins_witness :
  events (two_meals breakfast dinner) meal = [breakfast]
  /\ exists T df,
       outcome (load_ohiot1dm_xml noon (inr (two_meals breakfast dinner))) = inr T
       /\ T !! "meal" = Some df
       /\ columns df = field_names meal
       /\ data df = [[VTimestamp (mkTimestamp 2021 1 1 8 0 0); VStr "Breakfast"; VFloat f40]].
Proof.
  destruct (C6_first_section_wins noon "patient" ∅ [] (mkElement "meal" ∅ [breakfast])
              [mkElement "meal" ∅ [dinner]] meal) as (_ & Hev & _ & Hrow).
  - reflexivity.
  - constructor.
  - split; [exact Hev|].
    apply (Hrow breakfast dinner); [reflexivity|vm_compute; reflexivity].
Defined.

Lemma C8_all_or_nothing_witness :
  (exists df, outcome (table noon glucose_level bad_bolus_document) = inr df)
  /\ outcome (table noon bolus bad_bolus_document) = inl ValueError
  /\ exists e, outcome (load_ohiot1dm_xml noon (inr bad_bolus_document)) = inl e.
Proof.
  split; [eexists; vm_compute; reflexivity|].
  split; [vm_compute; reflexivity|].
  destruct (C8_all_or_nothing noon (inr bad_bolus_document)) as (_ & _ & H).
  apply (H bad_bolus_document bolus ValueError); [reflexivity|].
  vm_compute. reflexivity.
Defined.

(** C2, as stated, fails: the events of [missing_text_document] lack the
    text attribute [type] and the timestamp attribute [ts], and the run
    returns its tables. *)
Lemma C2_missing_text_counterexample :
  meal_without_text ∈ events missing_text_document meal
  /\ get meal_without_text "type" = None
  /\ get meal_without_text "ts" = None
  /\ outcome (load_ohiot1dm_xml noon (inr missing_text_document))
     = inr missing_text_tables.
Proof.
  split; [|split; [|split]]; try (vm_compute; reflexivity).
  apply list_elem_of_singleton. reflexivity.
Qed.

Lemma C2_missing_numeric_witness :
  get glucose_without_value "value" = None
  /\ exists e, outcome (load_ohiot1dm_xml noon (inr missing_value_document)) = inl e.
Proof.
  split; [reflexivity|].
  apply (C2_missing_numeric noon missing_value_document glucose_level
           glucose_without_value "value" "value").
  - apply list_elem_of_singleton. reflexivity.
  - apply list_elem_of_singleton. reflexivity.
  - reflexivity.
Defined.

Lemma C10_null_fields_witness :
  get meal_without_text "ts" = None
  /\ get meal_without_text "type" = None
  /\ exists T df row,
       outcome (load_ohiot1dm_xml noon (inr missing_text_document)) = inr T
       /\ T !! key meal = Some df
       /\ data df !! 0%nat = Some row
       /\ row_of noon meal 0 meal_without_text = inr row
       /\ cell df 0 "timestamp" = Some VNaT
       /\ cell df 0 "type" = Some VNone.
Proof.
  split; [reflexivity|]. split; [reflexivity|].
  destruct (C10_null_fields noon meal meal_without_text) as (_ & _ & Hrun).
  { intros column attribute Hin. field_case Hin. eexists. vm_compute. reflexivity. }
  destruct (Hrun missing_text_document 0%nat)
    as (T & df & row & HT & Hdf & Hrow & Hrowof & Hcell).
  - reflexivity.
  - intros column attribute s Hin Hget. field_case Hin. discriminate Hget.
  - intros c' j event' Hj Hne. destruct c'.
    + change (events missing_text_document glucose_level) with [glucose_without_ts] in Hj.
      destruct j as [|j]; [|by rewrite lookup_cons, lookup_nil in Hj].
      injection Hj as <-. eexists. vm_compute. reflexivity.
    + change (events missing_text_document basal) with (@nil Element) in Hj.
      by rewrite lookup_nil in Hj.
    + change (events missing_text_document temp_basal) with (@nil Element) in Hj.
      by rewrite lookup_nil in Hj.
    + change (events missing_text_document bolus) with (@nil Element) in Hj.
      by rewrite lookup_nil in Hj.
    + change (events missing_text_document meal) with [meal_without_text] in Hj.
      destruct j as [|j]; [by destruct Hne|].
      by rewrite lookup_cons, lookup_nil in Hj.
    + change (events missing_text_document basis_steps) with (@nil Element) in Hj.
      by rewrite lookup_nil in Hj.
  - exists T, df, row. split; [done|]. split; [done|]. split; [done|]. split; [done|].
    split.
    + apply (Hcell "timestamp" "ts"); [reflexivity|].
      apply list_elem_of_singleton. reflexivity.
    + apply (Hcell "type" "type"); [reflexivity|].
      apply list_elem_of_singleton. reflexivity.
Defined.

(** C7, as stated, fails: the text ["NaT"] does not match the format, and
    the run returns, with [NaT] in the cell. *)
Lemma C7_null_marker_counterexample :
  parse FORMAT "NaT" = None
  /\ get (event_ [("ts", "NaT"); ("value", "120.5")]) "ts" = Some "NaT"
  /\ outcome (load_ohiot1dm_xml noon (inr nat_text_document)) = inr nat_text_tables
  /\ cell (nat_text_frames glucose_level) 0 "timestamp" = Some VNaT.
Proof.
  repeat split; vm_compute; reflexivity.
Qed.

Lemma C7_timestamps_witness :
  well_formed (mkTimestamp 2021 12 2 6 14 0)
  /\ strftime (mkTimestamp 2021 12 2 6 14 0) = "02-12-2021 06:14:00"
  /\ to_datetime_value (mkTimestamp 2024 5 6 7 8 9) FORMAT
       (VStr (strftime (mkTimestamp 2021 12 2 6 14 0)))
     = inr (VTimestamp (mkTimestamp 2021 12 2 6 14 0))
  /\ (exists T df,
        outcome (load_ohiot1dm_xml ticking (inr now_document)) = inr T
        /\ T !! key glucose_level = Some df
        /\ cell df 0 "timestamp" = Some (VTimestamp (mkTimestamp 2021 1 1 12 0 0))
        /\ cell df 1 "timestamp" = Some (VTimestamp (mkTimestamp 2021 1 1 12 0 1)))
  /\ parse FORMAT "2021-12-02 06:14:00" = None
  /\ (exists e, outcome (load_ohiot1dm_xml noon (inr iso_text_document)) = inl e)
  /\ parse FORMAT "01-01-3000 00:00:00" = Some (mkTimestamp 3000 1 1 0 0 0)
  /\ (exists e, outcome (load_ohiot1dm_xml noon (inr far_future_document)) = inl e).
Proof.
  assert (well_formed (mkTimestamp 2021 12 2 6 14 0)) as Hwf.
  { unfold well_formed. simpl. repeat split; try reflexivity; lia. }
  split; [exact Hwf|]. split; [reflexivity|].
  destruct (C7_timestamps noon) as (_ & Hconv & _ & _ & Hraise).
  destruct (C7_timestamps ticking) as (_ & _ & _ & Hcell & _).
  assert (forall s : string, s <> "NaT" -> s <> "nat" -> s <> "NAT" -> s <> "nan" ->
            s <> "NaN" -> s <> "NAN" -> s ∉ nat_strings) as Hnat.
  { intros s ? ? ? ? ? ? H. unfold nat_strings in H.
    repeat (apply elem_of_cons in H as [H|H]; [done|]).
    by apply elem_of_nil in H. }
  split; [exact (Hconv _ _ Hwf)|]. split; [|split; [reflexivity|split; [|split]]].
  - destruct (outcome (load_ohiot1dm_xml ticking (inr now_document))) as [e|T] eqn:HT;
      [vm_compute in HT; discriminate HT|].
    destruct (load_lookup ticking _ _ glucose_level HT) as (df & Hdf & _).
    exists T, df. split; [done|]. split; [done|]. split.
    + apply (Hcell now_document T glucose_level df 0%nat
               (event_ [("ts", "now"); ("value", "120.5")]) "timestamp" "ts" "now");
        try done.
      apply list_elem_of_singleton. reflexivity.
    + apply (Hcell now_document T glucose_level df 1%nat
               (event_ [("ts", "now"); ("value", "120.5")]) "timestamp" "ts" "now");
        try done.
      apply list_elem_of_singleton. reflexivity.
  - apply (Hraise iso_text_document glucose_level
             (event_ [("ts", "2021-12-02 06:14:00"); ("value", "120.5")])
             "timestamp" "ts" "2021-12-02 06:14:00"); try done.
    + apply list_elem_of_singleton. reflexivity.
    + apply list_elem_of_singleton. reflexivity.
    + by apply Hnat.
    + by left.
  - reflexivity.
  - apply (Hraise far_future_document glucose_level
             (event_ [("ts", "01-01-3000 00:00:00"); ("value", "120.5")])
             "timestamp" "ts" "01-01-3000 00:00:00"); try done.
    + apply list_elem_of_singleton. reflexivity.
    + apply list_elem_of_singleton. reflexivity.
    + by apply Hnat.
    + right. by exists (mkTimestamp 3000 1 1 0 0 0).
Defined.

Lemma X1_columns_witness :
  columns (sample_frames bolus) = ["ts_begin"; "ts_end"; "type"; "dose"; "bwz_carb_input"]
  /\ getitem (sample_frames meal) "timestamp" = inl KeyError.
Proof.
  destruct (X1_columns noon sample_document sample_tables bolus (sample_frames bolus))
    as (Hcols & _); [vm_compute; reflexivity..|].
  destruct (X1_columns noon sample_document sample_tables meal (sample_frames meal))
    as (_ & _ & Hempty); [vm_compute; reflexivity..|].
  split.
  - apply Hcols. discriminate.
  - apply Hempty. reflexivity.
Defined.

Lemma X2_typed_cells_witness :
  exists v, cell (missing_text_frames meal) 0 "timestamp" = Some v
            /\ is_timestamp v = true.
Proof.
  destruct (X2_typed_cells noon missing_text_document missing_text_tables meal
              (missing_text_frames meal) 0%nat [VNaT; VNone; VFloat f40])
    as (Hts & _); [vm_compute; reflexivity..|].
  apply (Hts "timestamp" "ts"). apply list_elem_of_singleton. reflexivity.
Defined.

Lemma X3_loops_before_conversions_witness :
  parse FORMAT "2021-01-01 00:00:00" = None
  /\ load_ohiot1dm_xml noon (inr two_faults_document) = (inl TypeError, []).
Proof.
  split; [reflexivity|].
  apply (X3_loops_before_conversions noon two_faults_document basis_steps
           [event_ [("ts", "01-01-2021 00:00:00"); ("value", "12")]]
           (event_ [("ts", "01-01-2021 00:05:00")]) []).
  - reflexivity.
  - constructor; [|constructor]. eexists. vm_compute. reflexivity.
  - reflexivity.
  - intros c' Hlt. destruct c'; simpl in Hlt; try lia;
      try exact (Forall_nil_2 _).
    change (events two_faults_document glucose_level)
      with [event_ [("ts", "2021-01-01 00:00:00"); ("value", "120.5")]].
    constructor; [|constructor]. eexists. vm_compute. reflexivity.
Defined.

Lemma X4_record_exception_witness :
  get faulty_bolus "dose" = None
  /\ float (get faulty_bolus "bwz_carb_input") = inl ValueError
  /\ record_of bolus faulty_bolus = inl TypeError.
Proof.
  split; [reflexivity|]. split; [reflexivity|].
  apply (X4_record_exception bolus faulty_bolus [] "dose" "dose"
           [("bwz_carb_input", "bwz_carb_input")] TypeError).
  - reflexivity.
  - constructor.
  - reflexivity.
Defined.

Lemma X5_exceptions_witness :
  outcome (load_ohiot1dm_xml noon (inr missing_value_document)) = inl TypeError
  /\ exists c event column attribute,
       event ∈ events missing_value_document c
       /\ (column, attribute) ∈ numeric_fields c
       /\ get event attribute = None.
Proof.
  split; [vm_compute; reflexivity|].
  destruct (X5_exceptions noon missing_value_document TypeError) as [[_ H]|H];
    [vm_compute; reflexivity|exact H|discriminate H].
Defined.

Lemma X6_conversion_calls_witness :
  calls (load_ohiot1dm_xml noon (inr sample_document))
  = [Call "df_glucose" "timestamp"; Call "df_bolus" "ts_begin"; Call "df_bolus" "ts_end"].
Proof.
  rewrite (X6_conversion_calls noon sample_document sample_tables).
  - reflexivity.
  - vm_compute. reflexivity.
Defined.

Lemma X9_section_order_witness :
  load_ohiot1dm_xml noon (inr sample_document)
  = load_ohiot1dm_xml noon (inr swapped_sample_document).
Proof.
  apply X9_section_order.
  - apply (bool_decide_unpack _). by vm_compute.
  - apply Permutation_swap.
Defined.

Lemma X10_independent_tables_witness :
  sample_tables !! key glucose_level
  = tables_of sample_with_meal_frames !! key glucose_level.
Proof.
  apply (X10_independent_tables noon ticking sample_document sample_with_meal_document).
  - reflexivity.
  - intros event column attribute Hev Hin.
    change (events sample_document glucose_level)
      with [event_ [("ts", "01-01-2021 00:00:00"); ("value", "120.5")]] in Hev.
    apply list_elem_of_singleton in Hev as ->. field_case Hin.
    split; discriminate.
  - vm_compute. reflexivity.
  - vm_compute. reflexivity.
Defined.

Lemma X11_empty_as_absent_witness :
  load_ohiot1dm_xml noon (inr (mkElement "patient" ∅ [mkElement "meal" ∅ []]))
  = load_ohiot1dm_xml noon (inr empty_document).
Proof.
  apply (X11_empty_as_absent noon "patient" ∅ [mkElement "meal" ∅ []] meal
           (mkElement "meal" ∅ [])); reflexivity.
Defined.

Lemma X13_main_prints_witness :
  exists out f,
    outcome (main noon (inr sample_document)) = inr out
    /\ outcome (load_ohiot1dm_xml noon (inr sample_document)) = inr (tables_of f)
    /\ shape (f bolus) = (1%nat, 5%nat)
    /\ shape (f meal) = (0%nat, 0%nat).
Proof.
  assert (outcome (main noon (inr sample_document))
          = inr (c ← category_order;
                 [Title (title c); Frame (head (sample_frames c));
                  Shape (shape (sample_frames c))])) as Hout
    by (vm_compute; reflexivity).
  destruct (X13_main_prints noon sample_document _ Hout) as (f & Hf & _ & Hshape).
  eexists _, f. split; [exact Hout|]. split; [exact Hf|]. split.
  - by destruct (Hshape bolus) as [_ ->].
  - by destruct (Hshape meal) as [_ ->].
Defined.

Lemma X14_no_such_day_witness :
  strftime (mkTimestamp 2021 2 29 12 0 0) = "29-02-2021 12:00:00"
  /\ to_datetime_value (mkTimestamp 2024 5 6 7 8 9) FORMAT (VStr "29-02-2021 12:00:00")
     = inl ValueError
  /\ exists e, outcome (load_ohiot1dm_xml noon (inr leap_day_document)) = inl e.
Proof.
  split; [reflexivity|].
  destruct (X14_no_such_day noon leap_day_document glucose_level
              (event_ [("ts", "29-02-2021 12:00:00"); ("value", "120.5")])
              "timestamp" "ts" (mkTimestamp 2021 2 29 12 0 0)) as [Hconv Hrun].
  - apply list_elem_of_singleton. reflexivity.
  - apply list_elem_of_singleton. reflexivity.
  - reflexivity.
  - simpl. lia.
  - simpl. lia.
  - vm_compute. split; [reflexivity|discriminate].
  - simpl. lia.
  - simpl. lia.
  - simpl. lia.
  - split; [apply Hconv|exact Hrun].
Defined.

Lemma X15_float_padding_witness :
  float (Some "  120.5 ") = float (Some "120.5").
Proof.
  apply (X15_float_padding "  " "120.5" " "); reflexivity.
Defined.

Lemma C9_numeric_witness :
  float_text "120.5" (Decimal false 1205 (-1))
  /\ float (Some "120.5") = inr f120_5
  /\ (forall l, ~ float_text "two" l)
  /\ exists e, outcome (load_ohiot1dm_xml noon (inr bad_bolus_document)) = inl e.
Proof.
  destruct (C9_numeric noon) as (_ & _ & _ & Hexact & _ & _ & Hraise).
  assert (float_text "120.5" (Decimal false 1205 (-1))) as Htext.
  { exists "", "120.5", "". split; [reflexivity|]. split; [reflexivity|].
    split; [reflexivity|]. split; [by apply underscores_ok_grouped|].
    exact (literal_decimal NoSign "120" "." "5" "" 0 eq_refl eq_refl
             ltac:(discriminate) (or_introl eq_refl) no_exponent). }
  assert (forall l, ~ float_text "two" l) as Htwo.
  { intros l Hl%parse_literal_spec. discriminate Hl. }
  split; [exact Htext|]. split; [|split; [exact Htwo|]].
  - apply (Hexact "120.5" false 1205 (-1)); [exact Htext|lia|].
    exists 8479433673408512, (-46). unfold canonical, prec, emax, emin.
    repeat split; try reflexivity; lia.
  - apply (Hraise bad_bolus_document bolus
             (event_ [("ts_begin", "01-01-2021 00:05:00"); ("ts_end", "01-01-2021 00:10:00");
                      ("type", "normal"); ("dose", "two"); ("bwz_carb_input", "30.0")])
             "dose" "dose" "two").
    + apply list_elem_of_singleton. reflexivity.
    + simpl. apply elem_of_cons. by left.
    + reflexivity.
    + exact Htwo.
Defined.
